(** * ctapipe: the sim_telarray event source

    A shallow embedding of [ctapipe/io/simteleventsource.py]:
    - [apply_simtel_r1_calibration] (pedestal subtraction, conversion to
      photo-electrons, gain selection) over numpy-like arrays;
    - [build_camera] and [prepare_subarray_info] with the per-instance camera
      cache, cameras being heap objects with an identity;
    - the constructor of [SimTelEventSource];
    - the event generator, which fills one shared
      [EventAndMonDataContainer] and yields it once per accepted array
      event.

    Python exceptions are the [Raise] results of a state-and-error monad
    [M] over the [world] of one event source (object heaps, camera cache,
    file cursor, the MC run headers read from the file, emitted
    warnings). *)

From Stdlib Require Import ZArith Floats Uint63.
From stdpp Require Import gmap strings list.

(** ** Exceptions and results *)

(** Keys of the dictionaries read from the file. *)
Inductive key : Type :=
| Name (s : string)
| TelId (tel_id : Z).

Inductive exn : Type :=
| EOFError
| IOError
| RuntimeError
| KeyError (k : key)
| IndexError
| ValueError
| StopIteration.

Inductive result (A : Type) : Type :=
| Ok (a : A)
| Raise (e : exn).
Arguments Ok {A} a.
Arguments Raise {A} e.

#[global] Instance result_ret : MRet result := fun A a => Ok a.
#[global] Instance result_bind : MBind result := fun A B f r =>
  match r with
  | Ok a => f a
  | Raise e => Raise e
  end.

(** [d[key]] on a dict that may lack the key. *)
Definition getitem {A : Type} (k : key) (o : option A) : result A :=
  match o with
  | Some a => Ok a
  | None => Raise (KeyError k)
  end.

Fixpoint mapM_result {A B : Type} (f : A -> result B) (l : list A) : result (list B) :=
  match l with
  | [] => Ok []
  | x :: l' => y ← f x; ys ← mapM_result f l'; Ok (y :: ys)
  end.

(** ** numpy scalars and arrays *)

(** The scalar arithmetic of numpy arrays (with numpy's type promotion),
    as far as the event source uses it. *)
Class Scalar (num : Type) : Type := {
  subtract : num -> num -> num;
  true_divide : num -> num -> num;
  multiply : num -> num -> num;
  negative : num -> num;
  of_int : Z -> num;
  isnan : num -> bool;
  nan : num;
  isnan_nan : isnan nan = true
}.

(** IEEE 754 binary64, numpy's [float64]. *)
Definition float_of_int (z : Z) : float :=
  if decide (0 <= z)%Z then PrimFloat.of_uint63 (Uint63.of_Z z)
  else PrimFloat.opp (PrimFloat.of_uint63 (Uint63.of_Z (- z))).

#[global] Instance float64 : Scalar float := {|
  subtract := PrimFloat.sub;
  true_divide := PrimFloat.div;
  multiply := PrimFloat.mul;
  negative := PrimFloat.opp;
  of_int := float_of_int;
  isnan := PrimFloat.is_nan;
  nan := PrimFloat.nan;
  isnan_nan := eq_refl
|}.

(** numpy's broadcasting rule for one axis; [e] is what is raised when the
    lengths do not fit ([ValueError] in arithmetic, [IndexError] in
    indexing). *)
Definition broadcast_dim (e : exn) (m n : nat) : result nat :=
  if decide (m = n) then Ok m
  else if decide (m = 1) then Ok n
  else if decide (n = 1) then Ok m
  else Raise e.

(** The items of two axes that broadcast against each other. *)
Definition broadcast_zip {A B C : Type} (f : A -> B -> C)
    (xs : list A) (ys : list B) : list C :=
  if decide (length xs = length ys) then zip_with f xs ys
  else match ys with
       | [y] => map (fun x => f x y) xs
       | _ => match xs with
              | [x] => map (f x) ys
              | _ => []
              end
       end.

(** An index into an axis of [size] items; negative indices count from
    the end. *)
Definition normalize_index (size : nat) (i : Z) : result nat :=
  if decide (0 <= i < Z.of_nat size)%Z then Ok (Z.to_nat i)
  else if decide (- Z.of_nat size <= i < 0)%Z then Ok (Z.to_nat (i + Z.of_nat size))
  else Raise IndexError.

Section Arrays.
Context {num : Type} `{Scalar num}.

Record ndarray2 : Type := {
  shape2 : nat * nat;
  items2 : list (list num)
}.

Record ndarray3 : Type := {
  shape3 : nat * nat * nat;
  items3 : list (list (list num))
}.

(** The nested items agree with the shape. *)
Definition wf2 (a : ndarray2) : Prop :=
  length (items2 a) = (shape2 a).1 /\
  Forall (fun row => length row = (shape2 a).2) (items2 a).

Definition wf3 (a : ndarray3) : Prop :=
  length (items3 a) = (shape3 a).1.1 /\
  Forall (fun ch =>
    length ch = (shape3 a).1.2 /\
    Forall (fun px => length px = (shape3 a).2) ch) (items3 a).

Definition item2 (a : ndarray2) (i j : nat) : option num :=
  row ← items2 a !! i; row !! j.

Definition item3 (a : ndarray3) (c p s : nat) : option num :=
  ch ← items3 a !! c; px ← ch !! p; px !! s.

(** [a[..., np.newaxis]] *)
Definition newaxis (a : ndarray2) : ndarray3 :=
  {| shape3 := (shape2 a, 1);
     items3 := map (map (fun x => [x])) (items2 a) |}.

(** [a / k] and the like, for a Python scalar [k]. *)
Definition scalar_op (f : num -> num -> num) (a : ndarray3) (k : num) : ndarray3 :=
  {| shape3 := shape3 a;
     items3 := map (map (map (fun x => f x k))) (items3 a) |}.

(** [a - b] and the like, with broadcasting. *)
Definition binary_op (f : num -> num -> num) (a b : ndarray3) : result ndarray3 :=
  let '(ca, pa, sa) := shape3 a in
  let '(cb, pb, sb) := shape3 b in
  c ← broadcast_dim ValueError ca cb;
  p ← broadcast_dim ValueError pa pb;
  s ← broadcast_dim ValueError sa sb;
  Ok {| shape3 := (c, p, s);
        items3 := broadcast_zip (broadcast_zip (broadcast_zip f))
                    (items3 a) (items3 b) |}.

(** [a[0]] *)
Definition first_channel (a : ndarray3) : result ndarray2 :=
  match items3 a with
  | ch :: _ => Ok {| shape2 := ((shape3 a).1.2, (shape3 a).2); items2 := ch |}
  | [] => Raise IndexError
  end.

(** [a[idx0, idx1]] for two integer index arrays (advanced indexing). *)
Definition advanced_index (a : ndarray3) (idx0 idx1 : list Z) : result ndarray2 :=
  n ← broadcast_dim IndexError (length idx0) (length idx1);
  rows ← mapM_result (fun ij : Z * Z =>
            c ← normalize_index (shape3 a).1.1 ij.1;
            p ← normalize_index (shape3 a).1.2 ij.2;
            match items3 a !! c ≫= (.!! p) with
            | Some px => Ok px
            | None => Raise IndexError
            end) (broadcast_zip pair idx0 idx1);
  Ok {| shape2 := (n, (shape3 a).2); items2 := rows |}.

(** [np.arange(n)] and [np.zeros(n)] *)
Definition arange (n : nat) : list Z := map Z.of_nat (seq 0 n).
Definition zeros_int (n : nat) : list Z := replicate n 0%Z.
Definition zeros (n : nat) : list num := replicate n (of_int 0).

End Arrays.
Arguments ndarray2 : clear implicits.
Arguments ndarray3 : clear implicits.

(** ** Units *)

Inductive unit_tag : Type :=
| u_m | u_m2 | u_rad | u_GHz | u_ns | u_TeV | u_g_per_cm2.

(** [u.Quantity(value, unit)], [Angle(value, unit)] and [value * unit]. *)
Record Quantity (V : Type) : Type := {
  q_value : V;
  q_unit : unit_tag
}.
Arguments Build_Quantity {V} q_value q_unit.
Arguments q_value {V} q.
Arguments q_unit {V} q.
Notation "v *u u" := (Build_Quantity v u) (at level 40, no associativity).

(** References to heap objects. *)
Definition loc : Type := nat.

(** The header shared by the R0, R1 and DL0 containers, and their
    per-telescope maps. *)
Record DataLevel (C : Type) : Type := {
  obs_id : Z;
  event_id : Z;
  tels_with_data : gset Z;
  tel : gmap Z C
}.
Arguments Build_DataLevel {C}.
Arguments obs_id {C}.
Arguments event_id {C}.
Arguments tels_with_data {C}.
Arguments tel {C}.

(** ** The data read from the file and the objects built from it *)

Section SimTel.
Context {num : Type} `{Scalar num}.

(** The simulation run header block, copied field by field (with unit
    tags) into [data.mcheader]; its fields play no role here. *)
Context {RunHeader : Type}.

(** *** What eventio's [SimTelFile] exposes *)

Record camera_settings : Type := {
  cs_pixel_shape : list Z;
  cs_n_pixels : nat;
  cs_pixel_x : list num;
  cs_pixel_y : list num;
  cs_pixel_area : list num;
  cs_cam_rot : num;
  cs_focal_length : num;
  cs_effective_focal_length : option num;
  cs_mirror_area : num;
  cs_n_mirrors : Z
}.

Record pixel_settings : Type := {
  ps_time_slice : num;
  ps_ref_shape : list (list num);
  ps_ref_step : num
}.

Record telescope_description : Type := {
  td_camera_settings : camera_settings;
  td_pixel_settings : pixel_settings
}.

Record file_header : Type := {
  h_run : Z;
  h_tel_id : list Z;
  h_tel_pos : list (list num);
  h_direction : list num
}.

Record pixel_list : Type := {
  pl_pixels : Z;
  pl_pixel_list : list Z
}.

Record telescope_event : Type := {
  te_adc_samples : option (ndarray3 num);
  te_adc_sums : option (ndarray2 num);
  te_pixel_lists : gmap Z pixel_list
}.

Record tracking_position : Type := {
  tp_azimuth_raw : num;
  tp_altitude_raw : num;
  tp_azimuth_cor : option num;
  tp_altitude_cor : option num
}.

Record trigger_information : Type := {
  ti_triggered_telescopes : list Z;
  ti_gps_time : Z * Z
}.

Record mc_shower : Type := {
  ms_energy : num;
  ms_altitude : num;
  ms_azimuth : num;
  ms_h_first_int : num;
  ms_xmax : num;
  ms_primary_id : Z
}.

Record mc_event : Type := {
  me_xcore : num;
  me_ycore : num
}.

(** One array event; the optional fields are the keys that the source
    reads with [.get] or that only some event types carry. *)
Record array_event : Type := {
  ae_type : string;
  ae_event_id : option Z;
  ae_telescope_events : list (Z * telescope_event);
  ae_trigger_information : trigger_information;
  ae_tracking_positions : gmap Z tracking_position;
  ae_laser_calibrations : gmap Z (ndarray2 num);
  ae_camera_monitorings : gmap Z (ndarray2 num);
  ae_photoelectrons : option (gmap nat (option (list num)));
  ae_mc_event : option mc_event;
  ae_mc_shower : option mc_shower
}.

Inductive filehandle : Type :=
| BufferedReader
| GzipFile
| OtherHandle (class_name : string).

(** An open file.  [f_array_events] is what iterating the file gives,
    record by record: an array event, or the exception raised while
    reading it (an [EOFError] where the file is truncated); past the end
    of the list the iteration stops.  The file object appends every MC
    run header block that it reads to its list [mc_run_headers]:
    [f_mc_run_headers] are the blocks that stand before the first array
    event, [f_later_mc_run_headers i] those between the array events
    [i] and [i + 1], as a file merged from several runs has them. *)
Record SimTelFile : Type := {
  f_filehandle : filehandle;
  f_header : file_header;
  f_telescope_descriptions : list (Z * telescope_description);
  f_mc_run_headers : list RunHeader;
  f_array_events : list (result array_event);
  f_later_mc_run_headers : nat -> list RunHeader
}.

(** The MC run header blocks that are read on the way to the array
    event at the position [pos]. *)
Definition mc_run_headers_before (file : SimTelFile) (pos : nat) : list RunHeader :=
  match pos with
  | 0 => f_mc_run_headers file
  | S i => f_later_mc_run_headers file i
  end.

(** *** Instrument description *)

Record GuessingResult : Type := {
  gr_name : string;
  gr_type : string;
  gr_camera_name : string;
  gr_n_mirrors : Z
}.

Record CameraGeometry : Type := {
  cg_camera_name : string;
  cg_pix_id : list Z;
  cg_pix_x : Quantity (list num);
  cg_pix_y : Quantity (list num);
  cg_pix_area : Quantity (list num);
  cg_pix_type : string;
  cg_pix_rotation : string;
  cg_cam_rotation : Quantity num;
  cg_apply_derotation : bool
}.

Record CameraReadout : Type := {
  cr_camera_name : string;
  cr_sampling_rate : Quantity num;
  cr_reference_pulse_shape : list (list num);
  cr_reference_pulse_sample_width : Quantity num
}.

Record CameraDescription : Type := {
  cd_camera_name : string;
  cd_geometry : CameraGeometry;
  cd_readout : CameraReadout
}.

Record OpticsDescription : Type := {
  od_name : string;
  od_num_mirrors : Z;
  od_equivalent_focal_length : Quantity num;
  od_mirror_area : Quantity num;
  od_num_mirror_tiles : Z
}.

(** [tel_camera] is a reference to a [CameraDescription] object. *)
Record TelescopeDescription : Type := {
  tel_name : string;
  tel_type : string;
  tel_optics : OpticsDescription;
  tel_camera : loc
}.

Record SubarrayDescription : Type := {
  sub_name : string;
  sub_tel_positions : gmap Z (Quantity (list num));
  sub_tel_descriptions : gmap Z TelescopeDescription
}.

(** *** Event containers *)

Record R0CameraContainer : Type := {
  r0c_waveform : option (ndarray3 num);
  r0c_num_trig_pix : Z;
  r0c_trig_pix_id : option (list Z)
}.

Record R1CameraContainer : Type := {
  r1c_waveform : option (ndarray2 num);
  r1c_selected_gain_channel : option (list Z)
}.

Record MCCameraEventContainer : Type := {
  mcc_dc_to_pe : option (ndarray2 num);
  mcc_pedestal : option (ndarray2 num);
  mcc_photo_electron_image : option (list num);
  mcc_azimuth_raw : option num;
  mcc_altitude_raw : option num;
  mcc_azimuth_cor : option num;
  mcc_altitude_cor : option num
}.

Record TelescopePointingContainer : Type := {
  azimuth : option (Quantity num);
  altitude : option (Quantity num)
}.

Record EventIndex : Type := {
  index_obs_id : Z;
  index_event_id : Z
}.

Record CentralTriggerContainer : Type := {
  tels_with_trigger : list Z;
  gps_time : Z * Z
}.

Record MCEventContainer : Type := {
  mc_energy : option (Quantity num);
  mc_alt : option (Quantity num);
  mc_az : option (Quantity num);
  mc_core_x : option (Quantity num);
  mc_core_y : option (Quantity num);
  mc_h_first_int : option (Quantity num);
  mc_x_max : option (Quantity num);
  mc_shower_primary_id : option Z;
  mc_tel : gmap Z MCCameraEventContainer
}.

Record MCHeaderContainer : Type := {
  mch_run_array_direction : option (Quantity (list num));
  mch_run_header : option RunHeader
}.

Record EventMeta : Type := {
  meta_origin : option string;
  meta_input_url : option string;
  meta_max_events : option (option Z)
}.

(** The per-telescope DL0 and DL1 containers are only ever cleared here,
    so their maps are kept by their key sets. *)
Record EventAndMonDataContainer : Type := {
  meta : EventMeta;
  event_type : string;
  count : nat;
  inst_subarray : option SubarrayDescription;
  index : EventIndex;
  r0 : DataLevel R0CameraContainer;
  r1 : DataLevel R1CameraContainer;
  dl0 : DataLevel ();
  dl1_tel : gset Z;
  trig : CentralTriggerContainer;
  mc : MCEventContainer;
  mcheader : MCHeaderContainer;
  pointing : gmap Z TelescopePointingContainer
}.

(** *** The world of one event source *)

Inductive effect : Type :=
| Warn (message : string)
| UnknownPixelShapeWarning (pixel_shape : Z) (camera_name : string)
| LogWarning (message : string)
| GainSelectorCalled (waveforms : ndarray3 num).

(** [mc_run_headers] is the list [self.file_.mc_run_headers] of the file
    object, which grows as the file is read. *)
Record world : Type := {
  containers : list EventAndMonDataContainer;
  cameras : list CameraDescription;
  camera_cache : gmap string loc;
  file_pos : nat;
  mc_run_headers : list RunHeader;
  emitted : list effect
}.

Definition M (A : Type) : Type := world -> result A * world.

#[global] Instance M_ret : MRet M := fun A a w => (Ok a, w).
#[global] Instance M_bind : MBind M := fun A B f m w =>
  match m w with
  | (Ok a, w') => f a w'
  | (Raise e, w') => (Raise e, w')
  end.

Definition lift {A : Type} (r : result A) : M A := fun w => (r, w).
Definition raise {A : Type} (e : exn) : M A := lift (Raise e).

(** [try: m  except e: handler] *)
Definition try_except {A : Type} (m : M A) (caught : exn -> bool) (handler : M A) : M A :=
  fun w =>
    match m w with
    | (Raise e, w') => if caught e then handler w' else (Raise e, w')
    | ok => ok
    end.

Definition record_effect (e : effect) (w : world) : world :=
  {| containers := containers w; cameras := cameras w;
     camera_cache := camera_cache w; file_pos := file_pos w;
     mc_run_headers := mc_run_headers w;
     emitted := emitted w ++ [e] |}.

Definition emit (e : effect) : M () := fun w => (Ok (), record_effect e w).

(** ** R1 calibration *)

(** A gain selector maps the waveforms of all channels to the channel
    chosen for each pixel; it may raise. *)
Definition GainSelector : Type := ndarray3 num -> result (list Z).

(** [gain_selector(waveforms)]; the call is recorded. *)
Definition call_gain_selector (gain_selector : GainSelector)
    (waveforms : ndarray3 num) : M (list Z) :=
  _ ← emit (GainSelectorCalled waveforms);
  lift (gain_selector waveforms).

(** The first three statements of [apply_simtel_r1_calibration]:
    [(r0_waveforms - pedestal[..., np.newaxis] / n_samples)
       * dc_to_pe[..., np.newaxis]] *)
Definition calibrated_waveforms (r0_waveforms : ndarray3 num)
    (pedestal dc_to_pe : ndarray2 num) : result (ndarray3 num) :=
  let n_samples := (shape3 r0_waveforms).2 in
  let ped := scalar_op true_divide (newaxis pedestal) (of_int (Z.of_nat n_samples)) in
  let gain := newaxis dc_to_pe in
  d ← binary_op subtract r0_waveforms ped;
  binary_op multiply d gain.

Definition apply_simtel_r1_calibration (r0_waveforms : ndarray3 num)
    (pedestal dc_to_pe : ndarray2 num) (gain_selector : GainSelector)
    : M (ndarray2 num * list Z) :=
  let n_channels := (shape3 r0_waveforms).1.1 in
  let n_pixels := (shape3 r0_waveforms).1.2 in
  r1_waveforms ← lift (calibrated_waveforms r0_waveforms pedestal dc_to_pe);
  if decide (n_channels = 1) then
    let selected_gain_channel := zeros_int n_pixels in
    r1_waveforms ← lift (first_channel r1_waveforms);
    mret (r1_waveforms, selected_gain_channel)
  else
    selected_gain_channel ← call_gain_selector gain_selector r0_waveforms;
    r1_waveforms ← lift (advanced_index r1_waveforms selected_gain_channel
                           (arange n_pixels));
    mret (r1_waveforms, selected_gain_channel).

(** ** External collaborators *)

(** What the event source uses of code that is not its own:
    - of [ctapipe.instrument]: [guess_telescope] ([None] for its
      [ValueError]), [UNKNOWN_TELESCOPE] and
      [CameraGeometry.simtel_shape_to_type] ([None] for its
      [ValueError]);
    - of eventio: [SimTelFile(path, allowed_telescopes,
      skip_calibration, zcat)];
    - of [ctapipe.calib]: the default gain selector;
    - of [ctapipe.containers]: the containers as their constructors
      make them. *)
Class Collaborators : Type := {
  guess_telescope : nat -> Quantity num -> option GuessingResult;
  UNKNOWN_TELESCOPE : GuessingResult;
  simtel_shape_to_type : Z -> option (string * string);
  open_SimTelFile :
    string -> option (gset Z) -> bool -> bool -> result SimTelFile;
  ThresholdGainSelector : GainSelector;
  EventAndMonDataContainer_default : EventAndMonDataContainer;
  R0CameraContainer_default : R0CameraContainer;
  R1CameraContainer_default : R1CameraContainer;
  MCCameraEventContainer_default : MCCameraEventContainer;
  TelescopePointingContainer_default : TelescopePointingContainer
}.

Context `{Collaborators}.

(** ** Building the subarray description *)

Inductive focal_length_choice_t : Type := nominal | effective.

Record Config : Type := {
  input_url : string;
  max_events : option Z;
  allowed_tels : gset Z;
  skip_calibration_events : bool;
  back_seekable : bool;
  focal_length_choice : focal_length_choice_t
}.

(** A new [CameraDescription] object. *)
Definition new_camera (c : CameraDescription) : M loc := fun w =>
  (Ok (length (cameras w)),
   {| containers := containers w; cameras := cameras w ++ [c];
      camera_cache := camera_cache w; file_pos := file_pos w;
      mc_run_headers := mc_run_headers w;
      emitted := emitted w |}).

Definition build_camera (cam_settings : camera_settings)
    (pixel_settings : pixel_settings) (telescope : GuessingResult) : M loc :=
  pixel_shape ← lift (match cs_pixel_shape cam_settings with
                      | x :: _ => Ok x
                      | [] => Raise IndexError
                      end);
  shape ← match simtel_shape_to_type pixel_shape with
          | Some tr => mret tr
          | None =>
              _ ← emit (UnknownPixelShapeWarning pixel_shape (gr_camera_name telescope));
              mret ("hexagon", "0d")
          end;
  let geometry :=
    {| cg_camera_name := gr_camera_name telescope;
       cg_pix_id := arange (cs_n_pixels cam_settings);
       cg_pix_x := cs_pixel_x cam_settings *u u_m;
       cg_pix_y := cs_pixel_y cam_settings *u u_m;
       cg_pix_area := cs_pixel_area cam_settings *u u_m2;
       cg_pix_type := shape.1;
       cg_pix_rotation := shape.2;
       cg_cam_rotation := negative (cs_cam_rot cam_settings) *u u_rad;
       cg_apply_derotation := true |} in
  let readout :=
    {| cr_camera_name := gr_camera_name telescope;
       cr_sampling_rate := true_divide (of_int 1) (ps_time_slice pixel_settings) *u u_GHz;
       cr_reference_pulse_shape := ps_ref_shape pixel_settings;
       cr_reference_pulse_sample_width := ps_ref_step pixel_settings *u u_ns |} in
  new_camera {| cd_camera_name := gr_camera_name telescope;
                cd_geometry := geometry;
                cd_readout := readout |}.

(** [self._camera_cache.get(name)] and [self._camera_cache[name] = camera] *)
Definition cache_get (name : string) : M (option loc) := fun w =>
  (Ok (camera_cache w !! name), w).

Definition cache_set (name : string) (camera : loc) : M () := fun w =>
  (Ok (),
   {| containers := containers w; cameras := cameras w;
      camera_cache := <[name := camera]> (camera_cache w);
      file_pos := file_pos w; mc_run_headers := mc_run_headers w;
      emitted := emitted w |}).

(** The position of the first item equal to [x]. *)
Fixpoint index_of (x : Z) (l : list Z) : option nat :=
  match l with
  | [] => None
  | y :: l' => if decide (y = x) then Some 0 else S <$> index_of x l'
  end.

(** The telescope model that [prepare_subarray_info] resolves for a
    telescope with the given focal length. *)
Definition resolve_telescope (n_pixels : nat) (focal_length : Quantity num)
    : GuessingResult :=
  match guess_telescope n_pixels focal_length with
  | Some telescope => telescope
  | None => UNKNOWN_TELESCOPE
  end.

(** The focal length chosen by the configuration. *)
Definition chosen_focal_length (choice : focal_length_choice_t)
    (cam_settings : camera_settings) : result (Quantity num) :=
  let focal_length := cs_focal_length cam_settings *u u_m in
  match choice with
  | effective =>
      match cs_effective_focal_length cam_settings with
      | Some f => Ok (f *u u_m)
      | None => Raise RuntimeError
      end
  | nominal => Ok focal_length
  end.

(** One turn of the loop of [prepare_subarray_info]. *)
Definition prepare_telescope (choice : focal_length_choice_t) (header : file_header)
    (acc : gmap Z TelescopeDescription * gmap Z (Quantity (list num)))
    (tel_id : Z) (telescope_description : telescope_description)
    : M (gmap Z TelescopeDescription * gmap Z (Quantity (list num))) :=
  let cam_settings := td_camera_settings telescope_description in
  let pixel_settings := td_pixel_settings telescope_description in
  let n_pixels := cs_n_pixels cam_settings in
  focal_length ← lift (chosen_focal_length choice cam_settings);
  let telescope := resolve_telescope n_pixels focal_length in
  cached ← cache_get (gr_camera_name telescope);
  camera ← match cached with
           | Some camera => mret camera
           | None =>
               camera ← build_camera cam_settings pixel_settings telescope;
               _ ← cache_set (gr_camera_name telescope) camera;
               mret camera
           end;
  let optics :=
    {| od_name := gr_name telescope;
       od_num_mirrors := gr_n_mirrors telescope;
       od_equivalent_focal_length := focal_length;
       od_mirror_area := cs_mirror_area cam_settings *u u_m2;
       od_num_mirror_tiles := cs_n_mirrors cam_settings |} in
  let tel_descriptions :=
    <[tel_id := {| tel_name := gr_name telescope;
                   tel_type := gr_type telescope;
                   tel_optics := optics;
                   tel_camera := camera |}]> acc.1 in
  tel_idx ← lift (match index_of tel_id (h_tel_id header) with
                  | Some i => Ok i
                  | None => Raise IndexError
                  end);
  pos ← lift (match h_tel_pos header !! tel_idx with
              | Some pos => Ok pos
              | None => Raise IndexError
              end);
  mret (tel_descriptions, <[tel_id := pos *u u_m]> acc.2).

Fixpoint prepare_telescopes (choice : focal_length_choice_t) (header : file_header)
    (acc : gmap Z TelescopeDescription * gmap Z (Quantity (list num)))
    (telescope_descriptions : list (Z * telescope_description))
    : M (gmap Z TelescopeDescription * gmap Z (Quantity (list num))) :=
  match telescope_descriptions with
  | [] => mret acc
  | (tel_id, telescope_description) :: rest =>
      acc' ← prepare_telescope choice header acc tel_id telescope_description;
      prepare_telescopes choice header acc' rest
  end.

Definition prepare_subarray_info (choice : focal_length_choice_t)
    (telescope_descriptions : list (Z * telescope_description))
    (header : file_header) : M SubarrayDescription :=
  acc ← prepare_telescopes choice header (∅, ∅) telescope_descriptions;
  mret {| sub_name := "MonteCarloArray";
          sub_tel_positions := acc.2;
          sub_tel_descriptions := acc.1 |}.

(** ** The event source *)

Record SimTelEventSource : Type := {
  config : Config;
  file_ : SimTelFile;
  _subarray_info : SubarrayDescription;
  start_pos : nat;
  gain_selector : GainSelector
}.

(** [not isinstance(self.file_._filehandle, (BufferedReader, GzipFile))] *)
Definition is_stream (file : SimTelFile) : bool :=
  match f_filehandle file with
  | BufferedReader | GzipFile => false
  | OtherHandle _ => true
  end.

(** [self.file_.tell()]: the position in the file, counted in array
    events read. *)
Definition tell : M nat := fun w => (Ok (file_pos w), w).

Definition seek (pos : nat) : M () := fun w =>
  (Ok (),
   {| containers := containers w; cameras := cameras w;
      camera_cache := camera_cache w; file_pos := pos;
      mc_run_headers := mc_run_headers w;
      emitted := emitted w |}).

Definition clear_camera_cache : M () := fun w =>
  (Ok (),
   {| containers := containers w; cameras := cameras w;
      camera_cache := ∅; file_pos := file_pos w;
      mc_run_headers := mc_run_headers w;
      emitted := emitted w |}).

(** The arguments with which [__init__] opens the file. *)
Definition open_file (cfg : Config) : result SimTelFile :=
  open_SimTelFile (input_url cfg)
    (if decide (allowed_tels cfg = ∅) then None else Some (allowed_tels cfg))
    (skip_calibration_events cfg)
    (negb (back_seekable cfg)).

(** [SimTelEventSource.__init__]; the configuration holds the traits
    that [EventSource.__init__] has validated. *)
Definition __init__ (cfg : Config) (selector : option GainSelector)
    : M SimTelEventSource :=
  _ ← clear_camera_cache;
  file ← lift (open_file cfg);
  _ ← seek 0;
  if back_seekable cfg && is_stream file then raise IOError
  else
    subarray ← prepare_subarray_info (focal_length_choice cfg)
                 (f_telescope_descriptions file) (f_header file);
    pos ← tell;
    mret {| config := cfg;
            file_ := file;
            _subarray_info := subarray;
            start_pos := pos;
            gain_selector := match selector with
                             | Some g => g
                             | None => ThresholdGainSelector
                             end |}.

(** ** Writing into the event container *)

(** [with_f g d] is [d] with its field [f] replaced by [g (f d)]. *)
Definition with_meta (f : EventMeta -> EventMeta)
    (d : EventAndMonDataContainer) : EventAndMonDataContainer :=
  {| meta := f (meta d);
     event_type := event_type d;
     count := count d;
     inst_subarray := inst_subarray d;
     index := index d;
     r0 := r0 d;
     r1 := r1 d;
     dl0 := dl0 d;
     dl1_tel := dl1_tel d;
     trig := trig d;
     mc := mc d;
     mcheader := mcheader d;
     pointing := pointing d |}.

Definition with_event_type (f : string -> string)
    (d : EventAndMonDataContainer) : EventAndMonDataContainer :=
  {| meta := meta d;
     event_type := f (event_type d);
     count := count d;
     inst_subarray := inst_subarray d;
     index := index d;
     r0 := r0 d;
     r1 := r1 d;
     dl0 := dl0 d;
     dl1_tel := dl1_tel d;
     trig := trig d;
     mc := mc d;
     mcheader := mcheader d;
     pointing := pointing d |}.

Definition with_count (f : nat -> nat)
    (d : EventAndMonDataContainer) : EventAndMonDataContainer :=
  {| meta := meta d;
     event_type := event_type d;
     count := f (count d);
     inst_subarray := inst_subarray d;
     index := index d;
     r0 := r0 d;
     r1 := r1 d;
     dl0 := dl0 d;
     dl1_tel := dl1_tel d;
     trig := trig d;
     mc := mc d;
     mcheader := mcheader d;
     pointing := pointing d |}.

Definition with_inst_subarray (f : option SubarrayDescription -> option SubarrayDescription)
    (d : EventAndMonDataContainer) : EventAndMonDataContainer :=
  {| meta := meta d;
     event_type := event_type d;
     count := count d;
     inst_subarray := f (inst_subarray d);
     index := index d;
     r0 := r0 d;
     r1 := r1 d;
     dl0 := dl0 d;
     dl1_tel := dl1_tel d;
     trig := trig d;
     mc := mc d;
     mcheader := mcheader d;
     pointing := pointing d |}.

Definition with_index (f : EventIndex -> EventIndex)
    (d : EventAndMonDataContainer) : EventAndMonDataContainer :=
  {| meta := meta d;
     event_type := event_type d;
     count := count d;
     inst_subarray := inst_subarray d;
     index := f (index d);
     r0 := r0 d;
     r1 := r1 d;
     dl0 := dl0 d;
     dl1_tel := dl1_tel d;
     trig := trig d;
     mc := mc d;
     mcheader := mcheader d;
     pointing := pointing d |}.

Definition with_r0 (f : DataLevel R0CameraContainer -> DataLevel R0CameraContainer)
    (d : EventAndMonDataContainer) : EventAndMonDataContainer :=
  {| meta := meta d;
     event_type := event_type d;
     count := count d;
     inst_subarray := inst_subarray d;
     index := index d;
     r0 := f (r0 d);
     r1 := r1 d;
     dl0 := dl0 d;
     dl1_tel := dl1_tel d;
     trig := trig d;
     mc := mc d;
     mcheader := mcheader d;
     pointing := pointing d |}.

Definition with_r1 (f : DataLevel R1CameraContainer -> DataLevel R1CameraContainer)
    (d : EventAndMonDataContainer) : EventAndMonDataContainer :=
  {| meta := meta d;
     event_type := event_type d;
     count := count d;
     inst_subarray := inst_subarray d;
     index := index d;
     r0 := r0 d;
     r1 := f (r1 d);
     dl0 := dl0 d;
     dl1_tel := dl1_tel d;
     trig := trig d;
     mc := mc d;
     mcheader := mcheader d;
     pointing := pointing d |}.

Definition with_dl0 (f : DataLevel () -> DataLevel ())
    (d : EventAndMonDataContainer) : EventAndMonDataContainer :=
  {| meta := meta d;
     event_type := event_type d;
     count := count d;
     inst_subarray := inst_subarray d;
     index := index d;
     r0 := r0 d;
     r1 := r1 d;
     dl0 := f (dl0 d);
     dl1_tel := dl1_tel d;
     trig := trig d;
     mc := mc d;
     mcheader := mcheader d;
     pointing := pointing d |}.

Definition with_dl1_tel (f : gset Z -> gset Z)
    (d : EventAndMonDataContainer) : EventAndMonDataContainer :=
  {| meta := meta d;
     event_type := event_type d;
     count := count d;
     inst_subarray := inst_subarray d;
     index := index d;
     r0 := r0 d;
     r1 := r1 d;
     dl0 := dl0 d;
     dl1_tel := f (dl1_tel d);
     trig := trig d;
     mc := mc d;
     mcheader := mcheader d;
     pointing := pointing d |}.

Definition with_trig (f : CentralTriggerContainer -> CentralTriggerContainer)
    (d : EventAndMonDataContainer) : EventAndMonDataContainer :=
  {| meta := meta d;
     event_type := event_type d;
     count := count d;
     inst_subarray := inst_subarray d;
     index := index d;
     r0 := r0 d;
     r1 := r1 d;
     dl0 := dl0 d;
     dl1_tel := dl1_tel d;
     trig := f (trig d);
     mc := mc d;
     mcheader := mcheader d;
     pointing := pointing d |}.

Definition with_mc (f : MCEventContainer -> MCEventContainer)
    (d : EventAndMonDataContainer) : EventAndMonDataContainer :=
  {| meta := meta d;
     event_type := event_type d;
     count := count d;
     inst_subarray := inst_subarray d;
     index := index d;
     r0 := r0 d;
     r1 := r1 d;
     dl0 := dl0 d;
     dl1_tel := dl1_tel d;
     trig := trig d;
     mc := f (mc d);
     mcheader := mcheader d;
     pointing := pointing d |}.

Definition with_mcheader (f : MCHeaderContainer -> MCHeaderContainer)
    (d : EventAndMonDataContainer) : EventAndMonDataContainer :=
  {| meta := meta d;
     event_type := event_type d;
     count := count d;
     inst_subarray := inst_subarray d;
     index := index d;
     r0 := r0 d;
     r1 := r1 d;
     dl0 := dl0 d;
     dl1_tel := dl1_tel d;
     trig := trig d;
     mc := mc d;
     mcheader := f (mcheader d);
     pointing := pointing d |}.

Definition with_pointing (f : gmap Z TelescopePointingContainer -> gmap Z TelescopePointingContainer)
    (d : EventAndMonDataContainer) : EventAndMonDataContainer :=
  {| meta := meta d;
     event_type := event_type d;
     count := count d;
     inst_subarray := inst_subarray d;
     index := index d;
     r0 := r0 d;
     r1 := r1 d;
     dl0 := dl0 d;
     dl1_tel := dl1_tel d;
     trig := trig d;
     mc := mc d;
     mcheader := mcheader d;
     pointing := f (pointing d) |}.
(** The header of a data level, its per-telescope map kept. *)
Definition set_level_header {C : Type} (obs ev : Z) (tels : gset Z)
    (l : DataLevel C) : DataLevel C :=
  {| obs_id := obs; event_id := ev; tels_with_data := tels; tel := tel l |}.

Definition set_tels_with_data {C : Type} (tels : gset Z)
    (l : DataLevel C) : DataLevel C :=
  {| obs_id := obs_id l; event_id := event_id l; tels_with_data := tels;
     tel := tel l |}.

Definition with_tel {C : Type} (f : gmap Z C -> gmap Z C)
    (l : DataLevel C) : DataLevel C :=
  {| obs_id := obs_id l; event_id := event_id l;
     tels_with_data := tels_with_data l; tel := f (tel l) |}.

Definition with_mc_tel (f : gmap Z MCCameraEventContainer -> gmap Z MCCameraEventContainer)
    (m : MCEventContainer) : MCEventContainer :=
  {| mc_energy := mc_energy m; mc_alt := mc_alt m; mc_az := mc_az m;
     mc_core_x := mc_core_x m; mc_core_y := mc_core_y m;
     mc_h_first_int := mc_h_first_int m; mc_x_max := mc_x_max m;
     mc_shower_primary_id := mc_shower_primary_id m;
     mc_tel := f (mc_tel m) |}.

(** [m[k]] on a [Map] (a dictionary that makes a default container for
    a missing key), followed by an update of the container. *)
Definition map_update {C : Type} (k : Z) (dflt : C) (f : C -> C)
    (m : gmap Z C) : gmap Z C :=
  <[k := f (default dflt (m !! k))]> m.

(** A new event container, and attribute writes through a reference. *)
Definition new_container (d : EventAndMonDataContainer) : M loc := fun w =>
  (Ok (length (containers w)),
   {| containers := containers w ++ [d]; cameras := cameras w;
      camera_cache := camera_cache w; file_pos := file_pos w;
      mc_run_headers := mc_run_headers w;
      emitted := emitted w |}).

Definition modify (data : loc)
    (f : EventAndMonDataContainer -> EventAndMonDataContainer) : M () := fun w =>
  (Ok (),
   {| containers := alter f data (containers w); cameras := cameras w;
      camera_cache := camera_cache w; file_pos := file_pos w;
      mc_run_headers := mc_run_headers w;
      emitted := emitted w |}).

(** ** The event generator *)

Section Generator.
Variable self : SimTelEventSource.

(** The statements of [__generator] from [data.count = counter] to
    [data.dl0.tels_with_data = tels_with_data]. *)
Definition set_event_header (counter : nat) (obs ev : Z) (tels : gset Z)
    (d : EventAndMonDataContainer) : EventAndMonDataContainer :=
  with_count (fun _ => counter)
    (with_index (fun _ => {| index_obs_id := obs; index_event_id := ev |})
      (with_r0 (set_level_header obs ev tels)
        (with_r1 (set_level_header obs ev tels)
          (with_dl0 (set_level_header obs ev tels) d)))).

(** The three assignments of [selected]. *)
Definition set_selected (selected : gset Z)
    (d : EventAndMonDataContainer) : EventAndMonDataContainer :=
  with_r0 (set_tels_with_data selected)
    (with_r1 (set_tels_with_data selected)
      (with_dl0 (set_tels_with_data selected) d)).

Definition set_trigger (info : trigger_information)
    (d : EventAndMonDataContainer) : EventAndMonDataContainer :=
  with_trig (fun _ => {| tels_with_trigger := ti_triggered_telescopes info;
                         gps_time := ti_gps_time info |}) d.

(** The five [clear()] calls. *)
Definition clear_telescopes (d : EventAndMonDataContainer)
    : EventAndMonDataContainer :=
  with_r0 (with_tel (fun _ => ∅))
    (with_r1 (with_tel (fun _ => ∅))
      (with_dl0 (with_tel (fun _ => ∅))
        (with_dl1_tel (fun _ => ∅)
          (with_mc (with_mc_tel (fun _ => ∅)) d)))).

Definition set_mc_shower (ev : mc_event) (sh : mc_shower)
    (d : EventAndMonDataContainer) : EventAndMonDataContainer :=
  with_mc (fun m =>
    {| mc_energy := Some (ms_energy sh *u u_TeV);
       mc_alt := Some (ms_altitude sh *u u_rad);
       mc_az := Some (ms_azimuth sh *u u_rad);
       mc_core_x := Some (me_xcore ev *u u_m);
       mc_core_y := Some (me_ycore ev *u u_m);
       mc_h_first_int := Some (ms_h_first_int sh *u u_m);
       mc_x_max := Some (ms_xmax sh *u u_g_per_cm2);
       mc_shower_primary_id := Some (ms_primary_id sh);
       mc_tel := mc_tel m |}) d.

(** [self.file_.mc_run_headers], as it is when it is read. *)
Definition read_mc_run_headers : M (list RunHeader) := fun w =>
  (Ok (mc_run_headers w), w).

Definition fill_mc_information (data : loc) (ae : array_event) : M () :=
  ev ← lift (getitem (Name "mc_event") (ae_mc_event ae));
  sh ← lift (getitem (Name "mc_shower") (ae_mc_shower ae));
  _ ← modify data (set_mc_shower ev sh);
  _ ← modify data (with_mcheader (fun h =>
         {| mch_run_array_direction :=
              Some (h_direction (f_header (file_ self)) *u u_rad);
            mch_run_header := mch_run_header h |}));
  headers ← read_mc_run_headers;
  mc_run_head ← lift (match last headers with
                      | Some h => Ok h
                      | None => Raise IndexError
                      end);
  modify data (with_mcheader (fun h =>
    {| mch_run_array_direction := mch_run_array_direction h;
       mch_run_header := Some mc_run_head |})).

(** The pointing of one axis: the corrected value, or the raw one when
    the corrected one is not a number. *)
Definition set_pointing_azimuth (tel_id : Z) (azimuth_cor azimuth_raw : num)
    (d : EventAndMonDataContainer) : EventAndMonDataContainer :=
  with_pointing (map_update tel_id TelescopePointingContainer_default (fun p =>
    {| azimuth := Some ((if isnan azimuth_cor then azimuth_raw else azimuth_cor)
                          *u u_rad);
       altitude := altitude p |})) d.

Definition set_pointing_altitude (tel_id : Z) (altitude_cor altitude_raw : num)
    (d : EventAndMonDataContainer) : EventAndMonDataContainer :=
  with_pointing (map_update tel_id TelescopePointingContainer_default (fun p =>
    {| azimuth := azimuth p;
       altitude := Some ((if isnan altitude_cor then altitude_raw else altitude_cor)
                           *u u_rad) |})) d.

Definition update_mc (tel_id : Z)
    (f : MCCameraEventContainer -> MCCameraEventContainer)
    (d : EventAndMonDataContainer) : EventAndMonDataContainer :=
  with_mc (with_mc_tel (map_update tel_id MCCameraEventContainer_default f)) d.

Definition update_r0 (tel_id : Z) (f : R0CameraContainer -> R0CameraContainer)
    (d : EventAndMonDataContainer) : EventAndMonDataContainer :=
  with_r0 (with_tel (map_update tel_id R0CameraContainer_default f)) d.

Definition update_r1 (tel_id : Z) (f : R1CameraContainer -> R1CameraContainer)
    (d : EventAndMonDataContainer) : EventAndMonDataContainer :=
  with_r1 (with_tel (map_update tel_id R1CameraContainer_default f)) d.

(** The simulation part of the body of the loop over the telescope
    events: [mc = data.mc.tel[tel_id]] and the assignments to [mc].
    Gives back what later statements read again. *)
Definition fill_mc_camera (data : loc) (ae : array_event) (tel_id : Z)
    (tel_index n_pixels : nat)
    : M (ndarray2 num * ndarray2 num * tracking_position) :=
  _ ← modify data (update_mc tel_id id);
  dc_to_pe ← lift (getitem (TelId tel_id) (ae_laser_calibrations ae !! tel_id));
  _ ← modify data (update_mc tel_id (fun m =>
         {| mcc_dc_to_pe := Some dc_to_pe; mcc_pedestal := mcc_pedestal m;
            mcc_photo_electron_image := mcc_photo_electron_image m;
            mcc_azimuth_raw := mcc_azimuth_raw m;
            mcc_altitude_raw := mcc_altitude_raw m;
            mcc_azimuth_cor := mcc_azimuth_cor m;
            mcc_altitude_cor := mcc_altitude_cor m |}));
  pedestal ← lift (getitem (TelId tel_id) (ae_camera_monitorings ae !! tel_id));
  let image :=
    match ae_photoelectrons ae with
    | Some pe => match pe !! tel_index with
                 | Some (Some image) => image
                 | _ => zeros n_pixels
                 end
    | None => zeros n_pixels
    end in
  _ ← modify data (update_mc tel_id (fun m =>
         {| mcc_dc_to_pe := mcc_dc_to_pe m; mcc_pedestal := Some pedestal;
            mcc_photo_electron_image := Some image;
            mcc_azimuth_raw := mcc_azimuth_raw m;
            mcc_altitude_raw := mcc_altitude_raw m;
            mcc_azimuth_cor := mcc_azimuth_cor m;
            mcc_altitude_cor := mcc_altitude_cor m |}));
  tp ← lift (getitem (TelId tel_id) (ae_tracking_positions ae !! tel_id));
  _ ← modify data (update_mc tel_id (fun m =>
         {| mcc_dc_to_pe := mcc_dc_to_pe m; mcc_pedestal := mcc_pedestal m;
            mcc_photo_electron_image := mcc_photo_electron_image m;
            mcc_azimuth_raw := Some (tp_azimuth_raw tp);
            mcc_altitude_raw := Some (tp_altitude_raw tp);
            mcc_azimuth_cor := Some (default nan (tp_azimuth_cor tp));
            mcc_altitude_cor := Some (default nan (tp_altitude_cor tp)) |}));
  mret (pedestal, dc_to_pe, tp).

(** The two [if np.isnan(...)] statements. *)
Definition fill_pointing (data : loc) (tel_id : Z) (tp : tracking_position)
    : M () :=
  _ ← modify data (set_pointing_azimuth tel_id
         (default nan (tp_azimuth_cor tp)) (tp_azimuth_raw tp));
  modify data (set_pointing_altitude tel_id
    (default nan (tp_altitude_cor tp)) (tp_altitude_raw tp)).

(** From [r0 = data.r0.tel[tel_id]] to the end of the loop body. *)
Definition fill_waveforms (data : loc) (tel_id : Z) (te : telescope_event)
    (adc_samples : ndarray3 num) (pedestal dc_to_pe : ndarray2 num) : M () :=
  _ ← modify data (update_r0 tel_id id);
  _ ← modify data (update_r1 tel_id id);
  _ ← modify data (update_r0 tel_id (fun c =>
         {| r0c_waveform := Some adc_samples;
            r0c_num_trig_pix := r0c_num_trig_pix c;
            r0c_trig_pix_id := r0c_trig_pix_id c |}));
  r1 ← apply_simtel_r1_calibration adc_samples pedestal dc_to_pe
         (gain_selector self);
  _ ← modify data (update_r1 tel_id (fun _ =>
         {| r1c_waveform := Some r1.1;
            r1c_selected_gain_channel := Some r1.2 |}));
  let num_trig_pix :=
    match te_pixel_lists te !! 0%Z with
    | Some pl => pl_pixels pl
    | None => 0%Z
    end in
  _ ← modify data (update_r0 tel_id (fun c =>
         {| r0c_waveform := r0c_waveform c;
            r0c_num_trig_pix := num_trig_pix;
            r0c_trig_pix_id := r0c_trig_pix_id c |}));
  if decide (0 < num_trig_pix)%Z then
    pl ← lift (getitem (TelId 0) (te_pixel_lists te !! 0%Z));
    modify data (update_r0 tel_id (fun c =>
      {| r0c_waveform := r0c_waveform c;
         r0c_num_trig_pix := r0c_num_trig_pix c;
         r0c_trig_pix_id := Some (pl_pixel_list pl) |}))
  else mret ().

(** The body of the loop over the telescope events. *)
Definition fill_telescope (data : loc) (ae : array_event)
    (tel_id : Z) (te : telescope_event) : M () :=
  tel_index ← lift (match index_of tel_id (h_tel_id (f_header (file_ self))) with
                    | Some i => Ok i
                    | None => Raise ValueError
                    end);
  adc_samples ← lift (match te_adc_samples te with
                      | Some a => Ok a
                      | None =>
                          sums ← getitem (Name "adc_sums") (te_adc_sums te);
                          Ok (newaxis sums)
                      end);
  let n_pixels := (shape3 adc_samples).1.2 in
  mc ← fill_mc_camera data ae tel_id tel_index n_pixels;
  _ ← fill_pointing data tel_id mc.2;
  fill_waveforms data tel_id te adc_samples mc.1.1 mc.1.2.

Fixpoint fill_telescopes (data : loc) (ae : array_event)
    (telescope_events : list (Z * telescope_event)) : M () :=
  match telescope_events with
  | [] => mret ()
  | (tel_id, te) :: rest =>
      _ ← fill_telescope data ae tel_id te;
      fill_telescopes data ae rest
  end.

(** What the loop body does with one array event: go on to the next
    one, or yield. *)
Inductive step : Type := Continue | Yield.

(** The loop body from [trigger_information = ...] to the [yield]. *)
Definition assemble (data : loc) (ae : array_event) : M step :=
  _ ← modify data (set_trigger (ae_trigger_information ae));
  _ ← (if decide (ae_type ae = "data") then fill_mc_information data ae
       else mret ());
  _ ← modify data clear_telescopes;
  _ ← fill_telescopes data ae (ae_telescope_events ae);
  mret Yield.

(** The body of the loop of [__generator].  [data.event_type] is
    read back right after it is written, so the condition on it is on
    the type of the array event. *)
Definition process_array_event (data : loc) (counter : nat)
    (ae : array_event) : M step :=
  _ ← modify data (with_event_type (fun _ => ae_type ae));
  ev ← lift (if decide (ae_type ae = "calibration") then Ok (-1)%Z
             else getitem (Name "event_id") (ae_event_id ae));
  _ ← modify data (with_inst_subarray (fun _ => Some (_subarray_info self)));
  let obs := h_run (f_header (file_ self)) in
  let tels : gset Z := list_to_set (map fst (ae_telescope_events ae)) in
  _ ← modify data (set_event_header counter obs ev tels);
  if decide (0 < size (allowed_tels (config self))) then
    let selected := tels ∩ allowed_tels (config self) in
    if decide (size selected = 0) then mret Continue
    else
      _ ← modify data (set_selected selected);
      assemble data ae
  else assemble data ae.

(** A generator object: not started, suspended at the [yield] (with
    its local variables), or finished. *)
Inductive generator : Type :=
| Created
| Suspended (data : loc) (counter : nat)
| Finished.

(** [next(self.file_)] moves the file on by one array event; the MC run
    header blocks that are read on the way are appended to
    [self.file_.mc_run_headers].  The blocks before the first array
    event, which the constructor of the file has read, are counted with
    the read of the first array event, which is when they are read
    again after a seek to the start of the file. *)
Definition advance : M () := fun w =>
  (Ok (),
   {| containers := containers w; cameras := cameras w;
      camera_cache := camera_cache w; file_pos := S (file_pos w);
      mc_run_headers :=
        mc_run_headers w ++ mc_run_headers_before (file_ self) (file_pos w);
      emitted := emitted w |}).

(** The [for] loop of [__generator] over what is left of the file, up
    to the next [yield] or the end. *)
Fixpoint generator_loop (data : loc) (pending : list (result array_event))
    (counter : nat) : M (option loc * generator) :=
  match pending with
  | [] => mret (None, Finished)
  | Raise e :: _ => raise e
  | Ok ae :: rest =>
      _ ← advance;
      st ← process_array_event data counter ae;
      match st with
      | Yield => mret (Some data, Suspended data (S counter))
      | Continue => generator_loop data rest (S counter)
      end
  end.

Definition resume (data : loc) (counter : nat) : M (option loc * generator) :=
  fun w =>
    generator_loop data (drop (file_pos w) (f_array_events (file_ self)))
      counter w.

(** [next(g)] for [g = self.__generator()]: the yielded reference, or
    [None] when the generator returns. *)
Definition __generator (g : generator) : M (option loc * generator) :=
  match g with
  | Created =>
      data ← new_container EventAndMonDataContainer_default;
      _ ← modify data (with_meta (fun _ =>
             {| meta_origin := Some "hessio";
                meta_input_url := Some (input_url (config self));
                meta_max_events := Some (max_events (config self)) |}));
      resume data 0
  | Suspended data counter => resume data counter
  | Finished => mret (None, Finished)
  end.

Definition is_EOFError (e : exn) : bool :=
  match e with
  | EOFError => true
  | _ => false
  end.

Definition truncated_message : string :=
  "EOFError reading from " +:+ String (Ascii.ascii_of_nat 34) "" +:+
  input_url (config self) +:+ String (Ascii.ascii_of_nat 34) "" +:+
  ". Might be truncated".

(** The first statement of [_generator]: back to the start of the file
    when it has been read from. *)
Definition rewind : M () :=
  pos ← tell;
  if decide (start_pos self < pos) then
    _ ← seek 0;
    emit (Warn "Backseeking to start of file.")
  else mret ().

(** [next(g)] for [g = self._generator()]. *)
Definition _generator (g : generator) : M (option loc * generator) :=
  _ ← match g with
      | Created => rewind
      | _ => mret ()
      end;
  try_except (__generator g) is_EOFError
    (_ ← emit (LogWarning truncated_message);
     _ ← emit (Warn truncated_message);
     mret (None, Finished)).

(** A consumer that pulls from the generator until it returns, and
    keeps a copy of the event container after each pull; [fuel] bounds
    the number of pulls. *)
Definition snapshot (data : loc) : M EventAndMonDataContainer := fun w =>
  (Ok (default EventAndMonDataContainer_default (containers w !! data)), w).

Fixpoint collect (next : generator -> M (option loc * generator))
    (fuel : nat) (g : generator)
    : M (list EventAndMonDataContainer * generator) :=
  match fuel with
  | 0 => mret ([], g)
  | S fuel' =>
      r ← next g;
      match r.1 with
      | None => mret ([], r.2)
      | Some data =>
          d ← snapshot data;
          rest ← collect next fuel' r.2;
          mret (d :: rest.1, rest.2)
      end
  end.

End Generator.

(** ** Frame conditions *)

(** [m] keeps the projection [π] of every event container, makes no new
    container and leaves the file where it is. *)
Definition preserves {A X : Type} (π : EventAndMonDataContainer -> X)
    (m : M A) : Prop :=
  forall w r w', m w = (r, w') ->
    file_pos w' = file_pos w /\
    length (containers w') = length (containers w) /\
    forall l d', containers w' !! l = Some d' ->
      exists d, containers w !! l = Some d /\ π d' = π d.

(** The array event passes the telescope filter of [__generator]. *)
Definition passes_filter (allowed : gset Z) (ae : array_event) : bool :=
  negb (bool_decide (0 < size allowed) &&
        bool_decide (size (list_to_set (map fst (ae_telescope_events ae)) ∩ allowed) = 0)).

(** The header fields of an event container: event type, sequence
    counter, index, subarray, and the run id, event id and telescopes
    with data of the R0, R1 and DL0 levels. *)
Definition event_header (d : EventAndMonDataContainer)
    : string * nat * EventIndex * option SubarrayDescription
      * (Z * Z * gset Z) * (Z * Z * gset Z) * (Z * Z * gset Z) :=
  (event_type d, count d, index d, inst_subarray d,
   (obs_id (r0 d), event_id (r0 d), tels_with_data (r0 d)),
   (obs_id (r1 d), event_id (r1 d), tels_with_data (r1 d)),
   (obs_id (dl0 d), event_id (dl0 d), tels_with_data (dl0 d))).

(** The telescopes with data of an array event, and its event id as
    [__generator] computes it. *)
Definition telescopes_of (ae : array_event) : gset Z :=
  list_to_set (map fst (ae_telescope_events ae)).

Definition event_id_of (ae : array_event) : result Z :=
  if decide (ae_type ae = "calibration") then Ok (-1)%Z
  else getitem (Name "event_id") (ae_event_id ae).

(** The pointing that [__generator] stores for a tracking position. *)
Definition resolved_pointing (tp : tracking_position) : TelescopePointingContainer :=
  {| azimuth :=
       Some ((if isnan (default nan (tp_azimuth_cor tp)) then tp_azimuth_raw tp
              else default nan (tp_azimuth_cor tp)) *u u_rad);
     altitude :=
       Some ((if isnan (default nan (tp_altitude_cor tp)) then tp_altitude_raw tp
              else default nan (tp_altitude_cor tp)) *u u_rad) |}.

(** The telescopes with data that [__generator] leaves in the container
    for an array event: the filtered ones when the event passes a
    configured filter, else all of them. *)
Definition tels_with_data_of (allowed : gset Z) (ae : array_event) : gset Z :=
  if bool_decide (0 < size allowed) && passes_filter allowed ae
  then telescopes_of ae ∩ allowed
  else telescopes_of ae.

Definition trigger_of (ae : array_event) : CentralTriggerContainer :=
  {| tels_with_trigger := ti_triggered_telescopes (ae_trigger_information ae);
     gps_time := ti_gps_time (ae_trigger_information ae) |}.

(** ** A small file, for examples *)

(** A camera of one pixel read out in one channel with one sample. *)
Definition example_telescope_event : telescope_event :=
  {| te_adc_samples := Some {| shape3 := (1, 1, 1); items3 := [[[of_int 7]]] |};
     te_adc_sums := None;
     te_pixel_lists := ∅ |}.

Definition example_tracking (altitude_cor : option num) : tracking_position :=
  {| tp_azimuth_raw := of_int 0;
     tp_altitude_raw := of_int 1;
     tp_azimuth_cor := None;
     tp_altitude_cor := altitude_cor |}.

(** An array event with data of the telescopes [tels]. *)
Definition example_event (type : string) (id : Z) (tels triggered : list Z)
    (altitude_cor : option num) : array_event :=
  {| ae_type := type;
     ae_event_id := Some id;
     ae_telescope_events := map (fun t => (t, example_telescope_event)) tels;
     ae_trigger_information :=
       {| ti_triggered_telescopes := triggered; ti_gps_time := (0, 0)%Z |};
     ae_tracking_positions :=
       list_to_map (map (fun t => (t, example_tracking altitude_cor)) tels);
     ae_laser_calibrations :=
       list_to_map (map (fun t => (t, {| shape2 := (1, 1); items2 := [[of_int 1]] |})) tels);
     ae_camera_monitorings :=
       list_to_map (map (fun t => (t, {| shape2 := (1, 1); items2 := [[of_int 0]] |})) tels);
     ae_photoelectrons := None;
     ae_mc_event := Some {| me_xcore := of_int 0; me_ycore := of_int 0 |};
     ae_mc_shower := Some {| ms_energy := of_int 1; ms_altitude := of_int 1;
                             ms_azimuth := of_int 0; ms_h_first_int := of_int 0;
                             ms_xmax := of_int 0; ms_primary_id := 0 |} |}.

Definition example_file (run_headers : list RunHeader)
    (events : list (result array_event)) : SimTelFile :=
  {| f_filehandle := GzipFile;
     f_header := {| h_run := 1; h_tel_id := [1; 3; 5; 7; 9]%Z;
                    h_tel_pos := []; h_direction := [] |};
     f_telescope_descriptions := [];
     f_mc_run_headers := run_headers;
     f_array_events := events;
     f_later_mc_run_headers := fun _ => [] |}.

Definition example_source (allowed : gset Z) (run_headers : list RunHeader)
    (events : list (result array_event)) : SimTelEventSource :=
  {| config := {| input_url := "gamma.simtel.gz"; max_events := None;
                  allowed_tels := allowed; skip_calibration_events := true;
                  back_seekable := false; focal_length_choice := nominal |};
     file_ := example_file run_headers events;
     _subarray_info := {| sub_name := "MonteCarloArray";
                          sub_tel_positions := ∅;
                          sub_tel_descriptions := ∅ |};
     start_pos := 0;
     gain_selector := ThresholdGainSelector |}.

Definition empty_world : world :=
  {| containers := []; cameras := []; camera_cache := ∅; file_pos := 0;
     mc_run_headers := [];
     emitted := [] |}.

(** The same event source over a file that holds other array events. *)
Definition with_events (self : SimTelEventSource)
    (events : list (result array_event)) : SimTelEventSource :=
  {| config := config self;
     file_ := {| f_filehandle := f_filehandle (file_ self);
                 f_header := f_header (file_ self);
                 f_telescope_descriptions := f_telescope_descriptions (file_ self);
                 f_mc_run_headers := f_mc_run_headers (file_ self);
                 f_array_events := events;
                 f_later_mc_run_headers := f_later_mc_run_headers (file_ self) |};
     _subarray_info := _subarray_info self;
     start_pos := start_pos self;
     gain_selector := gain_selector self |}.

(** The world after the two warnings about a truncated file. *)
Definition warned_truncated (self : SimTelEventSource) (w : world) : world :=
  record_effect (Warn (truncated_message self))
    (record_effect (LogWarning (truncated_message self)) w).

(** The camera type name that [prepare_subarray_info] resolves for a
    telescope description. *)
Definition resolved_camera_name (choice : focal_length_choice_t)
    (td : telescope_description) : result string :=
  focal_length ← chosen_focal_length choice (td_camera_settings td);
  Ok (gr_camera_name
        (resolve_telescope (cs_n_pixels (td_camera_settings td)) focal_length)).

End SimTel.

(** ** A concrete setting, for examples *)

(** A threshold gain selector in the manner of [ctapipe.calib]: for each
    pixel the first channel, unless one of its samples is above the
    threshold. *)
Definition threshold_selector (threshold : float) : @GainSelector float :=
  fun waveforms =>
    match items3 waveforms with
    | high_gain :: _ =>
        Ok (map (fun px : list float =>
                   if existsb (fun x => PrimFloat.ltb threshold x) px then 1%Z else 0%Z)
              high_gain)
    | [] => Raise IndexError
    end.

Definition example_geometry (n_pixels : nat) (effective : option float)
    : @telescope_description float :=
  {| td_camera_settings :=
       {| cs_pixel_shape := [1%Z];
          cs_n_pixels := n_pixels;
          cs_pixel_x := [];
          cs_pixel_y := [];
          cs_pixel_area := [];
          cs_cam_rot := 0%float;
          cs_focal_length := 28%float;
          cs_effective_focal_length := effective;
          cs_mirror_area := 386%float;
          cs_n_mirrors := 198 |};
     td_pixel_settings :=
       {| ps_time_slice := 1%float; ps_ref_shape := []; ps_ref_step := 1%float |} |}.

(** A file with three telescopes, the first two with the same number of
    pixels and focal length. *)
Definition example_descriptions (effective : option float)
    : list (Z * @telescope_description float) :=
  [(1%Z, example_geometry 1855 (Some 29%float));
   (2%Z, example_geometry 1855 (Some 29%float));
   (3%Z, example_geometry 2048 effective)].

Definition example_header : @file_header float :=
  {| h_run := 1; h_tel_id := [1; 2; 3]%Z;
     h_tel_pos := [[0%float; 0%float; 16%float];
                   [100%float; 0%float; 16%float];
                   [0%float; 100%float; 5%float]];
     h_direction := [0%float; 1%float] |}.

(** Files by path: a gzip file, read through [GzipFile] or, with [zcat],
    through a pipe, and a zstd file, which is always read as a stream. *)
Definition example_open (path : string) (allowed : option (gset Z))
    (skip_calibration zcat : bool) : result (@SimTelFile float ()) :=
  if decide (path = "gamma.simtel.gz") then
    Ok {| f_filehandle := if zcat then OtherHandle "Popen" else GzipFile;
          f_header := example_header;
          f_telescope_descriptions := example_descriptions (Some 2%float);
          f_mc_run_headers := [()];
          f_array_events := [];
          f_later_mc_run_headers := fun _ => [] |}
  else if decide (path = "gamma.simtel.zst") then
    Ok {| f_filehandle := OtherHandle "ZstdFile";
          f_header := example_header;
          f_telescope_descriptions := example_descriptions None;
          f_mc_run_headers := [()];
          f_array_events := [];
          f_later_mc_run_headers := fun _ => [] |}
  else Raise IOError.

#[global] Instance example_collaborators : @Collaborators float () := {|
  guess_telescope := fun n_pixels focal_length =>
    if decide (n_pixels = 1855) then
      Some {| gr_name := "LST"; gr_type := "LST"; gr_camera_name := "LSTCam";
              gr_n_mirrors := 1 |}
    else None;
  UNKNOWN_TELESCOPE :=
    {| gr_name := "UNKNOWN"; gr_type := "UNKNOWN"; gr_camera_name := "UNKNOWN";
       gr_n_mirrors := -1 |};
  simtel_shape_to_type := fun pixel_shape =>
    if decide (pixel_shape = 1%Z) then Some ("hexagonal", "0d") else None;
  open_SimTelFile := example_open;
  ThresholdGainSelector := threshold_selector 30%float;
  EventAndMonDataContainer_default :=
    {| meta := {| meta_origin := None; meta_input_url := None;
                  meta_max_events := None |};
       event_type := "data";
       count := 0;
       inst_subarray := None;
       index := {| index_obs_id := 0; index_event_id := 0 |};
       r0 := {| obs_id := 0; event_id := 0; tels_with_data := ∅; tel := ∅ |};
       r1 := {| obs_id := 0; event_id := 0; tels_with_data := ∅; tel := ∅ |};
       dl0 := {| obs_id := 0; event_id := 0; tels_with_data := ∅; tel := ∅ |};
       dl1_tel := ∅;
       trig := {| tels_with_trigger := []; gps_time := (0, 0)%Z |};
       mc := {| mc_energy := None; mc_alt := None; mc_az := None;
                mc_core_x := None; mc_core_y := None; mc_h_first_int := None;
                mc_x_max := None; mc_shower_primary_id := None; mc_tel := ∅ |};
       mcheader := {| mch_run_array_direction := None; mch_run_header := None |};
       pointing := ∅ |};
  R0CameraContainer_default :=
    {| r0c_waveform := None; r0c_num_trig_pix := 0; r0c_trig_pix_id := None |};
  R1CameraContainer_default :=
    {| r1c_waveform := None; r1c_selected_gain_channel := None |};
  MCCameraEventContainer_default :=
    {| mcc_dc_to_pe := None; mcc_pedestal := None;
       mcc_photo_electron_image := None; mcc_azimuth_raw := None;
       mcc_altitude_raw := None; mcc_azimuth_cor := None;
       mcc_altitude_cor := None |};
  TelescopePointingContainer_default := {| azimuth := None; altitude := None |}
|}.

(** Raw waveforms of two channels, two pixels and three samples; the
    first pixel is above the threshold in the first channel. *)
Definition example_r0 : ndarray3 float :=
  {| shape3 := (2, 2, 3);
     items3 := [[[10; 50; 10]; [4; 10; 4]];
                [[1; 5; 10]; [1; 2; 1]]]%float |}.

Definition example_pedestal : ndarray2 float :=
  {| shape2 := (2, 2); items2 := [[6; 3]; [6; 0]]%float |}.

Definition example_dc_to_pe : ndarray2 float :=
  {| shape2 := (2, 2); items2 := [[0.5; 2]; [0.5; 1]]%float |}.

(** Raw waveforms of one channel, with pedestal 0 and conversion 1. *)
Definition example_r0_single : ndarray3 float :=
  {| shape3 := (1, 2, 3); items3 := [[[10; 50; 10]; [4; 10; 4]]]%float |}.

Definition example_pedestal_zero : ndarray2 float :=
  {| shape2 := (1, 2); items2 := [[0; 0]]%float |}.

Definition example_dc_to_pe_one : ndarray2 float :=
  {| shape2 := (1, 2); items2 := [[1; 1]]%float |}.

(** Five array events with data of the telescopes 1, 3, 5 and 7. *)
Definition example_events (altitude_cor : option float)
    : list (@array_event float) :=
  map (fun id => example_event "data" id [1; 3; 5; 7]%Z [1; 3; 5; 7]%Z altitude_cor)
    [100; 101; 102; 103; 104]%Z.

(** * Further definitions *)

Section SimTelMore.
Context {num : Type} `{Scalar num} {RunHeader : Type}.
Context {collaborators : @Collaborators num RunHeader}.

Local Abbreviation camera_settings := (@camera_settings num).
Local Abbreviation pixel_settings := (@pixel_settings num).
Local Abbreviation telescope_description := (@telescope_description num).
Local Abbreviation file_header := (@file_header num).
Local Abbreviation telescope_event := (@telescope_event num).
Local Abbreviation tracking_position := (@tracking_position num).
Local Abbreviation mc_shower := (@mc_shower num).
Local Abbreviation mc_event := (@mc_event num).
Local Abbreviation array_event := (@array_event num).
Local Abbreviation CameraGeometry := (@CameraGeometry num).
Local Abbreviation CameraReadout := (@CameraReadout num).
Local Abbreviation CameraDescription := (@CameraDescription num).
Local Abbreviation OpticsDescription := (@OpticsDescription num).
Local Abbreviation TelescopeDescription := (@TelescopeDescription num).
Local Abbreviation SubarrayDescription := (@SubarrayDescription num).
Local Abbreviation R0CameraContainer := (@R0CameraContainer num).
Local Abbreviation R1CameraContainer := (@R1CameraContainer num).
Local Abbreviation MCCameraEventContainer := (@MCCameraEventContainer num).
Local Abbreviation TelescopePointingContainer := (@TelescopePointingContainer num).
Local Abbreviation MCEventContainer := (@MCEventContainer num).
Local Abbreviation effect := (@effect num).
Local Abbreviation GainSelector := (@GainSelector num).
Local Abbreviation SimTelFile := (@SimTelFile num RunHeader).
Local Abbreviation MCHeaderContainer := (@MCHeaderContainer num RunHeader).
Local Abbreviation EventAndMonDataContainer := (@EventAndMonDataContainer num RunHeader).
Local Abbreviation world := (@world num RunHeader).
Local Abbreviation SimTelEventSource := (@SimTelEventSource num RunHeader).
Local Abbreviation M := (@M num RunHeader).

(** ** What the telescope loop stores *)

(** The R0 container of a telescope after the body of the telescope
    loop: the waveforms, the number of trigger pixels (0 without a
    pixel list 0) and, when there are trigger pixels, their ids; [c] is
    the container as [data.r0.tel[tel_id]] gave it. *)
Definition filled_r0 (te : telescope_event) (adc_samples : ndarray3 num)
    (c : R0CameraContainer) : R0CameraContainer :=
  {| r0c_waveform := Some adc_samples;
     r0c_num_trig_pix := match te_pixel_lists te !! 0%Z with
                         | Some pl => pl_pixels pl
                         | None => 0%Z
                         end;
     r0c_trig_pix_id := match te_pixel_lists te !! 0%Z with
                        | Some pl =>
                            if decide (0 < pl_pixels pl)%Z
                            then Some (pl_pixel_list pl)
                            else r0c_trig_pix_id c
                        | None => r0c_trig_pix_id c
                        end |}.

(** The R1 container, from the result of [apply_simtel_r1_calibration]. *)
Definition filled_r1 (r1 : ndarray2 num * list Z) : R1CameraContainer :=
  {| r1c_waveform := Some r1.1;
     r1c_selected_gain_channel := Some r1.2 |}.

(** The simulation container of a telescope; the photo-electron image
    is read under [tel_index], with zeros as default. *)
Definition filled_mc (ae : array_event) (tel_index n_pixels : nat)
    (dc_to_pe pedestal : ndarray2 num) (tp : tracking_position)
    : MCCameraEventContainer :=
  {| mcc_dc_to_pe := Some dc_to_pe;
     mcc_pedestal := Some pedestal;
     mcc_photo_electron_image :=
       Some (match ae_photoelectrons ae with
             | Some pe => match pe !! tel_index with
                          | Some (Some image) => image
                          | _ => zeros n_pixels
                          end
             | None => zeros n_pixels
             end);
     mcc_azimuth_raw := Some (tp_azimuth_raw tp);
     mcc_altitude_raw := Some (tp_altitude_raw tp);
     mcc_azimuth_cor := Some (default nan (tp_azimuth_cor tp));
     mcc_altitude_cor := Some (default nan (tp_altitude_cor tp)) |}.

(** [telescope_event.get("adc_samples")], or
    [telescope_event["adc_sums"][:, :, np.newaxis]] without it. *)
Definition adc_samples_of (te : telescope_event) : result (ndarray3 num) :=
  match te_adc_samples te with
  | Some a => Ok a
  | None => sums ← getitem (Name "adc_sums") (te_adc_sums te); Ok (newaxis sums)
  end.

(** The simulated shower of an event container. *)
Definition shower_of (m : MCEventContainer) :=
  (mc_energy m, mc_alt m, mc_az m, mc_core_x m, mc_core_y m, mc_h_first_int m,
   mc_x_max m, mc_shower_primary_id m).

(** What the header statements of [__generator] do not write. *)
Definition beyond_header (d : EventAndMonDataContainer) :=
  (meta d, trig d, mc d, mcheader d, pointing d,
   tel (r0 d), tel (r1 d), tel (dl0 d), dl1_tel d).

(** What the telescope loop does not write. *)
Definition outside_telescopes (d : EventAndMonDataContainer) :=
  (event_header d, meta d, trig d, shower_of (mc d), mcheader d,
   tel (dl0 d), dl1_tel d).

(** The entries of the telescope [tel_id] in the container [d'], where
    the body of the telescope loop has run for its telescope event
    [te], on a container whose R0 entry was that of [d]. *)
Definition telescope_filled (self : SimTelEventSource) (ae : array_event)
    (tel_id : Z) (te : telescope_event)
    (d d' : EventAndMonDataContainer) : Prop :=
  exists tel_index adc_samples dc_to_pe pedestal tp calibrated (w0 w1 : world),
    index_of tel_id (h_tel_id (f_header (file_ self))) = Some tel_index /\
    adc_samples_of te = Ok adc_samples /\
    ae_laser_calibrations ae !! tel_id = Some dc_to_pe /\
    ae_camera_monitorings ae !! tel_id = Some pedestal /\
    ae_tracking_positions ae !! tel_id = Some tp /\
    apply_simtel_r1_calibration adc_samples pedestal dc_to_pe (gain_selector self) w0
      = (Ok calibrated, w1) /\
    tel (r0 d') !! tel_id =
      Some (filled_r0 te adc_samples
              (default R0CameraContainer_default (tel (r0 d) !! tel_id))) /\
    tel (r1 d') !! tel_id = Some (filled_r1 calibrated) /\
    mc_tel (mc d') !! tel_id =
      Some (filled_mc ae tel_index (shape3 adc_samples).1.2 dc_to_pe pedestal tp) /\
    pointing d' !! tel_id = Some (resolved_pointing tp).

(** The container [d'] that the loop body yields for the array event
    [ae], when [d] is the container as the previous pull left it (or as
    it was made) and [headers] is [self.file_.mc_run_headers] as the
    loop body finds it: what is new in the container, and what it
    keeps. *)
Definition yielded_from (self : SimTelEventSource) (headers : list RunHeader)
    (ae : array_event) (d d' : EventAndMonDataContainer) : Prop :=
  meta d' = meta d /\
  (dom (tel (r0 d')) = telescopes_of ae /\
   dom (tel (r1 d')) = telescopes_of ae /\
   dom (mc_tel (mc d')) = telescopes_of ae /\
   tel (dl0 d') = ∅ /\
   dl1_tel d' = ∅) /\
  (dom (pointing d') = telescopes_of ae ∪ dom (pointing d) /\
   forall t, t ∉ telescopes_of ae -> pointing d' !! t = pointing d !! t) /\
  (ae_type ae = "data" ->
   exists ev sh h,
     ae_mc_event ae = Some ev /\
     ae_mc_shower ae = Some sh /\
     last headers = Some h /\
     shower_of (mc d') = shower_of (mc (set_mc_shower ev sh d)) /\
     mcheader d' =
       {| mch_run_array_direction :=
            Some (h_direction (f_header (file_ self)) *u u_rad);
          mch_run_header := Some h |}) /\
  (ae_type ae ≠ "data" ->
   shower_of (mc d') = shower_of (mc d) /\ mcheader d' = mcheader d) /\
  (NoDup (map fst (ae_telescope_events ae)) ->
   forall tel_id te, (tel_id, te) ∈ ae_telescope_events ae ->
     telescope_filled self ae tel_id te (clear_telescopes d) d').

(** ** What the loop body raises *)

(** The exception [e] of the body of the telescope loop for the
    telescope [tel_id]: the telescope is not in [header["tel_id"]],
    the telescope event has neither [adc_samples] nor [adc_sums], the
    array event lacks the laser calibration, the camera monitoring or
    the tracking position of the telescope, or the calibration
    raises. *)
Definition telescope_error (self : SimTelEventSource) (ae : array_event)
    (tel_id : Z) (te : telescope_event) (e : exn) : Prop :=
  (tel_id ∉ h_tel_id (f_header (file_ self))) /\ e = ValueError \/
  te_adc_samples te = None /\ te_adc_sums te = None /\
    e = KeyError (Name "adc_sums") \/
  (ae_laser_calibrations ae !! tel_id = None \/
   ae_camera_monitorings ae !! tel_id = None \/
   ae_tracking_positions ae !! tel_id = None) /\ e = KeyError (TelId tel_id) \/
  exists adc_samples pedestal dc_to_pe (w0 w1 : world),
    adc_samples_of te = Ok adc_samples /\
    ae_camera_monitorings ae !! tel_id = Some pedestal /\
    ae_laser_calibrations ae !! tel_id = Some dc_to_pe /\
    apply_simtel_r1_calibration adc_samples pedestal dc_to_pe (gain_selector self) w0
      = (Raise e, w1).

(** The exception [e] of the loop body for the array event [ae], with
    [headers] the MC run headers that the file object has read: an
    array event that is no calibration event has no event id, an array
    event of type data has no simulated event or shower or no MC run
    header has been read, or the body of the telescope loop raises. *)
Definition loop_body_error (self : SimTelEventSource) (headers : list RunHeader)
    (ae : array_event) (e : exn) : Prop :=
  ae_type ae ≠ "calibration" /\ ae_event_id ae = None /\
    e = KeyError (Name "event_id") \/
  ae_type ae = "data" /\
    (ae_mc_event ae = None /\ e = KeyError (Name "mc_event") \/
     ae_mc_shower ae = None /\ e = KeyError (Name "mc_shower") \/
     headers = [] /\ e = IndexError) \/
  exists tel_id te,
    (tel_id, te) ∈ ae_telescope_events ae /\ telescope_error self ae tel_id te e.

(** ** Array events that the loop body can process *)

(** The body of the telescope loop finds what it reads for the
    telescope [tel_id]: the telescope is in [header["tel_id"]], its
    telescope event has [adc_samples] or [adc_sums], the array event
    has its laser calibration, camera monitoring and tracking
    position, and the R1 calibration of its waveforms returns. *)
Definition telescope_processable (self : SimTelEventSource) (ae : array_event)
    (tel_id : Z) (te : telescope_event) : Prop :=
  tel_id ∈ h_tel_id (f_header (file_ self)) /\
  exists adc_samples pedestal dc_to_pe calibrated (w0 w1 : world),
    adc_samples_of te = Ok adc_samples /\
    ae_laser_calibrations ae !! tel_id = Some dc_to_pe /\
    ae_camera_monitorings ae !! tel_id = Some pedestal /\
    is_Some (ae_tracking_positions ae !! tel_id) /\
    apply_simtel_r1_calibration adc_samples pedestal dc_to_pe (gain_selector self) w0
      = (Ok calibrated, w1).

(** The loop body finds what it reads in the array event [ae]: an event
    id unless it is a calibration event, the simulated event and
    shower when it is of type data, and what the telescope loop reads
    for each of its telescope events. *)
Definition processable (self : SimTelEventSource) (ae : array_event) : Prop :=
  (ae_type ae ≠ "calibration" -> is_Some (ae_event_id ae)) /\
  (ae_type ae = "data" -> is_Some (ae_mc_event ae) /\ is_Some (ae_mc_shower ae)) /\
  forall tel_id te, (tel_id, te) ∈ ae_telescope_events ae ->
    telescope_processable self ae tel_id te.

(** ** Effects *)

Definition is_gain_selector_call (e : effect) : Prop :=
  match e with
  | GainSelectorCalled _ => True
  | _ => False
  end.

(** [m] does not read from the file: it leaves the MC run headers that
    the file object has read as they are. *)
Definition reads_no_block {A : Type} (m : M A) : Prop :=
  forall w r w', m w = (r, w') -> mc_run_headers w' = mc_run_headers w.

(** [m] emits no warning: what it adds to the emitted effects are calls
    of the gain selector. *)
Definition quiet {A : Type} (m : M A) : Prop :=
  forall w r w', m w = (r, w') ->
    exists calls, emitted w' = emitted w ++ calls /\
      Forall is_gain_selector_call calls.

End SimTelMore.

(** ** A file merged from two runs, for examples *)

(** The collaborators of the examples, for MC run headers that are told
    apart by a name. *)
Definition example_named_collaborators : @Collaborators float string := {|
  guess_telescope := fun n_pixels focal_length =>
    if decide (n_pixels = 1855) then
      Some {| gr_name := "LST"; gr_type := "LST"; gr_camera_name := "LSTCam";
              gr_n_mirrors := 1 |}
    else None;
  UNKNOWN_TELESCOPE :=
    {| gr_name := "UNKNOWN"; gr_type := "UNKNOWN"; gr_camera_name := "UNKNOWN";
       gr_n_mirrors := -1 |};
  simtel_shape_to_type := fun pixel_shape =>
    if decide (pixel_shape = 1%Z) then Some ("hexagonal", "0d") else None;
  open_SimTelFile := fun _ _ _ _ => Raise IOError;
  ThresholdGainSelector := threshold_selector 30%float;
  EventAndMonDataContainer_default :=
    {| meta := {| meta_origin := None; meta_input_url := None;
                  meta_max_events := None |};
       event_type := "data";
       count := 0;
       inst_subarray := None;
       index := {| index_obs_id := 0; index_event_id := 0 |};
       r0 := {| obs_id := 0; event_id := 0; tels_with_data := ∅; tel := ∅ |};
       r1 := {| obs_id := 0; event_id := 0; tels_with_data := ∅; tel := ∅ |};
       dl0 := {| obs_id := 0; event_id := 0; tels_with_data := ∅; tel := ∅ |};
       dl1_tel := ∅;
       trig := {| tels_with_trigger := []; gps_time := (0, 0)%Z |};
       mc := {| mc_energy := None; mc_alt := None; mc_az := None;
                mc_core_x := None; mc_core_y := None; mc_h_first_int := None;
                mc_x_max := None; mc_shower_primary_id := None; mc_tel := ∅ |};
       mcheader := {| mch_run_array_direction := None; mch_run_header := None |};
       pointing := ∅ |};
  R0CameraContainer_default :=
    {| r0c_waveform := None; r0c_num_trig_pix := 0; r0c_trig_pix_id := None |};
  R1CameraContainer_default :=
    {| r1c_waveform := None; r1c_selected_gain_channel := None |};
  MCCameraEventContainer_default :=
    {| mcc_dc_to_pe := None; mcc_pedestal := None;
       mcc_photo_electron_image := None; mcc_azimuth_raw := None;
       mcc_altitude_raw := None; mcc_azimuth_cor := None;
       mcc_altitude_cor := None |};
  TelescopePointingContainer_default := {| azimuth := None; altitude := None |}
|}.

(** A file with the MC run header of a first run before its first
    array event, and the one of a second run between its first and
    its second array event. *)
Definition example_merged_source : @SimTelEventSource float string :=
  let self :=
    example_source (H0 := example_named_collaborators) ∅ ["run 1"]
      [Ok (example_event "data" 100 [3]%Z [3]%Z None);
       Ok (example_event "data" 200 [3]%Z [3]%Z None);
       Ok (example_event "calibration" 201 [3]%Z [3]%Z None)] in
  {| config := config self;
     file_ := {| f_filehandle := f_filehandle (file_ self);
                 f_header := f_header (file_ self);
                 f_telescope_descriptions := f_telescope_descriptions (file_ self);
                 f_mc_run_headers := f_mc_run_headers (file_ self);
                 f_array_events := f_array_events (file_ self);
                 f_later_mc_run_headers :=
                   fun i => if decide (i = 0) then ["run 2"] else [] |};
     _subarray_info := _subarray_info self;
     start_pos := start_pos self;
     gain_selector := gain_selector self |}.

(** * FITS monitoring data *)

(** ** [ctapipe/io/fitsdataformat.py] *)

Module fitsdataformat.

(** FITS header keywords *)
Definition SOURCE : string := "MSOURCE".
Definition NAME : string := "MNAME".
Definition DESCRIPTION : string := "MDESC".

(** Column names with their descriptions, in the order of the
    dictionaries. *)
Definition LST_DRIVE_DATA_STRUCT : list (string * string) :=
  [("time", "LowPrecisionTime timestamp of the pointing measurement");
   ("altitude", "Altitude angle");
   ("azimuth", "Azimuth angle")].

Definition FRAM_DATA_STRUCT : list (string * string) :=
  [("timestamp", "Measurement timestamp");
   ("ra", "Array of Voronoi cell centers RA coordinates");
   ("dec", "Array of Voronoi points centers DEC coordinates");
   ("aod", "Array of aerosol optical depth values for each Voronoi cell");
   ("aod_err", "Array of errors associated with each AOD measurement")].

Record MonitoringSource : Type := {
  name : string;
  data_struct : list (string * string);
  description : string
}.

Definition LST1_DRIVE : MonitoringSource :=
  {| name := "LST1Drive";
     data_struct := LST_DRIVE_DATA_STRUCT;
     description := "LST-1 telescope drive pointing" |}.

Definition STPN_01 : MonitoringSource :=
  {| name := "STPN-01";
     data_struct := FRAM_DATA_STRUCT;
     description := "FRAM atmospheric monitoring" |}.

(** The registry of the monitoring sources, by name. *)
Definition MONITORING_SOURCES : list (string * MonitoringSource) :=
  [("LST1Drive", LST1_DRIVE); ("STPN-01", STPN_01)].

End fitsdataformat.

(** ** [ctapipe/io/fitsmonitoringsource.py] *)

Module fitsmonitoringsource.
Import fitsdataformat.

(** [d[key]] and [key in d] for a dictionary given by its items. *)
Fixpoint dict_get {V : Type} (key : string) (d : list (string * V)) : option V :=
  match d with
  | [] => None
  | (k, v) :: d' => if decide (k = key) then Some v else dict_get key d'
  end.

(** The value of a header card. *)
Inductive card : Type :=
| Str (s : string)
| Int (z : Z)
| Bool (b : bool)
| Float (f : float).

(** A header data unit of a FITS file: whether it is a
    [fits.BinTableHDU], its name, its header (for each keyword the
    value that [hdu.header[keyword]] gives) and, for a table, the
    names of its columns. *)
Record HDU : Type := {
  is_BinTableHDU : bool;
  hdu_name : string;
  hdu_header : gmap string card;
  hdu_columns_names : list string
}.

Section Source.

(** The rows of an astropy table; they play no role here. *)
Context {Rows : Type}.

(** What astropy raises for a file that it cannot open or read. *)
Context {AstropyError : Type}.

Record Table : Type := {
  table_rows : Rows;
  table_meta : gmap string card
}.

Inductive exn : Type :=
| InputMissing
| TraitError (value : string)
| KeyError (source_name : string)
| NotImplementedError
| Raised (e : AstropyError).

Inductive outcome (A : Type) : Type :=
| Returns (a : A)
| Raises (e : exn).
Arguments Returns {A} a.
Arguments Raises {A} e.

(** The log records of the module's logger, by their message. *)
Inductive log_record : Type :=
| warning_undetermined (hdu_name file : string)
| warning_missing_columns (hdu_name file source_name : string)
| warning_unknown_source (source_name : card)
| debug_no_keyword
| error_no_rules (source_name : string)
| error_missing_columns (source_name : string) (missing found : gset string)
| debug_validated (source_name : string).

(** The monitoring source object and what it acts on: the input files
    recorded in the provenance, the files that are open, the log. *)
Record state : Type := {
  _monitoring_sources : gmap string Table;
  provenance : list (string * string);
  open_files : list string;
  log : list log_record
}.

Definition M (A : Type) : Type := state -> outcome A * state.

Definition ret {A : Type} (a : A) : M A := fun s => (Returns a, s).

Definition bind {A B : Type} (m : M A) (k : A -> M B) : M B := fun s =>
  match m s with
  | (Returns a, s') => k a s'
  | (Raises e, s') => (Raises e, s')
  end.

Definition raise {A : Type} (e : exn) : M A := fun s => (Raises e, s).

(** [try: m  finally: cleanup] *)
Definition try_finally {A : Type} (m : M A) (cleanup : state -> state) : M A :=
  fun s => let (r, s') := m s in (r, cleanup s').

Definition logger (r : log_record) : M () := fun s =>
  (Returns (),
   {| _monitoring_sources := _monitoring_sources s; provenance := provenance s;
      open_files := open_files s; log := log s ++ [r] |}).

(** [Provenance().add_input_file(str(file), role=role)] *)
Definition add_input_file (file role : string) : M () := fun s =>
  (Returns (),
   {| _monitoring_sources := _monitoring_sources s;
      provenance := provenance s ++ [(file, role)];
      open_files := open_files s; log := log s |}).

Definition set_monitoring_sources (sources : gmap string Table) : M () := fun s =>
  (Returns (),
   {| _monitoring_sources := sources; provenance := provenance s;
      open_files := open_files s; log := log s |}).

Definition opened (file : string) (s : state) : state :=
  {| _monitoring_sources := _monitoring_sources s; provenance := provenance s;
     open_files := file :: open_files s; log := log s |}.

(** Closing the file that was opened last. *)
Definition closed (s : state) : state :=
  {| _monitoring_sources := _monitoring_sources s; provenance := provenance s;
     open_files := tail (open_files s); log := log s |}.

(** What the module uses of astropy: [fits.open(file)], which gives
    the header data units of the file, and [Table.read(hdu)]. *)
Class Astropy : Type := {
  fits_open : string -> AstropyError + list HDU;
  Table_read : HDU -> AstropyError + Table
}.

Context `{Astropy}.

(** What the trait of the input files asks of the file system: whether
    a path exists, and whether it is a directory. *)
Class FileSystem : Type := {
  path_exists : string -> bool;
  path_is_dir : string -> bool
}.

Context `{FileSystem}.

(** [with fits.open(file) as hdul: body] *)
Definition with_fits_open {A : Type} (file : string) (body : list HDU -> M A) : M A :=
  fun s =>
    match fits_open file with
    | inl e => (Raises (Raised e), s)
    | inr hdul => try_finally (body hdul) closed (opened file s)
    end.

Definition _detect_monitoring_source (hdu : HDU) : M (option string) :=
  match hdu_header hdu !! SOURCE with
  | Some source_name =>
      match source_name with
      | Str name =>
          match dict_get name MONITORING_SOURCES with
          | None =>
              bind (logger (warning_unknown_source source_name))
                (fun _ => ret None)
          | Some _ => ret (Some name)
          end
      | _ =>
          bind (logger (warning_unknown_source source_name)) (fun _ => ret None)
      end
  | None => bind (logger debug_no_keyword) (fun _ => ret None)
  end.

Definition _validate_table_structure (hdu : HDU) (source_name : string) : M bool :=
  match dict_get source_name MONITORING_SOURCES with
  | None => bind (logger (error_no_rules source_name)) (fun _ => ret false)
  | Some monitoring_source =>
      let required_cols : gset string :=
        list_to_set (map fst (data_struct monitoring_source)) in
      let table_cols : gset string := list_to_set (hdu_columns_names hdu) in
      let missing_cols := required_cols ∖ table_cols in
      if decide (missing_cols = ∅) then
        bind (logger (debug_validated source_name)) (fun _ => ret true)
      else
        bind (logger (error_missing_columns source_name missing_cols table_cols))
          (fun _ => ret false)
  end.

(** The loop over the four keywords of [_process_table]. *)
Fixpoint collect_metadata (header : gmap string card) (keywords : list string)
    (metadata : gmap string card) : gmap string card :=
  match keywords with
  | [] => metadata
  | keyword :: rest =>
      collect_metadata header rest
        (match header !! keyword with
         | Some value => <[keyword := value]> metadata
         | None => metadata
         end)
  end.

(** [table.meta.update(metadata)] *)
Definition meta_update (metadata : gmap string card) (table : Table) : Table :=
  {| table_rows := table_rows table;
     table_meta := metadata ∪ table_meta table |}.

Definition _process_table (hdu : HDU) (source_name : string) : M () := fun s =>
  match Table_read hdu with
  | inl e => (Raises (Raised e), s)
  | inr table =>
      let metadata :=
        collect_metadata (hdu_header hdu) ["RADESYS"; SOURCE; NAME; DESCRIPTION] ∅ in
      let table := if decide (metadata = ∅) then table
                   else meta_update metadata table in
      set_monitoring_sources (<[source_name := table]> (_monitoring_sources s)) s
  end.

(** The loop of [_process_single_file] over the header data units,
    left at the first table that is processed. *)
Fixpoint process_hdus (file : string) (hdul : list HDU) : M () :=
  match hdul with
  | [] => ret ()
  | hdu :: rest =>
      if is_BinTableHDU hdu then
        bind (_detect_monitoring_source hdu) (fun source_name =>
          match source_name with
          | None =>
              bind (logger (warning_undetermined (hdu_name hdu) file))
                (fun _ => process_hdus file rest)
          | Some source_name =>
              bind (_validate_table_structure hdu source_name) (fun valid =>
                if valid then _process_table hdu source_name
                else
                  bind (logger (warning_missing_columns (hdu_name hdu) file
                                  source_name))
                    (fun _ => process_hdus file rest))
          end)
      else process_hdus file rest
  end.

Definition _process_single_file (file : string) : M () :=
  bind (add_input_file file "Monitoring") (fun _ =>
    with_fits_open file (process_hdus file)).

(** The loop of [__init__] over the input files. *)
Fixpoint process_files (input_files : list string) : M () :=
  match input_files with
  | [] => ret ()
  | file :: rest =>
      bind (_process_single_file file) (fun _ => process_files rest)
  end.

(** The trait [input_files] is a list of
    [PathTrait(exists=True, directory_ok=False)]: when the constructor
    of the base class sets it, the values are validated in their
    order, and the first one that does not exist, or that is a
    directory, raises [TraitError]. *)
Definition valid_input_file (file : string) : bool :=
  path_exists file && negb (path_is_dir file).

Fixpoint validate_input_files (input_files : list string) : M () :=
  match input_files with
  | [] => ret ()
  | file :: rest =>
      if valid_input_file file then validate_input_files rest
      else raise (TraitError file)
  end.

(** [FITSMonitoringSource.__init__]; of the constructor of the base
    class, the validation of the trait [input_files], the list that
    the source is constructed with. *)
Definition __init__ (input_files : list string) : M () :=
  bind (validate_input_files input_files) (fun _ =>
    match input_files with
    | [] => raise InputMissing
    | _ =>
        bind (set_monitoring_sources ∅) (fun _ => process_files input_files)
    end).

Definition is_simulation : bool := false.

Definition monitoring_sources : M (gmap string Table) := fun s =>
  (Returns (_monitoring_sources s), s).

Definition get_table (source_name : string) : M Table := fun s =>
  match _monitoring_sources s !! source_name with
  | None => (Raises (KeyError source_name), s)
  | Some table => (Returns table, s)
  end.

Definition fill_monitoring_container {Event : Type} (event : Event) : M () :=
  raise NotImplementedError.

(** *** For the properties *)

(** The table has all the columns of the monitoring source. *)
Definition has_required_columns (hdu : HDU) (source_name : string) : Prop :=
  exists monitoring_source,
    dict_get source_name MONITORING_SOURCES = Some monitoring_source /\
    forall column, column ∈ map fst (data_struct monitoring_source) ->
      column ∈ hdu_columns_names hdu.

(** The header data unit is a binary table of the registered
    monitoring source [source_name] with all its columns: the loop of
    [_process_single_file] stops at it. *)
Definition usable (hdu : HDU) (source_name : string) : Prop :=
  is_BinTableHDU hdu = true /\
  hdu_header hdu !! SOURCE = Some (Str source_name) /\
  has_required_columns hdu source_name.

(** The table that [_process_table] stores for a header data unit. *)
Definition stored_table (hdu : HDU) (table : Table) : Table :=
  let metadata :=
    collect_metadata (hdu_header hdu) ["RADESYS"; SOURCE; NAME; DESCRIPTION] ∅ in
  if decide (metadata = ∅) then table else meta_update metadata table.

End Source.

Arguments Table : clear implicits.
Arguments exn : clear implicits.
Arguments state : clear implicits.
Arguments M : clear implicits.
Arguments Astropy : clear implicits.
Arguments Returns {AstropyError A} a.
Arguments Raises {AstropyError A} e.

End fitsmonitoringsource.

(** ** Example files *)

Module fits_examples.
Import fitsdataformat fitsmonitoringsource.

Definition example_primary_hdu : HDU :=
  {| is_BinTableHDU := false; hdu_name := "PRIMARY";
     hdu_header := {[ "SIMPLE" := Bool true ]};
     hdu_columns_names := [] |}.

(** A table of a source that is not registered. *)
Definition example_weather_hdu : HDU :=
  {| is_BinTableHDU := true; hdu_name := "WEATHER";
     hdu_header := {[ "MSOURCE" := Str "WeatherStation" ]};
     hdu_columns_names := ["time"; "temperature"] |}.

Definition example_drive_hdu : HDU :=
  {| is_BinTableHDU := true; hdu_name := "DRIVE";
     hdu_header := {[ "MSOURCE" := Str "LST1Drive"; "MNAME" := Str "pointing";
                      "NAXIS" := Int 2 ]};
     hdu_columns_names := ["time"; "altitude"; "azimuth"; "quality"] |}.

(** A table of the FRAM without the columns of the optical depth. *)
Definition example_incomplete_fram_hdu : HDU :=
  {| is_BinTableHDU := true; hdu_name := "FRAM0";
     hdu_header := {[ "MSOURCE" := Str "STPN-01" ]};
     hdu_columns_names := ["timestamp"; "ra"; "dec"] |}.

Definition example_fram_hdu : HDU :=
  {| is_BinTableHDU := true; hdu_name := "FRAM";
     hdu_header := {[ "MSOURCE" := Str "STPN-01"; "RADESYS" := Str "ICRS" ]};
     hdu_columns_names := ["timestamp"; "ra"; "dec"; "aod"; "aod_err"] |}.

(** A table of the drive that astropy fails to read. *)
Definition example_corrupt_hdu : HDU :=
  {| is_BinTableHDU := true; hdu_name := "CORRUPT";
     hdu_header := {[ "MSOURCE" := Str "LST1Drive" ]};
     hdu_columns_names := ["time"; "altitude"; "azimuth"] |}.

Definition example_fits_open (file : string) : string + list HDU :=
  if decide (file = "drive.fits") then
    inr [example_primary_hdu; example_weather_hdu; example_drive_hdu;
         example_fram_hdu]
  else if decide (file = "fram.fits") then
    inr [example_primary_hdu; example_incomplete_fram_hdu; example_fram_hdu]
  else if decide (file = "corrupt.fits") then
    inr [example_primary_hdu; example_corrupt_hdu]
  else if decide (file = "empty.fits") then
    inr [example_primary_hdu; example_weather_hdu]
  else inl "OSError".

Definition example_Table_read (hdu : HDU) : string + Table (list (list Z)) :=
  if decide (hdu_name hdu = "CORRUPT") then inl "ValueError"
  else
    inr {| table_rows := [[1; 2; 3]; [4; 5; 6]]%Z;
           table_meta := {[ "EXTNAME" := Str (hdu_name hdu);
                            "MNAME" := Str "from the table" ]} |}.

Definition example_astropy : Astropy (list (list Z)) string :=
  {| fits_open := example_fits_open; Table_read := example_Table_read |}.

(** The example files exist, beside a directory; no other path
    exists. *)
Definition example_file_system : FileSystem :=
  {| path_exists := fun path =>
       bool_decide (path ∈ ["drive.fits"; "fram.fits"; "corrupt.fits";
                            "empty.fits"; "monitoring"]);
     path_is_dir := fun path => bool_decide (path = "monitoring") |}.

(** A state in which a table is loaded and a file open. *)
Definition example_state : state (list (list Z)) :=
  {| _monitoring_sources :=
       {[ "Lidar" := {| table_rows := [[7]]%Z; table_meta := ∅ |} ]};
     provenance := [("events.simtel.gz", "Events")];
     open_files := ["events.simtel.gz"];
     log := [] |}.

End fits_examples.

(** * Properties *)

Section Properties.
Context {num : Type} `{Scalar num} {RunHeader : Type}.
Context {collaborators : @Collaborators num RunHeader}.

(** The types of the model, at the scalars and run headers of this
    section. *)
Local Abbreviation camera_settings := (@camera_settings num).
Local Abbreviation pixel_settings := (@pixel_settings num).
Local Abbreviation telescope_description := (@telescope_description num).
Local Abbreviation file_header := (@file_header num).
Local Abbreviation telescope_event := (@telescope_event num).
Local Abbreviation tracking_position := (@tracking_position num).
Local Abbreviation mc_shower := (@mc_shower num).
Local Abbreviation mc_event := (@mc_event num).
Local Abbreviation array_event := (@array_event num).
Local Abbreviation CameraGeometry := (@CameraGeometry num).
Local Abbreviation CameraReadout := (@CameraReadout num).
Local Abbreviation CameraDescription := (@CameraDescription num).
Local Abbreviation OpticsDescription := (@OpticsDescription num).
Local Abbreviation TelescopeDescription := (@TelescopeDescription num).
Local Abbreviation SubarrayDescription := (@SubarrayDescription num).
Local Abbreviation R0CameraContainer := (@R0CameraContainer num).
Local Abbreviation R1CameraContainer := (@R1CameraContainer num).
Local Abbreviation MCCameraEventContainer := (@MCCameraEventContainer num).
Local Abbreviation TelescopePointingContainer := (@TelescopePointingContainer num).
Local Abbreviation MCEventContainer := (@MCEventContainer num).
Local Abbreviation effect := (@effect num).
Local Abbreviation GainSelector := (@GainSelector num).
Local Abbreviation SimTelFile := (@SimTelFile num RunHeader).
Local Abbreviation MCHeaderContainer := (@MCHeaderContainer num RunHeader).
Local Abbreviation EventAndMonDataContainer := (@EventAndMonDataContainer num RunHeader).
Local Abbreviation world := (@world num RunHeader).
Local Abbreviation SimTelEventSource := (@SimTelEventSource num RunHeader).
Local Abbreviation M := (@M num RunHeader).

(** ** Results and lists *)

Lemma mapM_result_Ok {A B : Type} (f : A -> result B) (l : list A) (ys : list B) :
  mapM_result f l = Ok ys ->
  length ys = length l /\
  forall i x, l !! i = Some x -> exists y, ys !! i = Some y /\ f x = Ok y.
Proof.
  revert ys. induction l as [|a l IH]; intros ys Hm; simpl in Hm.
  - injection Hm as <-. split; [reflexivity|]. intros i x Hi. discriminate.
  - destruct (f a) as [y|e] eqn:Hfa; simpl in Hm; [|discriminate].
    destruct (mapM_result f l) as [ys'|e] eqn:Hl; simpl in Hm; [|discriminate].
    injection Hm as <-. destruct (IH ys' eq_refl) as [Hlen Hit].
    split; [simpl; congruence|].
    intros [|i] x Hi; simpl in *.
    + injection Hi as <-. eauto.
    + eauto.
Qed.

Lemma mapM_result_total {A B : Type} (f : A -> result B) (l : list A) :
  Forall (fun x => exists y, f x = Ok y) l ->
  exists ys, mapM_result f l = Ok ys.
Proof.
  induction 1 as [|a l [y Hy] _ [ys Hys]]; simpl.
  - eauto.
  - rewrite Hy. simpl. rewrite Hys. simpl. eauto.
Qed.

(** ** Broadcasting *)

Lemma broadcast_dim_same e n : broadcast_dim e n n = Ok n.
Proof. unfold broadcast_dim. now rewrite decide_True. Qed.

Lemma broadcast_dim_one e n : broadcast_dim e n 1 = Ok n.
Proof. unfold broadcast_dim. repeat case_decide; congruence. Qed.

Lemma broadcast_zip_length {A B C : Type} (f : A -> B -> C) e xs ys n :
  broadcast_dim e (length xs) (length ys) = Ok n ->
  length (broadcast_zip f xs ys) = n.
Proof.
  unfold broadcast_dim, broadcast_zip. intros Hn.
  destruct (decide (length xs = length ys)) as [Heq|Hne].
  - injection Hn as <-. rewrite length_zip_with. lia.
  - destruct (decide (length xs = 1)) as [Hx|Hx].
    + injection Hn as <-.
      destruct xs as [|x [|? ?]]; try discriminate.
      destruct ys as [|y [|? ?]]; simpl in *; try congruence.
      now rewrite length_map.
    + destruct (decide (length ys = 1)) as [Hy|Hy]; [|discriminate].
      injection Hn as <-.
      destruct ys as [|y [|? ?]]; try discriminate.
      now rewrite length_map.
Qed.

Lemma broadcast_zip_elem {A B C : Type} (f : A -> B -> C) xs ys z :
  z ∈ broadcast_zip f xs ys -> exists x y, x ∈ xs /\ y ∈ ys /\ z = f x y.
Proof.
  unfold broadcast_zip. intros Hz.
  destruct (decide (length xs = length ys)) as [Heq|Hne].
  - apply list_elem_of_lookup in Hz as [i Hi].
    apply lookup_zip_with_Some in Hi as (x & y & -> & Hx & Hy).
    exists x, y. eauto using list_elem_of_lookup_2.
  - destruct ys as [|y [|y' ys]].
    + destruct xs as [|x [|? ?]]; try (now apply elem_of_nil in Hz).
    + apply list_elem_of_fmap in Hz as (x & -> & Hx).
      exists x, y. split; [done|]. split; [apply list_elem_of_here|done].
    + destruct xs as [|x [|? ?]]; try (now apply elem_of_nil in Hz).
      apply list_elem_of_fmap in Hz as (b & -> & Hb). exists x, b.
      split; [apply list_elem_of_here|]. split; done.
Qed.

Lemma broadcast_zip_lookup {A B C : Type} (f : A -> B -> C) xs ys i x y :
  length xs = length ys ->
  xs !! i = Some x -> ys !! i = Some y ->
  broadcast_zip f xs ys !! i = Some (f x y).
Proof.
  intros Hlen Hx Hy. unfold broadcast_zip.
  rewrite decide_True by done.
  apply lookup_zip_with_Some. eauto.
Qed.

Lemma broadcast_zip_lookup_single {A B C : Type} (f : A -> B -> C) xs y i x :
  xs !! i = Some x ->
  broadcast_zip f xs [y] !! i = Some (f x y).
Proof.
  intros Hx. unfold broadcast_zip.
  destruct (decide (length xs = length [y])) as [Heq|Hne].
  - destruct xs as [|x0 [|? ?]]; try discriminate.
    destruct i as [|i]; simplify_eq/=; done.
  - change (map (fun x0 => f x0 y) xs) with ((fun x0 => f x0 y) <$> xs).
    rewrite list_lookup_fmap, Hx. reflexivity.
Qed.

(** ** Arrays *)

Lemma bind_Ok {A B : Type} (f : A -> result B) (a : A) : (Ok a ≫= f) = f a.
Proof. reflexivity. Qed.

Lemma bind_Raise {A B : Type} (f : A -> result B) (e : exn) :
  (Raise e ≫= f) = Raise e.
Proof. reflexivity. Qed.

Ltac result_simpl := unfold mbind, mret, result_bind, result_ret in *; simpl in *.
Ltac result_rw := rewrite ?bind_Ok, ?bind_Raise in *.

Lemma item3_Some (a : ndarray3 num) c p s x :
  item3 a c p s = Some x <->
  exists ch px, items3 a !! c = Some ch /\ ch !! p = Some px /\ px !! s = Some x.
Proof.
  unfold item3. split.
  - intros Hx. destruct (items3 a !! c) as [ch|]; simpl in Hx; [|done].
    destruct (ch !! p) as [px|] eqn:Hpx; simpl in Hx; [|done]. eauto.
  - intros (ch & px & -> & Hp & Hs). simpl. rewrite Hp. simpl. done.
Qed.

Lemma item2_Some (a : ndarray2 num) i j x :
  item2 a i j = Some x <->
  exists row, items2 a !! i = Some row /\ row !! j = Some x.
Proof.
  unfold item2. split.
  - intros Hx. destruct (items2 a !! i) as [row|]; simpl in Hx; [|done]. eauto.
  - intros (row & -> & Hj). done.
Qed.

Lemma wf3_item (a : ndarray3 num) c p s :
  wf3 a -> c < (shape3 a).1.1 -> p < (shape3 a).1.2 -> s < (shape3 a).2 ->
  is_Some (item3 a c p s).
Proof.
  intros [Hlen Hall] Hc Hp Hs.
  destruct (lookup_lt_is_Some_2 (items3 a) c) as [ch Hch]; [lia|].
  destruct (Forall_lookup_1 _ _ _ _ Hall Hch) as [Hlch Hpx].
  destruct (lookup_lt_is_Some_2 ch p) as [px Hp']; [lia|].
  pose proof (Forall_lookup_1 _ _ _ _ Hpx Hp') as Hlpx.
  destruct (lookup_lt_is_Some_2 px s) as [x Hx]; [simpl in *; lia|].
  exists x. apply item3_Some. eauto.
Qed.

Lemma wf2_item (a : ndarray2 num) i j :
  wf2 a -> i < (shape2 a).1 -> j < (shape2 a).2 -> is_Some (item2 a i j).
Proof.
  intros [Hlen Hall] Hi Hj.
  destruct (lookup_lt_is_Some_2 (items2 a) i) as [row Hrow]; [lia|].
  pose proof (Forall_lookup_1 _ _ _ _ Hall Hrow) as Hl.
  destruct (lookup_lt_is_Some_2 row j) as [x Hx]; [simpl in *; lia|].
  exists x. apply item2_Some. eauto.
Qed.

Lemma wf3_newaxis (a : ndarray2 num) : wf2 a -> wf3 (newaxis a).
Proof.
  intros [Hlen Hall]. split; simpl.
  - now rewrite length_map.
  - apply Forall_forall. intros ch Hch.
    apply list_elem_of_fmap in Hch as (row & -> & Hrow).
    rewrite Forall_forall in Hall. split.
    + rewrite length_map. auto.
    + apply Forall_forall. intros px Hpx.
      apply list_elem_of_fmap in Hpx as (x & -> & _). done.
Qed.

Lemma item3_newaxis (a : ndarray2 num) c p :
  item3 (newaxis a) c p 0 = item2 a c p.
Proof.
  unfold item3, item2, newaxis. simpl.
  change (map (map (fun x : num => [x])) (items2 a))
    with ((map (fun x : num => [x])) <$> items2 a).
  rewrite list_lookup_fmap. destruct (items2 a !! c) as [row|]; simpl; [|done].
  change (map (fun x : num => [x]) row) with ((fun x : num => [x]) <$> row).
  rewrite list_lookup_fmap. destruct (row !! p); done.
Qed.

Lemma wf3_scalar_op f (a : ndarray3 num) k : wf3 a -> wf3 (scalar_op f a k).
Proof.
  intros [Hlen Hall]. split; simpl.
  - now rewrite length_map.
  - apply Forall_forall. intros ch' Hch.
    apply list_elem_of_fmap in Hch as (ch & -> & Hch).
    rewrite Forall_forall in Hall. destruct (Hall _ Hch) as [Hl Hpx]. split.
    + now rewrite length_map.
    + apply Forall_forall. intros px' Hpx'.
      apply list_elem_of_fmap in Hpx' as (px & -> & Hin).
      rewrite Forall_forall in Hpx. rewrite length_map. auto.
Qed.

Lemma item3_scalar_op f (a : ndarray3 num) k c p s :
  item3 (scalar_op f a k) c p s = (fun x => f x k) <$> item3 a c p s.
Proof.
  unfold item3, scalar_op. simpl.
  change (map (map (map (fun x => f x k))) (items3 a))
    with ((map (map (fun x => f x k))) <$> items3 a).
  rewrite list_lookup_fmap. destruct (items3 a !! c) as [ch|]; simpl; [|done].
  change (map (map (fun x => f x k)) ch) with ((map (fun x => f x k)) <$> ch).
  rewrite list_lookup_fmap. destruct (ch !! p) as [px|]; simpl; [|done].
  change (map (fun x => f x k) px) with ((fun x => f x k) <$> px).
  now rewrite list_lookup_fmap.
Qed.

(** Broadcasting preserves well-formedness. *)
Lemma wf3_binary_op f (a b c : ndarray3 num) :
  wf3 a -> wf3 b -> binary_op f a b = Ok c -> wf3 c.
Proof.
  unfold binary_op, wf3. intros [Ha1 Ha2] [Hb1 Hb2].
  destruct (shape3 a) as [[ca pa] sa], (shape3 b) as [[cb pb] sb]. simpl in *.
  destruct (broadcast_dim ValueError ca cb) as [n0|] eqn:E0; result_simpl; [|done].
  destruct (broadcast_dim ValueError pa pb) as [n1|] eqn:E1; result_simpl; [|done].
  destruct (broadcast_dim ValueError sa sb) as [n2|] eqn:E2; result_simpl; [|done].
  intros [= <-]. simpl. rewrite Forall_forall in Ha2, Hb2. split.
  - eapply broadcast_zip_length. rewrite Ha1, Hb1. exact E0.
  - apply Forall_forall. intros z Hz.
    apply broadcast_zip_elem in Hz as (x & y & Hx & Hy & ->).
    destruct (Ha2 _ Hx) as [Hxl Hxa], (Hb2 _ Hy) as [Hyl Hya]. split.
    + eapply broadcast_zip_length. rewrite Hxl, Hyl. exact E1.
    + apply Forall_forall. intros z' Hz'.
      apply broadcast_zip_elem in Hz' as (x' & y' & Hx' & Hy' & ->).
      rewrite Forall_forall in Hxa, Hya.
      eapply broadcast_zip_length. rewrite (Hxa _ Hx'), (Hya _ Hy'). exact E2.
Qed.

(** An operand whose last axis has length one is broadcast over the
    samples of the other. *)
Lemma binary_op_last_axis f (a b : ndarray3 num) :
  wf3 a -> wf3 b -> shape3 b = ((shape3 a).1, 1) ->
  exists r, binary_op f a b = Ok r /\ shape3 r = shape3 a /\
    forall c p s x y,
      item3 a c p s = Some x -> item3 b c p 0 = Some y ->
      item3 r c p s = Some (f x y).
Proof.
  intros Ha Hb Hsh. unfold binary_op.
  destruct (shape3 a) as [[ca pa] sa] eqn:Esa. simpl in Hsh. rewrite Hsh.
  rewrite !broadcast_dim_same, broadcast_dim_one. result_simpl.
  eexists. split; [reflexivity|]. split; [reflexivity|].
  intros c p s x y Hx Hy.
  apply item3_Some in Hx as (ch & px & Hch & Hpx & Hs).
  apply item3_Some in Hy as (chb & pxb & Hchb & Hpxb & Hs0).
  destruct Ha as [Hal Haa], Hb as [Hbl Hbb]. rewrite Esa in *. rewrite Hsh in *.
  simpl in *.
  destruct (Forall_lookup_1 _ _ _ _ Haa Hch) as [Hlch _].
  destruct (Forall_lookup_1 _ _ _ _ Hbb Hchb) as [Hlchb Hpb].
  pose proof (Forall_lookup_1 _ _ _ _ Hpb Hpxb) as Hone.
  destruct pxb as [|y' [|? ?]]; try discriminate. simplify_eq/=.
  apply item3_Some. do 2 eexists. split; [|split].
  - apply broadcast_zip_lookup; [congruence|eassumption..].
  - apply broadcast_zip_lookup; [congruence|eassumption..].
  - now apply broadcast_zip_lookup_single.
Qed.

(** ** The calibration formula *)

Lemma calibrated_waveforms_spec (r0_waveforms : ndarray3 num)
    (pedestal dc_to_pe : ndarray2 num) :
  wf3 r0_waveforms -> wf2 pedestal -> wf2 dc_to_pe ->
  shape2 pedestal = (shape3 r0_waveforms).1 ->
  shape2 dc_to_pe = (shape3 r0_waveforms).1 ->
  exists r1, calibrated_waveforms r0_waveforms pedestal dc_to_pe = Ok r1 /\
    shape3 r1 = shape3 r0_waveforms /\ wf3 r1 /\
    forall c p s r ped g,
      item3 r0_waveforms c p s = Some r ->
      item2 pedestal c p = Some ped ->
      item2 dc_to_pe c p = Some g ->
      item3 r1 c p s =
        Some (multiply
                (subtract r (true_divide ped (of_int (Z.of_nat (shape3 r0_waveforms).2))))
                g).
Proof.
  intros Hr0 Hped Hgain Hsp Hsg. unfold calibrated_waveforms.
  set (n := of_int (Z.of_nat (shape3 r0_waveforms).2)).
  set (ped3 := scalar_op true_divide (newaxis pedestal) n).
  assert (wf3 ped3) as Hped3 by (apply wf3_scalar_op; apply wf3_newaxis; exact Hped).
  destruct (binary_op_last_axis subtract r0_waveforms ped3 Hr0 Hped3)
    as (d & Hd & Hdsh & Hdit).
  { simpl. now rewrite Hsp. }
  rewrite Hd. result_simpl.
  pose proof (wf3_binary_op _ _ _ _ Hr0 Hped3 Hd) as Hwd.
  assert (wf3 (newaxis dc_to_pe)) as Hg3 by (apply wf3_newaxis; exact Hgain).
  destruct (binary_op_last_axis multiply d (newaxis dc_to_pe) Hwd Hg3)
    as (r1 & Hr1 & Hr1sh & Hr1it).
  { simpl. now rewrite Hsg, Hdsh. }
  exists r1. split; [exact Hr1|]. split; [congruence|].
  split; [exact (wf3_binary_op _ _ _ _ Hwd Hg3 Hr1)|].
  intros c p s r ped g Hr Hp Hg.
  apply Hr1it.
  - apply Hdit; [exact Hr|].
    unfold ped3. rewrite item3_scalar_op, item3_newaxis, Hp. reflexivity.
  - now rewrite item3_newaxis.
Qed.

Lemma ndarray3_ext (a b : ndarray3 num) :
  wf3 a -> wf3 b -> shape3 a = shape3 b ->
  (forall c p s x y, item3 a c p s = Some x -> item3 b c p s = Some y -> x = y) ->
  items3 a = items3 b.
Proof.
  intros [Hal Haa] [Hbl Hbb] Hsh Hit. rewrite <- Hsh in *.
  eapply list_eq_same_length; [exact Hbl|exact Hal|].
  intros c cha chb Hc Hcha Hchb.
  destruct (Forall_lookup_1 _ _ _ _ Haa Hcha) as [Hla Hpa].
  destruct (Forall_lookup_1 _ _ _ _ Hbb Hchb) as [Hlb Hpb].
  eapply list_eq_same_length; [exact Hlb|exact Hla|].
  intros p pxa pxb Hp Hpxa Hpxb.
  pose proof (Forall_lookup_1 _ _ _ _ Hpa Hpxa) as Hsa.
  pose proof (Forall_lookup_1 _ _ _ _ Hpb Hpxb) as Hsb. simpl in Hsa, Hsb.
  eapply list_eq_same_length; [exact Hsb|exact Hsa|].
  intros s x y Hs Hx Hy.
  assert (item3 a c p s = Some x) as Hxa by (apply item3_Some; eauto).
  assert (item3 b c p s = Some y) as Hyb by (apply item3_Some; eauto).
  eauto.
Qed.

Lemma arange_lookup n p : p < n -> arange n !! p = Some (Z.of_nat p).
Proof.
  intros Hp. unfold arange.
  change (map Z.of_nat (seq 0 n)) with (Z.of_nat <$> seq 0 n).
  rewrite list_lookup_fmap, lookup_seq_lt by done. reflexivity.
Qed.

Lemma arange_length n : length (arange n) = n.
Proof. unfold arange. now rewrite length_map, length_seq. Qed.

Lemma normalize_index_nat size p :
  p < size -> normalize_index size (Z.of_nat p) = Ok p.
Proof.
  intros Hp. unfold normalize_index.
  rewrite decide_True by lia. now rewrite Nat2Z.id.
Qed.

(** With one index per pixel, advanced indexing with [arange] gathers,
    for each pixel, that pixel's samples in the indexed channel. *)
Lemma advanced_index_Ok (a : ndarray3 num) (idx : list Z) (r : ndarray2 num) :
  advanced_index a idx (arange (shape3 a).1.2) = Ok r ->
  length idx = (shape3 a).1.2 ->
  shape2 r = ((shape3 a).1.2, (shape3 a).2) /\
  forall p, p < (shape3 a).1.2 ->
    exists v c px, idx !! p = Some v /\
      normalize_index (shape3 a).1.1 v = Ok c /\
      (items3 a !! c ≫= (.!! p)) = Some px /\
      items2 r !! p = Some px.
Proof.
  unfold advanced_index. intros Hr Hlen.
  rewrite arange_length, Hlen, broadcast_dim_same in Hr. result_simpl.
  destruct (mapM_result _ _) as [rows|] eqn:Hrows; result_simpl; [|done].
  injection Hr as <-. simpl. split; [reflexivity|].
  intros p Hp. apply mapM_result_Ok in Hrows as [_ Hrows].
  destruct (lookup_lt_is_Some_2 idx p) as [v Hv]; [lia|].
  destruct (Hrows p (v, Z.of_nat p)) as (px & Hpx & Hf).
  { apply broadcast_zip_lookup; [now rewrite arange_length|exact Hv|].
    now apply arange_lookup. }
  simpl in Hf.
  destruct (normalize_index (shape3 a).1.1 v) as [c|] eqn:Hc; result_rw; [|done].
  rewrite normalize_index_nat in Hf by done. result_rw.
  destruct (option_bind _ _ _ (items3 a !! c)) as [px'|] eqn:Hpx'; [|done].
  injection Hf as ->. exists v, c, px. eauto.
Qed.

Lemma advanced_index_total (a : ndarray3 num) (idx : list Z) :
  wf3 a -> length idx = (shape3 a).1.2 ->
  Forall (fun v => - Z.of_nat (shape3 a).1.1 <= v < Z.of_nat (shape3 a).1.1)%Z idx ->
  exists r, advanced_index a idx (arange (shape3 a).1.2) = Ok r.
Proof.
  intros [Hal Haa] Hlen Hrange. unfold advanced_index.
  rewrite arange_length, Hlen, broadcast_dim_same. result_simpl.
  destruct (mapM_result_total
    (fun ij : Z * Z =>
       c ← normalize_index (shape3 a).1.1 ij.1;
       p ← normalize_index (shape3 a).1.2 ij.2;
       match items3 a !! c ≫= (.!! p) with
       | Some px => Ok px
       | None => Raise IndexError
       end)
    (broadcast_zip pair idx (arange (shape3 a).1.2))) as [rows Hrows].
  - apply Forall_forall. intros [v j] Hvj.
    apply broadcast_zip_elem in Hvj as (v' & j' & Hv & Hj & [= -> ->]).
    rewrite Forall_forall in Hrange. specialize (Hrange _ Hv). simpl.
    unfold arange in Hj.
    apply list_elem_of_fmap in Hj as (p & -> & Hp). apply elem_of_seq in Hp.
    assert (exists c, normalize_index (shape3 a).1.1 v' = Ok c /\ c < (shape3 a).1.1)
      as (c & -> & Hc).
    { unfold normalize_index. repeat case_decide; try lia; eexists; split; eauto; lia. }
    rewrite normalize_index_nat by lia. result_simpl.
    destruct (lookup_lt_is_Some_2 (items3 a) c) as [ch Hch]; [lia|].
    destruct (Forall_lookup_1 _ _ _ _ Haa Hch) as [Hl _].
    destruct (lookup_lt_is_Some_2 ch p) as [px Hpx]; [lia|].
    rewrite Hch. simpl. rewrite Hpx. eauto.
  - unfold mbind, result_bind in Hrows. rewrite Hrows. eauto.
Qed.

(** ** The monad *)

Lemma M_bind_lift {A B : Type} (r : result A) (k : A -> M B) (w : world) :
  (lift r ≫= k) w = match r with Ok a => k a w | Raise e => (Raise e, w) end.
Proof. destruct r; reflexivity. Qed.

Lemma M_bind_emit {B : Type} (e : effect) (k : () -> M B) (w : world) :
  (emit e ≫= k) w = k () (record_effect e w).
Proof. reflexivity. Qed.

Lemma M_bind_ret {A B : Type} (a : A) (k : A -> M B) (w : world) :
  (mret a ≫= k) w = k a w.
Proof. reflexivity. Qed.

Lemma M_bind_run {A B : Type} (m : M A) (k : A -> M B) (w : world) :
  (m ≫= k) w =
  match m w with
  | (Ok a, w') => k a w'
  | (Raise e, w') => (Raise e, w')
  end.
Proof. reflexivity. Qed.

(** ** R1 calibration *)

Lemma call_gain_selector_run (g : GainSelector) (a : ndarray3 num) (w : world) :
  call_gain_selector g a w = (g a, record_effect (GainSelectorCalled a) w).
Proof. reflexivity. Qed.

Lemma first_channel_item (a : ndarray3 num) (r : ndarray2 num) p s :
  first_channel a = Ok r ->
  shape2 r = ((shape3 a).1.2, (shape3 a).2) /\ item2 r p s = item3 a 0 p s.
Proof.
  unfold first_channel, item2, item3.
  destruct (items3 a) as [|ch rest]; [done|]. intros [= <-]. done.
Qed.

(** C1: for well-formed raw waveforms of shape (n_channels, n_pixels,
    n_samples) and pedestal and conversion-factor arrays of shape
    (n_channels, n_pixels), the calibrated waveforms exist, have the
    shape of the raw ones, and hold at every channel, pixel and sample
    (raw - pedestal / n_samples) * dc_to_pe; and every sample of the
    waveform that [apply_simtel_r1_calibration] returns is that value for
    its pixel in the channel selected for the pixel. *)
Theorem apply_simtel_r1_calibration_formula
    (r0_waveforms : ndarray3 num) (pedestal dc_to_pe : ndarray2 num)
    (gain_selector : GainSelector) (w : world) :
  wf3 r0_waveforms -> wf2 pedestal -> wf2 dc_to_pe ->
  shape2 pedestal = (shape3 r0_waveforms).1 ->
  shape2 dc_to_pe = (shape3 r0_waveforms).1 ->
  (exists r1,
     calibrated_waveforms r0_waveforms pedestal dc_to_pe = Ok r1 /\
     shape3 r1 = shape3 r0_waveforms /\
     forall c p s,
       c < (shape3 r0_waveforms).1.1 -> p < (shape3 r0_waveforms).1.2 ->
       s < (shape3 r0_waveforms).2 ->
       exists r ped g,
         item3 r0_waveforms c p s = Some r /\
         item2 pedestal c p = Some ped /\
         item2 dc_to_pe c p = Some g /\
         item3 r1 c p s =
           Some (multiply
                   (subtract r
                      (true_divide ped (of_int (Z.of_nat (shape3 r0_waveforms).2))))
                   g)) /\
  (forall out sel w',
     apply_simtel_r1_calibration r0_waveforms pedestal dc_to_pe gain_selector w
       = (Ok (out, sel), w') ->
     length sel = (shape3 r0_waveforms).1.2 ->
     shape2 out = ((shape3 r0_waveforms).1.2, (shape3 r0_waveforms).2) /\
     forall p s,
       p < (shape3 r0_waveforms).1.2 -> s < (shape3 r0_waveforms).2 ->
       exists v c r ped g,
         sel !! p = Some v /\
         normalize_index (shape3 r0_waveforms).1.1 v = Ok c /\
         item3 r0_waveforms c p s = Some r /\
         item2 pedestal c p = Some ped /\
         item2 dc_to_pe c p = Some g /\
         item2 out p s =
           Some (multiply
                   (subtract r
                      (true_divide ped (of_int (Z.of_nat (shape3 r0_waveforms).2))))
                   g)).
Proof.
  intros Hr0 Hped Hgain Hsp Hsg.
  destruct (calibrated_waveforms_spec _ _ _ Hr0 Hped Hgain Hsp Hsg)
    as (r1 & Hr1 & Hsh & Hwf & Hit).
  assert (Hall : forall c p s,
    c < (shape3 r0_waveforms).1.1 -> p < (shape3 r0_waveforms).1.2 ->
    s < (shape3 r0_waveforms).2 ->
    exists r ped g,
      item3 r0_waveforms c p s = Some r /\
      item2 pedestal c p = Some ped /\
      item2 dc_to_pe c p = Some g /\
      item3 r1 c p s =
        Some (multiply
                (subtract r
                   (true_divide ped (of_int (Z.of_nat (shape3 r0_waveforms).2))))
                g)).
  { intros c p s Hc Hp Hs.
    destruct (wf3_item r0_waveforms c p s) as [r Hr]; try done.
    destruct (wf2_item pedestal c p) as [ped Hp']; try done; try (rewrite Hsp; done).
    destruct (wf2_item dc_to_pe c p) as [g Hg]; try done; try (rewrite Hsg; done).
    exists r, ped, g. eauto. }
  split; [exists r1; eauto|].
  intros out sel w' Happ Hlen.
  unfold apply_simtel_r1_calibration in Happ.
  rewrite M_bind_lift, Hr1 in Happ.
  destruct (decide ((shape3 r0_waveforms).1.1 = 1)) as [Hone|Hmany].
  - rewrite M_bind_lift in Happ.
    destruct (first_channel r1) as [r|] eqn:Hfc; [|done].
    injection Happ as <- <- <-.
    split; [rewrite <- Hsh; eapply (first_channel_item _ _ 0 0), Hfc|].
    intros p s Hp Hs.
    destruct (Hall 0 p s) as (x & ped & g & Hx & Hpd & Hg & Hv); [lia|done|done|].
    exists 0%Z, 0, x, ped, g.
    split; [apply lookup_replicate_2; done|].
    split; [unfold normalize_index; rewrite decide_True by lia; done|].
    do 3 (split; [done|]).
    destruct (first_channel_item _ _ p s Hfc) as [_ ->]. exact Hv.
  - rewrite M_bind_run, call_gain_selector_run in Happ.
    destruct (gain_selector r0_waveforms) as [sel'|] eqn:Hsel; [|done].
    rewrite M_bind_lift in Happ.
    destruct (advanced_index r1 sel' _) as [r|] eqn:Hai; [|done].
    injection Happ as <- <- <-.
    rewrite <- Hsh in Hai, Hlen.
    destruct (advanced_index_Ok _ _ _ Hai Hlen) as [Hshr Hrows].
    rewrite Hsh in Hshr, Hrows. split; [done|].
    intros p s Hp Hs.
    destruct (Hrows p Hp) as (v & c & px & Hv & Hc & Hpx & Hout).
    destruct (items3 r1 !! c) as [ch|] eqn:Hch; [|done]. simpl in Hpx.
    assert (c < (shape3 r0_waveforms).1.1) as Hclt.
    { destruct Hwf as [Hl _]. rewrite Hsh in Hl. rewrite <- Hl.
      eapply lookup_lt_Some, Hch. }
    destruct (Hall c p s) as (x & ped & g & Hx & Hpd & Hg & Hval); try done.
    exists v, c, x, ped, g. do 5 (split; [done|]).
    rewrite <- Hval. unfold item2, item3. rewrite Hout, Hch. simpl.
    rewrite Hpx. done.
Qed.

Lemma item3_in_range (a : ndarray3 num) c p s x :
  wf3 a -> item3 a c p s = Some x ->
  c < (shape3 a).1.1 /\ p < (shape3 a).1.2 /\ s < (shape3 a).2.
Proof.
  intros [Hl Hall] Hx. apply item3_Some in Hx as (ch & px & Hch & Hpx & Hs).
  destruct (Forall_lookup_1 _ _ _ _ Hall Hch) as [Hlch Hrows].
  pose proof (Forall_lookup_1 _ _ _ _ Hrows Hpx) as Hlpx. simpl in Hlpx.
  apply lookup_lt_Some in Hch, Hpx, Hs. lia.
Qed.

(** C2: with one channel the selected channel is zero for each of the
    n_pixels pixels, the returned waveform is the single channel of the
    calibrated waveforms, and the result and the world are the same
    whatever the gain selector is (no call of it is recorded); if moreover
    the pedestal is 0 and the conversion factor 1, and the arithmetic
    leaves the raw samples unchanged under x - 0/n and x * 1, the
    returned waveform is the raw one.  With several channels the selector
    is called once, on the raw waveforms, and for a selector result with
    one channel index in [0, n_channels) per pixel the returned row of
    pixel p is the calibrated row of pixel p in the channel selected for
    p. *)
Theorem apply_simtel_r1_calibration_gain_selection
    (r0_waveforms : ndarray3 num) (pedestal dc_to_pe : ndarray2 num)
    (gain_selector : GainSelector) (w : world) :
  wf3 r0_waveforms -> wf2 pedestal -> wf2 dc_to_pe ->
  shape2 pedestal = (shape3 r0_waveforms).1 ->
  shape2 dc_to_pe = (shape3 r0_waveforms).1 ->
  exists r1,
    calibrated_waveforms r0_waveforms pedestal dc_to_pe = Ok r1 /\
    ((shape3 r0_waveforms).1.1 = 1 ->
       exists ch,
         items3 r1 = [ch] /\
         apply_simtel_r1_calibration r0_waveforms pedestal dc_to_pe gain_selector w
           = (Ok ({| shape2 := ((shape3 r0_waveforms).1.2, (shape3 r0_waveforms).2);
                     items2 := ch |},
                  zeros_int (shape3 r0_waveforms).1.2), w) /\
         ((forall c p x, item2 pedestal c p = Some x -> x = of_int 0) ->
          (forall c p x, item2 dc_to_pe c p = Some x -> x = of_int 1) ->
          (forall c p s x, item3 r0_waveforms c p s = Some x ->
             multiply
               (subtract x
                  (true_divide (of_int 0) (of_int (Z.of_nat (shape3 r0_waveforms).2))))
               (of_int 1) = x) ->
          items3 r0_waveforms = [ch])) /\
    (1 < (shape3 r0_waveforms).1.1 ->
       apply_simtel_r1_calibration r0_waveforms pedestal dc_to_pe gain_selector w
         = match gain_selector r0_waveforms with
           | Ok sel =>
               match advanced_index r1 sel (arange (shape3 r0_waveforms).1.2) with
               | Ok out =>
                   (Ok (out, sel), record_effect (GainSelectorCalled r0_waveforms) w)
               | Raise e =>
                   (Raise e, record_effect (GainSelectorCalled r0_waveforms) w)
               end
           | Raise e => (Raise e, record_effect (GainSelectorCalled r0_waveforms) w)
           end /\
       forall sel,
         gain_selector r0_waveforms = Ok sel ->
         length sel = (shape3 r0_waveforms).1.2 ->
         Forall (fun v => 0 <= v < Z.of_nat (shape3 r0_waveforms).1.1)%Z sel ->
         exists out,
           apply_simtel_r1_calibration r0_waveforms pedestal dc_to_pe gain_selector w
             = (Ok (out, sel), record_effect (GainSelectorCalled r0_waveforms) w) /\
           shape2 out = ((shape3 r0_waveforms).1.2, (shape3 r0_waveforms).2) /\
           forall p v, sel !! p = Some v ->
             items2 out !! p = items3 r1 !! Z.to_nat v ≫= (.!! p)).
Proof.
  intros Hr0 Hped Hgain Hsp Hsg.
  destruct (calibrated_waveforms_spec _ _ _ Hr0 Hped Hgain Hsp Hsg)
    as (r1 & Hr1 & Hsh & Hwf & Hit).
  exists r1. split; [exact Hr1|]. split.
  - intros Hone. destruct Hwf as [Hl Hrows]. rewrite Hsh, Hone in Hl.
    destruct (items3 r1) as [|ch [|? ?]] eqn:Hitems; try discriminate.
    exists ch. split; [reflexivity|]. split.
    + unfold apply_simtel_r1_calibration.
      rewrite M_bind_lift, Hr1, decide_True by done.
      rewrite M_bind_lift. unfold first_channel. rewrite Hitems, Hsh. reflexivity.
    + intros Hzero Hunit Hlaw. rewrite <- Hitems. symmetry.
      apply ndarray3_ext; [| exact Hr0 | exact Hsh |].
      { split; [rewrite Hitems, Hsh, Hone; reflexivity|]. rewrite Hitems. exact Hrows. }
      intros c p s x y Hx Hy.
      destruct (item3_in_range _ _ _ _ _ Hr0 Hy) as (Hc & Hp & Hs).
      destruct (wf2_item pedestal c p) as [ped Hp']; try done; try (rewrite Hsp; done).
      destruct (wf2_item dc_to_pe c p) as [g Hg]; try done; try (rewrite Hsg; done).
      rewrite (Hit _ _ _ _ _ _ Hy Hp' Hg) in Hx. injection Hx as <-.
      rewrite (Hzero _ _ _ Hp'), (Hunit _ _ _ Hg). now apply (Hlaw c p s).
  - intros Hmany. split.
    + unfold apply_simtel_r1_calibration.
      rewrite M_bind_lift, Hr1, decide_False by lia.
      rewrite M_bind_run, call_gain_selector_run.
      destruct (gain_selector r0_waveforms) as [sel|]; [|reflexivity].
      rewrite M_bind_lift. destruct (advanced_index r1 sel _); reflexivity.
    + intros sel Hsel Hlen Hrange.
      destruct (advanced_index_total r1 sel) as [out Hout]; [done|congruence| |].
      { rewrite Hsh. eapply Forall_impl; [exact Hrange|]. simpl. lia. }
      exists out. rewrite Hsh in Hout.
      split.
      { unfold apply_simtel_r1_calibration.
        rewrite M_bind_lift, Hr1, decide_False by lia.
        rewrite M_bind_run, call_gain_selector_run, Hsel.
        rewrite M_bind_lift, Hout. reflexivity. }
      rewrite <- Hsh in Hout, Hlen.
      destruct (advanced_index_Ok _ _ _ Hout Hlen) as [Hshr Hgather].
      split; [congruence|].
      intros p v Hv.
      destruct (Hgather p) as (v' & c & px & Hv' & Hc & Hpx & Hres).
      { rewrite <- Hlen. eapply lookup_lt_Some, Hv. }
      assert (v' = v) as -> by congruence.
      rewrite Forall_forall in Hrange.
      assert (0 <= v < Z.of_nat (shape3 r0_waveforms).1.1)%Z as Hvr.
      { apply Hrange. eapply list_elem_of_lookup_2, Hv. }
      unfold normalize_index in Hc. rewrite Hsh, decide_True in Hc by done.
      injection Hc as <-. congruence.
Qed.

(** ** Frame lemmas *)

Section Frame.
Context {X : Type} (π : EventAndMonDataContainer -> X).

Lemma preserves_ret {A : Type} (a : A) : preserves π (mret a).
Proof.
  intros w r w' [= <- <-]. repeat split; try done. eauto.
Qed.

Lemma preserves_lift {A : Type} (r : result A) : preserves π (lift r).
Proof.
  intros w r' w' [= <- <-]. repeat split; try done. eauto.
Qed.

Lemma preserves_read_mc_run_headers : preserves π read_mc_run_headers.
Proof.
  intros w r w' [= <- <-]. repeat split; try done. eauto.
Qed.

Lemma preserves_emit (e : effect) : preserves π (emit e).
Proof.
  intros w r w' [= <- <-]. repeat split; try done. simpl. eauto.
Qed.

Lemma preserves_bind {A B : Type} (m : M A) (k : A -> M B) :
  preserves π m -> (forall a, preserves π (k a)) -> preserves π (m ≫= k).
Proof.
  intros Hm Hk w r w' Hrun. rewrite M_bind_run in Hrun.
  destruct (m w) as [[a|e] w1] eqn:Hmw.
  - destruct (Hm _ _ _ Hmw) as (Hp1 & Hl1 & Hc1).
    destruct (Hk a _ _ _ Hrun) as (Hp2 & Hl2 & Hc2).
    split; [congruence|]. split; [congruence|].
    intros l d' Hd'. destruct (Hc2 _ _ Hd') as (d1 & Hd1 & Heq1).
    destruct (Hc1 _ _ Hd1) as (d & Hd & Heq). exists d. split; [done|congruence].
  - injection Hrun as <- <-. exact (Hm _ _ _ Hmw).
Qed.

Lemma preserves_modify (data : loc) f :
  (forall d, π (f d) = π d) -> preserves π (modify data f).
Proof.
  intros Hf w r w' [= <- <-]. simpl. split; [done|].
  split; [apply length_alter|].
  intros l d' Hd'. destruct (decide (data = l)) as [->|Hne].
  - rewrite list_lookup_alter_eq in Hd'.
    destruct (containers w !! l) as [d|]; [|done].
    injection Hd' as <-. eauto.
  - rewrite list_lookup_alter_ne in Hd' by done. eauto.
Qed.

Lemma preserves_calibration (a : ndarray3 num) (p g : ndarray2 num) sel :
  preserves π (apply_simtel_r1_calibration a p g sel).
Proof.
  unfold apply_simtel_r1_calibration, call_gain_selector.
  apply preserves_bind; [apply preserves_lift|]. intros r1.
  case_decide.
  - apply preserves_bind; [apply preserves_lift|]. intros. apply preserves_ret.
  - apply preserves_bind.
    + apply preserves_bind; [apply preserves_emit|]. intros. apply preserves_lift.
    + intros. apply preserves_bind; [apply preserves_lift|]. intros.
      apply preserves_ret.
Qed.

End Frame.

Ltac frame :=
  repeat first
    [ apply preserves_ret | apply preserves_lift | apply preserves_emit
    | apply preserves_read_mc_run_headers
    | apply preserves_calibration
    | apply preserves_modify; solve [ intros; reflexivity | auto ]
    | apply preserves_bind; [|intros]
    | match goal with |- preserves _ (if ?c then _ else _) => destruct c end
    | match goal with |- preserves _ (match ?c with _ => _ end) => destruct c end ].

Section FrameGenerator.
Context {X : Type} (π : EventAndMonDataContainer -> X).
Variable self : SimTelEventSource.
Variable data : loc.

Hypothesis Hmc : forall f d, π (with_mc f d) = π d.
Hypothesis Hmcheader : forall f d, π (with_mcheader f d) = π d.
Hypothesis Hr0 : forall f d, π (with_r0 (with_tel f) d) = π d.
Hypothesis Hr1 : forall f d, π (with_r1 (with_tel f) d) = π d.
Hypothesis Hdl0 : forall f d, π (with_dl0 (with_tel f) d) = π d.
Hypothesis Hdl1 : forall f d, π (with_dl1_tel f d) = π d.

Lemma preserves_fill_mc_information ae :
  preserves π (fill_mc_information self data ae).
Proof. unfold fill_mc_information, set_mc_shower. frame. Qed.

Lemma preserves_fill_mc_camera ae tel_id tel_index n_pixels :
  preserves π (fill_mc_camera data ae tel_id tel_index n_pixels).
Proof. unfold fill_mc_camera, update_mc. frame. Qed.

Lemma preserves_fill_waveforms tel_id te a p g :
  preserves π (fill_waveforms self data tel_id te a p g).
Proof. unfold fill_waveforms, update_r0, update_r1. frame. Qed.

Lemma preserves_clear_telescopes : forall d, π (clear_telescopes d) = π d.
Proof.
  intros d. unfold clear_telescopes.
  now rewrite Hr0, Hr1, Hdl0, Hdl1, Hmc.
Qed.

(** The telescopes whose pointing entries [π] does not look at. *)
Variable touched : Z -> Prop.
Hypothesis Hpointing : forall tel_id f d,
  touched tel_id ->
  π (with_pointing (map_update tel_id TelescopePointingContainer_default f) d) = π d.

Lemma preserves_fill_pointing tel_id tp :
  touched tel_id -> preserves π (fill_pointing data tel_id tp).
Proof.
  intros Ht. unfold fill_pointing, set_pointing_azimuth, set_pointing_altitude.
  frame.
Qed.

Lemma preserves_fill_telescope ae tel_id te :
  touched tel_id -> preserves π (fill_telescope self data ae tel_id te).
Proof.
  intros Ht. unfold fill_telescope.
  apply preserves_bind; [apply preserves_lift|]. intros tel_index.
  apply preserves_bind; [apply preserves_lift|]. intros adc_samples.
  apply preserves_bind; [apply preserves_fill_mc_camera|]. intros mc.
  apply preserves_bind; [now apply preserves_fill_pointing|]. intros _.
  apply preserves_fill_waveforms.
Qed.

Lemma preserves_fill_telescopes ae tes :
  Forall (fun t => touched t.1) tes ->
  preserves π (fill_telescopes self data ae tes).
Proof.
  induction 1 as [|[tel_id te] tes Ht _ IH]; simpl.
  - apply preserves_ret.
  - apply preserves_bind; [now apply preserves_fill_telescope|]. intros _. exact IH.
Qed.

End FrameGenerator.

(** ** One array event *)

Lemma M_bind_modify {B : Type} data f (k : () -> M B) (w : world) :
  (modify data f ≫= k) w = k () (modify data f w).2.
Proof. reflexivity. Qed.

Lemma modify_lookup data f (w : world) :
  containers (modify data f w).2 !! data = f <$> containers w !! data.
Proof. simpl. apply list_lookup_alter_eq. Qed.

Lemma modify_file_pos data f (w : world) :
  file_pos (modify data f w).2 = file_pos w.
Proof. reflexivity. Qed.

Lemma modify_length data f (w : world) :
  length (containers (modify data f w).2) = length (containers w).
Proof. simpl. apply length_alter. Qed.

Lemma fill_mc_camera_Ok data ae tel_id tel_index n_pixels w r w' :
  fill_mc_camera data ae tel_id tel_index n_pixels w = (Ok r, w') ->
  ae_tracking_positions ae !! tel_id = Some r.2.
Proof.
  unfold fill_mc_camera. rewrite M_bind_modify, M_bind_lift.
  destruct (ae_laser_calibrations ae !! tel_id); simpl; [|done].
  rewrite M_bind_modify, M_bind_lift.
  destruct (ae_camera_monitorings ae !! tel_id); simpl; [|done].
  rewrite M_bind_modify, M_bind_lift.
  destruct (ae_tracking_positions ae !! tel_id); simpl; [|done].
  rewrite M_bind_modify. intros [= <- _]. done.
Qed.

Lemma fill_pointing_run data tel_id tp w :
  fill_pointing data tel_id tp w =
  (Ok (),
   (modify data (set_pointing_altitude tel_id
                   (default nan (tp_altitude_cor tp)) (tp_altitude_raw tp))
      (modify data (set_pointing_azimuth tel_id
                      (default nan (tp_azimuth_cor tp)) (tp_azimuth_raw tp)) w).2).2).
Proof. reflexivity. Qed.

(** After the body of the telescope loop, the pointing of the telescope
    is the resolved one. *)
Lemma fill_telescope_pointing (self : SimTelEventSource) data ae tel_id te w w' d' :
  fill_telescope self data ae tel_id te w = (Ok (), w') ->
  containers w' !! data = Some d' ->
  exists tp, ae_tracking_positions ae !! tel_id = Some tp /\
    pointing d' !! tel_id = Some (resolved_pointing tp).
Proof.
  unfold fill_telescope. rewrite M_bind_lift.
  destruct (index_of _ _) as [tel_index|]; [|done].
  rewrite M_bind_lift.
  destruct (match te_adc_samples te with Some a => _ | None => _ end)
    as [adc_samples|]; [|done].
  rewrite M_bind_run.
  destruct (fill_mc_camera _ _ _ _ _ w) as [[[[ped g] tp]|] w1] eqn:Hmc; [|done].
  apply fill_mc_camera_Ok in Hmc. simpl in Hmc. simpl.
  rewrite M_bind_run, fill_pointing_run.
  set (w2 := (modify data _ (modify data _ w1).2).2).
  intros Hwf Hd'.
  destruct (preserves_fill_waveforms (fun d : EventAndMonDataContainer => pointing d) self data
              ltac:(done) ltac:(done) tel_id te adc_samples ped g _ _ _ Hwf)
    as (_ & _ & Hback).
  destruct (Hback _ _ Hd') as (d2 & Hd2 & ->).
  exists tp. split; [done|].
  unfold w2 in Hd2. rewrite !modify_lookup in Hd2.
  destruct (containers w1 !! data) as [d1|]; [|done].
  injection Hd2 as <-. simpl. unfold map_update.
  rewrite lookup_insert_eq. simpl. rewrite lookup_insert_eq. reflexivity.
Qed.

Lemma fill_telescopes_pointing (self : SimTelEventSource) data ae tes w w' d' :
  fill_telescopes self data ae tes w = (Ok (), w') ->
  containers w' !! data = Some d' ->
  forall tel_id, tel_id ∈ map fst tes ->
    exists tp, ae_tracking_positions ae !! tel_id = Some tp /\
      pointing d' !! tel_id = Some (resolved_pointing tp).
Proof.
  revert w. induction tes as [|[t te] rest IH]; intros w Hrun Hd' tel_id Hin.
  - now apply elem_of_nil in Hin.
  - simpl in Hrun. rewrite M_bind_run in Hrun.
    destruct (fill_telescope self data ae t te w) as [[[]|] w1] eqn:Hfirst; [|done].
    destruct (decide (tel_id ∈ map fst rest)) as [Hrest|Hrest]; [eauto|].
    simpl in Hin. apply elem_of_cons in Hin as [->|Hin]; [|done].
    destruct (preserves_fill_telescopes (fun d : EventAndMonDataContainer => pointing d !! t) self data
                ltac:(done) ltac:(done) ltac:(done) (fun t' => t' ≠ t)) with
      (ae := ae) (tes := rest) (w := w1) (r := Ok ()) (w' := w')
      as (_ & _ & Hback); try done.
    + intros t' f d Hne. simpl. unfold map_update. now apply lookup_insert_ne.
    + apply Forall_forall. intros [t' te'] Hx Heq. simpl in Heq. subst t'.
      apply Hrest. apply (list_elem_of_fmap_2 fst) in Hx. exact Hx.
    + destruct (Hback _ _ Hd') as (d1 & Hd1 & Heq). rewrite Heq.
      eapply fill_telescope_pointing; eauto.
Qed.

Lemma assemble_spec (self : SimTelEventSource) data ae w st w' :
  assemble self data ae w = (Ok st, w') ->
  st = Yield /\
  file_pos w' = file_pos w /\
  length (containers w') = length (containers w) /\
  forall d', containers w' !! data = Some d' ->
    (exists d, containers w !! data = Some d /\ event_header d' = event_header d) /\
    trig d' = trigger_of ae /\
    forall tel_id, tel_id ∈ map fst (ae_telescope_events ae) ->
      exists tp, ae_tracking_positions ae !! tel_id = Some tp /\
        pointing d' !! tel_id = Some (resolved_pointing tp).
Proof.
  unfold assemble. rewrite M_bind_modify.
  set (w1 := (modify data _ w).2). rewrite M_bind_run.
  destruct ((if decide (ae_type ae = "data") then fill_mc_information self data ae
             else mret ()) w1) as [[[]|] w2] eqn:Hmc; [|done].
  rewrite M_bind_modify. set (w3 := (modify data clear_telescopes w2).2).
  rewrite M_bind_run.
  destruct (fill_telescopes self data ae (ae_telescope_events ae) w3)
    as [[[]|] w4] eqn:Htel; [|done].
  intros [= <- <-].
  set (π := fun d : EventAndMonDataContainer => (event_header d, trig d)).
  assert (preserves π (if decide (ae_type ae = "data")
                       then fill_mc_information self data ae else mret ())) as P1.
  { case_decide; [|apply preserves_ret]. now apply preserves_fill_mc_information. }
  destruct (P1 _ _ _ Hmc) as (Hp1 & Hl1 & Hb1).
  destruct (preserves_fill_telescopes π self data
              ltac:(done) ltac:(done) ltac:(done) (fun _ => True)
              ltac:(done) ae (ae_telescope_events ae)
              ltac:(now apply Forall_forall) _ _ _ Htel) as (Hp2 & Hl2 & Hb2).
  split; [done|].
  split; [rewrite Hp2; unfold w3; rewrite modify_file_pos, Hp1; reflexivity|].
  split; [rewrite Hl2; unfold w3; rewrite modify_length, Hl1; apply modify_length|].
  intros d' Hd'.
  destruct (Hb2 _ _ Hd') as (d3 & Hd3 & Heq3).
  unfold w3 in Hd3. rewrite modify_lookup in Hd3.
  destruct (containers w2 !! data) as [d2|] eqn:Hd2; [|done].
  injection Hd3 as <-.
  destruct (Hb1 _ _ Hd2) as (d1 & Hd1 & Heq1).
  unfold w1 in Hd1. rewrite modify_lookup in Hd1.
  destruct (containers w !! data) as [d0|] eqn:Hd0; [|done].
  injection Hd1 as <-.
  assert (π d' = π (set_trigger (ae_trigger_information ae) d0)) as Heq.
  { rewrite Heq3, <- Heq1. reflexivity. }
  unfold π in Heq. apply pair_equal_spec in Heq as [Hhdr Htrig].
  split; [exists d0; split; [done|]|split].
  - exact Hhdr.
  - exact Htrig.
  - eapply fill_telescopes_pointing; eauto.
Qed.

(** What the loop body leaves in the container it writes to. *)
Lemma process_array_event_spec (self : SimTelEventSource) data counter ae w st w' :
  process_array_event self data counter ae w = (Ok st, w') ->
  st = (if passes_filter (allowed_tels (config self)) ae then Yield else Continue) /\
  file_pos w' = file_pos w /\
  length (containers w') = length (containers w) /\
  forall d', containers w' !! data = Some d' ->
    exists ev, event_id_of ae = Ok ev /\
      event_header d' =
        (ae_type ae, counter,
         {| index_obs_id := h_run (f_header (file_ self)); index_event_id := ev |},
         Some (_subarray_info self),
         (h_run (f_header (file_ self)), ev,
          tels_with_data_of (allowed_tels (config self)) ae),
         (h_run (f_header (file_ self)), ev,
          tels_with_data_of (allowed_tels (config self)) ae),
         (h_run (f_header (file_ self)), ev,
          tels_with_data_of (allowed_tels (config self)) ae)) /\
      (st = Yield ->
         trig d' = trigger_of ae /\
         forall tel_id, tel_id ∈ map fst (ae_telescope_events ae) ->
           exists tp, ae_tracking_positions ae !! tel_id = Some tp /\
             pointing d' !! tel_id = Some (resolved_pointing tp)).
Proof.
  unfold process_array_event, tels_with_data_of, passes_filter, event_id_of.
  fold (telescopes_of ae).
  rewrite M_bind_modify, M_bind_lift.
  destruct (if decide (ae_type ae = "calibration") then _ else _) as [ev|] eqn:Hev;
    [|done].
  rewrite !M_bind_modify.
  set (w3 := (modify data (set_event_header _ _ _ _) _).2).
  assert (Hw3 : forall d3, containers w3 !! data = Some d3 ->
    exists d0, containers w !! data = Some d0 /\
      d3 = set_event_header counter (h_run (f_header (file_ self))) ev
             (telescopes_of ae)
             (with_inst_subarray (fun _ => Some (_subarray_info self))
                (with_event_type (fun _ => ae_type ae) d0))).
  { intros d3 Hd3. unfold w3 in Hd3. rewrite !modify_lookup in Hd3.
    destruct (containers w !! data) as [d0|]; [|done].
    injection Hd3 as <-. eauto. }
  assert (Hl3 : length (containers w3) = length (containers w)).
  { unfold w3. now rewrite !modify_length. }
  destruct (decide (0 < size (allowed_tels (config self)))) as [Hsome|Hnone].
  - rewrite (bool_decide_eq_true_2 _ Hsome). simpl.
    destruct (decide (size (telescopes_of ae ∩ allowed_tels (config self)) = 0))
      as [Hempty|Hnonempty].
    + rewrite (bool_decide_eq_true_2 _ Hempty). simpl.
      intros [= <- <-]. do 3 (split; [done|]).
      intros d' Hd'. destruct (Hw3 _ Hd') as (d0 & _ & ->).
      exists ev. split; [done|]. split; [reflexivity|done].
    + rewrite (bool_decide_eq_false_2 _ Hnonempty). simpl.
      rewrite M_bind_modify. intros Hasm.
      destruct (assemble_spec _ _ _ _ _ _ Hasm) as (-> & Hp & Hl & Hd).
      split; [done|]. split; [done|].
      split; [now rewrite Hl, modify_length|].
      intros d' Hd'. destruct (Hd _ Hd') as ((d4 & Hd4 & Hhdr) & Htrig & Hpt).
      rewrite modify_lookup in Hd4.
      destruct (containers w3 !! data) as [d3|] eqn:Hd3; [|done].
      injection Hd4 as <-. destruct (Hw3 _ eq_refl) as (d0 & _ & ->).
      exists ev. split; [done|]. split; [rewrite Hhdr; reflexivity|done].
  - rewrite (bool_decide_eq_false_2 _ Hnone). simpl. intros Hasm.
    destruct (assemble_spec _ _ _ _ _ _ Hasm) as (-> & Hp & Hl & Hd).
    split; [done|]. split; [done|]. split; [congruence|].
    intros d' Hd'. destruct (Hd _ Hd') as ((d3 & Hd3 & Hhdr) & Htrig & Hpt).
    destruct (Hw3 _ Hd3) as (d0 & _ & ->).
    exists ev. split; [done|]. split; [rewrite Hhdr; reflexivity|done].
Qed.

(** ** The generator *)

Lemma generator_loop_cons (self : SimTelEventSource) data ae rest counter w :
  generator_loop self data (Ok ae :: rest) counter w =
  match process_array_event self data counter ae (advance self w).2 with
  | (Ok Yield, w1) => (Ok (Some data, Suspended data (S counter)), w1)
  | (Ok Continue, w1) => generator_loop self data rest (S counter) w1
  | (Raise e, w1) => (Raise e, w1)
  end.
Proof.
  simpl. rewrite M_bind_run. simpl. rewrite M_bind_run.
  destruct (process_array_event _ _ _ _ _) as [[[]|] w1]; reflexivity.
Qed.

(** A pull that yields has skipped the array events that the filter
    rejects and stopped after the first one that passes. *)
Lemma generator_loop_yield (self : SimTelEventSource) data pending counter w l g' w' :
  generator_loop self data pending counter w = (Ok (Some l, g'), w') ->
  l = data /\
  length (containers w') = length (containers w) /\
  exists skipped ae rest w0,
    pending = map Ok skipped ++ Ok ae :: rest /\
    Forall (fun r => passes_filter (allowed_tels (config self)) r = false) skipped /\
    passes_filter (allowed_tels (config self)) ae = true /\
    g' = Suspended data (S (counter + length skipped)) /\
    file_pos w' = file_pos w + S (length skipped) /\
    process_array_event self data (counter + length skipped) ae w0 = (Ok Yield, w').
Proof.
  revert counter w. induction pending as [|[ae|e] rest IH]; intros counter w Hrun.
  - discriminate.
  - rewrite generator_loop_cons in Hrun.
    destruct (process_array_event self data counter ae (advance self w).2)
      as [[st|] w1] eqn:Hproc; [|done].
    destruct (process_array_event_spec _ _ _ _ _ _ _ Hproc) as (Hst & Hp & Hl & _).
    destruct st.
    + destruct (IH _ _ Hrun) as (-> & Hl' & skipped & ae' & rest' & w0 & -> & Hsk
                                 & Hpass & -> & Hp' & Hproc').
      split; [done|]. split; [simpl in *; congruence|].
      exists (ae :: skipped), ae', rest', w0. simpl.
      split; [done|]. split.
      { constructor; [|done]. destruct (passes_filter _ ae); done. }
      split; [done|]. rewrite <- Nat.add_succ_comm.
      split; [done|]. split; [|done]. rewrite Hp', Hp. simpl. lia.
    + injection Hrun as <- <- <-. split; [done|]. split; [simpl in *; congruence|].
      exists [], ae, rest, (advance self w).2. simpl. rewrite Nat.add_0_r.
      split; [done|]. split; [constructor|].
      split; [destruct (passes_filter _ ae); done|].
      split; [done|]. split; [|done]. rewrite Hp. simpl. lia.
  - discriminate.
Qed.

(** A pull that ends the iteration has skipped all that was left. *)
Lemma generator_loop_return (self : SimTelEventSource) data pending counter w g' w' :
  generator_loop self data pending counter w = (Ok (None, g'), w') ->
  g' = Finished /\
  length (containers w') = length (containers w) /\
  file_pos w' = file_pos w + length pending /\
  exists skipped, pending = map Ok skipped /\
    Forall (fun r => passes_filter (allowed_tels (config self)) r = false) skipped.
Proof.
  revert counter w. induction pending as [|[ae|e] rest IH]; intros counter w Hrun.
  - injection Hrun as <- <-. split; [done|]. split; [done|].
    split; [simpl; lia|]. exists []. split; [done|constructor].
  - rewrite generator_loop_cons in Hrun.
    destruct (process_array_event self data counter ae (advance self w).2)
      as [[st|] w1] eqn:Hproc; [|done].
    destruct (process_array_event_spec _ _ _ _ _ _ _ Hproc) as (Hst & Hp & Hl & _).
    destruct st; [|done].
    destruct (IH _ _ Hrun) as (-> & Hl' & Hp' & skipped & -> & Hsk).
    split; [done|]. split; [simpl in *; congruence|].
    split; [rewrite Hp', Hp; simpl; lia|].
    exists (ae :: skipped). split; [done|].
    constructor; [|done]. destruct (passes_filter _ ae); done.
  - discriminate.
Qed.

(** What a pull that yields has done: the yielded reference is the
    generator's one container, written last by the loop body for an
    array event of the file that passes the filter. *)
Lemma __generator_yield (self : SimTelEventSource) g w l g' w' :
  __generator self g w = (Ok (Some l, g'), w') ->
  exists counter ae w0,
    Ok ae ∈ f_array_events (file_ self) /\
    passes_filter (allowed_tels (config self)) ae = true /\
    process_array_event self l counter ae w0 = (Ok Yield, w') /\
    g' = Suspended l (S counter) /\
    match g with
    | Created =>
        l = length (containers w) /\
        length (containers w') = S (length (containers w))
    | Suspended data c =>
        l = data /\ length (containers w') = length (containers w)
    | Finished => False
    end.
Proof.
  assert (Hloop : forall data counter w1,
    resume self data counter w1 = (Ok (Some l, g'), w') ->
    l = data /\ length (containers w') = length (containers w1) /\
    exists counter' ae w0,
      Ok ae ∈ f_array_events (file_ self) /\
      passes_filter (allowed_tels (config self)) ae = true /\
      process_array_event self l counter' ae w0 = (Ok Yield, w') /\
      g' = Suspended l (S counter')).
  { intros data counter w1 Hrun. unfold resume in Hrun.
    destruct (generator_loop_yield _ _ _ _ _ _ _ _ Hrun)
      as (-> & Hl & skipped & ae & rest & w0 & Hpend & _ & Hpass & -> & _ & Hproc).
    split; [done|]. split; [done|].
    exists (counter + length skipped), ae, w0.
    split; [|done].
    apply (subseteq_drop (file_pos w1)). rewrite Hpend.
    apply elem_of_app. right. apply list_elem_of_here. }
  destruct g as [|data counter|]; simpl.
  - rewrite M_bind_run. simpl. rewrite M_bind_modify. intros Hrun.
    destruct (Hloop _ _ _ Hrun) as (-> & Hl & counter & ae & w0 & Hin & Hpass & Hproc & ->).
    exists counter, ae, w0. do 4 (split; [done|]). split; [done|].
    rewrite Hl, modify_length. simpl. rewrite length_app. simpl. lia.
  - intros Hrun.
    destruct (Hloop _ _ _ Hrun) as (-> & Hl & counter' & ae & w0 & Hin & Hpass & Hproc & ->).
    exists counter', ae, w0. done.
  - discriminate.
Qed.

Lemma _generator_Ok (self : SimTelEventSource) g w r w' :
  _generator self g w = (Ok r, w') ->
  exists w1,
    containers w1 = containers w /\
    (__generator self g w1 = (Ok r, w') \/
     r = (None, Finished) /\
     exists w2, __generator self g w1 = (Raise EOFError, w2) /\
       w' = record_effect (Warn (truncated_message self))
              (record_effect (LogWarning (truncated_message self)) w2)).
Proof.
  unfold _generator. rewrite M_bind_run.
  assert (exists w1, containers w1 = containers w /\
    match g with
    | Created => rewind self
    | _ => mret ()
    end w = (Ok (), w1)) as (w1 & Hc & ->).
  { destruct g; try (eexists; split; [|reflexivity]; done).
    unfold rewind. rewrite M_bind_run. simpl.
    case_decide; (eexists; split; [|reflexivity]; reflexivity). }
  unfold try_except.
  destruct (__generator self g w1) as [[r'|e] w2] eqn:Hinner.
  - intros [= <- <-]. eauto.
  - destruct e; simpl; try discriminate.
    intros [= <- <-]. exists w1. split; [done|]. right. eauto.
Qed.

Lemma _generator_yield (self : SimTelEventSource) g w l g' w' :
  _generator self g w = (Ok (Some l, g'), w') ->
  exists counter ae w0,
    Ok ae ∈ f_array_events (file_ self) /\
    passes_filter (allowed_tels (config self)) ae = true /\
    process_array_event self l counter ae w0 = (Ok Yield, w') /\
    g' = Suspended l (S counter) /\
    match g with
    | Created =>
        l = length (containers w) /\
        length (containers w') = S (length (containers w))
    | Suspended data c =>
        l = data /\ length (containers w') = length (containers w)
    | Finished => False
    end.
Proof.
  intros Hrun. apply _generator_Ok in Hrun as (w1 & Hc & [Hinner|[? _]]); [|done].
  apply __generator_yield in Hinner. rewrite Hc in Hinner. exact Hinner.
Qed.

Lemma gset_size_zero (X : gset Z) : size X = 0 <-> X = ∅.
Proof. rewrite size_empty_iff. apply leibniz_equiv_iff. Qed.

Lemma gset_size_pos (X : gset Z) : 0 < size X <-> X ≠ ∅.
Proof. rewrite <- gset_size_zero. lia. Qed.


Lemma passes_filter_false allowed (ae : array_event) :
  passes_filter allowed ae = false <->
  (allowed ≠ ∅ /\ telescopes_of ae ∩ allowed = ∅).
Proof.
  unfold passes_filter. fold (telescopes_of ae).
  rewrite negb_false_iff, andb_true_iff, !bool_decide_eq_true.
  now rewrite gset_size_pos, gset_size_zero.
Qed.

(** An array event that the filter rejects: the header fields are
    written, nothing else is, and the loop goes on. *)
Lemma process_array_event_skip (self : SimTelEventSource) data counter ae ev w :
  passes_filter (allowed_tels (config self)) ae = false ->
  event_id_of ae = Ok ev ->
  process_array_event self data counter ae w =
  (Ok Continue,
   (modify data
      (set_event_header counter (h_run (f_header (file_ self))) ev (telescopes_of ae))
      (modify data (with_inst_subarray (fun _ => Some (_subarray_info self)))
         (modify data (with_event_type (fun _ => ae_type ae)) w).2).2).2).
Proof.
  intros Hpass Hev. apply passes_filter_false in Hpass as [Hsome Hempty].
  unfold process_array_event. fold (telescopes_of ae). fold (event_id_of ae).
  rewrite M_bind_modify, M_bind_lift, Hev, !M_bind_modify.
  rewrite decide_True by now apply gset_size_pos.
  rewrite decide_True by now apply gset_size_zero.
  reflexivity.
Qed.




(** C10: the first pull makes one new event container and yields a
    reference to it; every later pull yields the same reference and
    makes no container.  For an array event that the filter rejects
    the loop body writes the header fields (event type, subarray,
    counter, index, and run id, event id and telescopes with data of
    R0, R1 and DL0, unfiltered) into that container and goes on; so
    when the rest of the file is one such array event, the pull returns
    without a yield, and the container yielded before holds the header
    of the rejected array event. *)
Theorem shared_event_container (self : SimTelEventSource) :
  (forall w l g' w',
     _generator self Created w = (Ok (Some l, g'), w') ->
     l = length (containers w) /\
     length (containers w') = S (length (containers w)) /\
     exists counter, g' = Suspended l counter) /\
  (forall data counter w l g' w',
     _generator self (Suspended data counter) w = (Ok (Some l, g'), w') ->
     l = data /\
     length (containers w') = length (containers w) /\
     exists counter', g' = Suspended data counter') /\
  (forall data counter ae ev w d0,
     passes_filter (allowed_tels (config self)) ae = false ->
     event_id_of ae = Ok ev ->
     containers w !! data = Some d0 ->
     exists w',
       process_array_event self data counter ae w = (Ok Continue, w') /\
       containers w' !! data =
         Some (set_event_header counter (h_run (f_header (file_ self))) ev
                 (telescopes_of ae)
                 (with_inst_subarray (fun _ => Some (_subarray_info self))
                    (with_event_type (fun _ => ae_type ae) d0)))) /\
  (forall data counter ae ev w d0,
     drop (file_pos w) (f_array_events (file_ self)) = [Ok ae] ->
     passes_filter (allowed_tels (config self)) ae = false ->
     event_id_of ae = Ok ev ->
     containers w !! data = Some d0 ->
     exists w' d',
       _generator self (Suspended data counter) w = (Ok (None, Finished), w') /\
       containers w' !! data = Some d' /\
       d' = set_event_header counter (h_run (f_header (file_ self))) ev
              (telescopes_of ae)
              (with_inst_subarray (fun _ => Some (_subarray_info self))
                 (with_event_type (fun _ => ae_type ae) d0)) /\
       event_header d' =
         (ae_type ae, counter,
          {| index_obs_id := h_run (f_header (file_ self)); index_event_id := ev |},
          Some (_subarray_info self),
          (h_run (f_header (file_ self)), ev, telescopes_of ae),
          (h_run (f_header (file_ self)), ev, telescopes_of ae),
          (h_run (f_header (file_ self)), ev, telescopes_of ae))).
Proof.
  assert (Hskip : forall data counter ae ev w d0,
     passes_filter (allowed_tels (config self)) ae = false ->
     event_id_of ae = Ok ev ->
     containers w !! data = Some d0 ->
     exists w',
       process_array_event self data counter ae w = (Ok Continue, w') /\
       file_pos w' = file_pos w /\
       containers w' !! data =
         Some (set_event_header counter (h_run (f_header (file_ self))) ev
                 (telescopes_of ae)
                 (with_inst_subarray (fun _ => Some (_subarray_info self))
                    (with_event_type (fun _ => ae_type ae) d0)))).
  { intros data counter ae ev w d0 Hpass Hev Hd0.
    eexists. split; [apply (process_array_event_skip _ _ _ _ ev); assumption|].
    split; [reflexivity|]. rewrite !modify_lookup, Hd0. reflexivity. }
  split; [|split; [|split]].
  - intros w l g' w' Hrun.
    apply _generator_yield in Hrun as (counter & _ & _ & _ & _ & _ & -> & -> & Hl).
    eauto.
  - intros data counter w l g' w' Hrun.
    apply _generator_yield in Hrun as (counter' & _ & _ & _ & _ & _ & -> & -> & Hl).
    eauto.
  - intros data counter ae ev w d0 Hpass Hev Hd0.
    destruct (Hskip data counter ae ev w d0) as (w' & Hproc & _ & Hd'); eauto.
  - intros data counter ae ev w d0 Hdrop Hpass Hev Hd0.
    destruct (Hskip data counter ae ev (advance self w).2 d0 Hpass Hev Hd0)
      as (w' & Hproc & _ & Hd').
    exists w'. eexists. split; [|split; [exact Hd'|split; reflexivity]].
    unfold _generator. rewrite M_bind_ret. unfold try_except. simpl.
    unfold resume. rewrite Hdrop, generator_loop_cons, Hproc. reflexivity.
Qed.

(** ** Truncated files *)

Lemma generator_loop_with_events (self : SimTelEventSource) events data pending counter w :
  generator_loop (with_events self events) data pending counter w =
  generator_loop self data pending counter w.
Proof.
  revert counter w. induction pending as [|[ae|e] rest IH]; intros counter w.
  - reflexivity.
  - rewrite !generator_loop_cons.
    change (process_array_event (with_events self events))
      with (process_array_event self).
    change (advance (with_events self events)) with (advance self).
    destruct (process_array_event self data counter ae (advance self w).2)
      as [[[]|] w1]; [apply IH|reflexivity..].
  - reflexivity.
Qed.

(** Where the file breaks off the loop raises [EOFError] instead of
    returning; up to there it does what it does on the complete
    array events alone. *)
Lemma generator_loop_truncated (self : SimTelEventSource) data pending tail counter w :
  generator_loop self data (pending ++ Raise EOFError :: tail) counter w =
  match generator_loop self data pending counter w with
  | (Ok (None, _), w1) => (Raise EOFError, w1)
  | other => other
  end.
Proof.
  revert counter w. induction pending as [|[ae|e] rest IH]; intros counter w.
  - reflexivity.
  - rewrite <- app_comm_cons, !generator_loop_cons.
    destruct (process_array_event self data counter ae (advance self w).2)
      as [[[]|] w1]; [apply IH|reflexivity..].
  - reflexivity.
Qed.

Lemma drop_done {A B : Type} (f : A -> B) (done remaining : list A) (tail : list B) :
  drop (length done) (map f (done ++ remaining) ++ tail) = map f remaining ++ tail.
Proof.
  rewrite map_app, <- app_assoc. apply drop_app_length'. now rewrite length_map.
Qed.

Lemma drop_done_all {A B : Type} (f : A -> B) (done remaining : list A) :
  drop (length done) (map f (done ++ remaining)) = map f remaining.
Proof.
  rewrite map_app. apply drop_app_length'. now rewrite length_map.
Qed.

Lemma no_backseek (self : SimTelEventSource) (w : world) :
  file_pos w <= start_pos self ->
  rewind self w = (Ok (), w).
Proof.
  intros Hpos. unfold rewind. rewrite M_bind_run. unfold tell.
  rewrite decide_False by lia. reflexivity.
Qed.

(** A pull on the truncated file and on the file of its complete array
    events, as runs of the loop from the same world. *)
Lemma pull_truncated (self : SimTelEventSource) (rs : list array_event) tail done remaining g w :
  f_array_events (file_ self) = map Ok rs ++ Raise EOFError :: tail ->
  rs = done ++ remaining ->
  file_pos w = length done ->
  match g with
  | Created => file_pos w <= start_pos self
  | Suspended _ _ => True
  | Finished => False
  end ->
  exists data counter wg,
    file_pos wg = file_pos w /\
    __generator (with_events self (map Ok rs)) g w
      = generator_loop self data (map Ok remaining) counter wg /\
    _generator self g w
      = match generator_loop self data (map Ok remaining ++ Raise EOFError :: tail)
                counter wg with
        | (Raise e, w1) =>
            if is_EOFError e then (Ok (None, Finished), warned_truncated self w1)
            else (Raise e, w1)
        | ok => ok
        end.
Proof.
  intros Hfile -> Hpos Hg.
  assert (Hclean : forall data counter wg, file_pos wg = length done ->
    resume (with_events self (map Ok (done ++ remaining))) data counter wg
    = generator_loop self data (map Ok remaining) counter wg).
  { intros data counter wg Hwg. unfold resume. simpl. rewrite Hwg.
    rewrite drop_done_all. apply generator_loop_with_events. }
  assert (Htrunc : forall data counter wg, file_pos wg = length done ->
    resume self data counter wg
    = generator_loop self data (map Ok remaining ++ Raise EOFError :: tail) counter wg).
  { intros data counter wg Hwg. unfold resume. rewrite Hfile, Hwg.
    now rewrite drop_done. }
  assert (Htry : forall (m : M (option loc * generator)) w0,
    try_except m is_EOFError
      (_ ← emit (LogWarning (truncated_message self));
       _ ← emit (Warn (truncated_message self));
       mret (None, Finished)) w0
    = match m w0 with
      | (Raise e, w1) =>
          if is_EOFError e then (Ok (None, Finished), warned_truncated self w1)
          else (Raise e, w1)
      | ok => ok
      end).
  { intros m w0. unfold try_except. destruct (m w0) as [[r|e] w1]; [done|].
    destruct (is_EOFError e); reflexivity. }
  destruct g as [|data counter|]; [| |done].
  - eexists _, 0, _. split; [|split].
    + shelve.
    + simpl. rewrite M_bind_run. simpl. rewrite M_bind_modify.
      apply Hclean. exact Hpos.
    + unfold _generator. rewrite M_bind_run, no_backseek by lia.
      rewrite Htry. simpl. rewrite M_bind_run. simpl. rewrite M_bind_modify.
      rewrite Htrunc by exact Hpos. reflexivity.
      Unshelve. reflexivity.
  - exists data, counter, w. split; [done|]. split.
    + simpl. now apply Hclean.
    + unfold _generator. rewrite M_bind_ret, Htry. simpl.
      now rewrite Htrunc.
Qed.

Lemma collect_S (next : generator -> M (option loc * generator)) fuel g w :
  collect next (S fuel) g w =
  match next g w with
  | (Ok (Some data, g1), w1) =>
      match collect next fuel g1 w1 with
      | (Ok (rest, gf), w2) =>
          (Ok (default EventAndMonDataContainer_default (containers w1 !! data) :: rest,
               gf), w2)
      | (Raise e, w2) => (Raise e, w2)
      end
  | (Ok (None, g1), w1) => (Ok ([], g1), w1)
  | (Raise e, w1) => (Raise e, w1)
  end.
Proof.
  simpl. rewrite M_bind_run.
  destruct (next g w) as [[[[data|] g1]|e] w1]; try reflexivity.
  simpl. rewrite M_bind_run. simpl. rewrite M_bind_run.
  destruct (collect next fuel g1 w1) as [[[rest gf]|e] w2]; reflexivity.
Qed.

Lemma map_Ok_split (remaining skipped : list array_event) ae rest :
  map Ok remaining = map Ok skipped ++ Ok ae :: rest ->
  exists rest', remaining = skipped ++ ae :: rest' /\ rest = map Ok rest'.
Proof.
  revert remaining. induction skipped as [|s skipped IH]; intros [|a remaining] Heq;
    try discriminate; simpl in Heq.
  - injection Heq as -> <-. eauto.
  - injection Heq as -> Heq. destruct (IH _ Heq) as (rest' & -> & ->). eauto.
Qed.

Lemma map_Ok_inj (l1 l2 : list array_event) :
  map Ok l1 = map Ok l2 -> l1 = l2.
Proof.
  revert l2. induction l1 as [|a l1 IH]; intros [|b l2] Heq; try discriminate.
  - reflexivity.
  - simpl in Heq. injection Heq as -> Heq. f_equal. now apply IH.
Qed.

Lemma filter_rejected allowed (skipped : list array_event) :
  Forall (fun r => passes_filter allowed r = false) skipped ->
  List.filter (passes_filter allowed) skipped = [].
Proof.
  induction 1 as [|ae skipped Hae _ IH]; simpl; [done|]. now rewrite Hae.
Qed.

(** Draining the generator over the truncated file, against draining the
    inner generator over the file of its complete array events. *)
Lemma collect_truncated (self : SimTelEventSource) (rs : list array_event) tail :
  f_array_events (file_ self) = map Ok rs ++ Raise EOFError :: tail ->
  forall fuel done remaining g w evs w',
    rs = done ++ remaining ->
    file_pos w = length done ->
    match g with
    | Created => file_pos w <= start_pos self
    | Suspended _ _ => True
    | Finished => False
    end ->
    collect (__generator (with_events self (map Ok rs))) fuel g w
      = (Ok (evs, Finished), w') ->
    collect (_generator self) fuel g w
      = (Ok (evs, Finished), warned_truncated self w') /\
    length evs
      = length (List.filter (passes_filter (allowed_tels (config self))) remaining).
Proof.
  intros Hfile.
  induction fuel as [|fuel IH]; intros done remaining g w evs w' Hrs Hpos Hg Hclean.
  - simpl in Hclean. injection Hclean as <- -> <-. done.
  - destruct (pull_truncated self rs tail done remaining g w Hfile Hrs Hpos Hg)
      as (data & counter & wg & Hwg & Hc & Ht).
    rewrite collect_S in Hclean |- *.
    rewrite Hc in Hclean. rewrite Ht, generator_loop_truncated.
    destruct (generator_loop self data (map Ok remaining) counter wg)
      as [[[[l|] g1]|e] w1] eqn:Hloop; [| |done].
    + destruct (collect (__generator (with_events self (map Ok rs))) fuel g1 w1)
        as [[[evs1 gf]|] w2] eqn:Hrest; [|done].
      injection Hclean as <- -> <-.
      destruct (generator_loop_yield _ _ _ _ _ _ _ _ Hloop)
        as (-> & _ & skipped & ae & rest & w0 & Hpend & Hsk & Hpass & -> & Hp1 & _).
      apply map_Ok_split in Hpend as (rest' & -> & ->).
      destruct (IH (done ++ skipped ++ [ae]) rest'
                  (Suspended data (S (counter + length skipped))) w1 evs1 w2)
        as [Hrun Hlen].
      * rewrite Hrs, <- !app_assoc. reflexivity.
      * rewrite Hp1, Hwg, Hpos, !length_app. simpl. lia.
      * exact I.
      * exact Hrest.
      * rewrite Hrun. split; [reflexivity|].
        rewrite List.filter_app, filter_rejected by done. simpl.
        rewrite Hpass. simpl. now rewrite Hlen.
    + injection Hclean as <- -> <-.
      destruct (generator_loop_return _ _ _ _ _ _ _ Hloop)
        as (_ & _ & _ & skipped & Hpend & Hsk).
      apply map_Ok_inj in Hpend as ->.
      split; [reflexivity|]. now rewrite filter_rejected.
Qed.

(** ** Construction *)

Lemma prepare_telescopes_app choice header acc tds1 tds2 w :
  prepare_telescopes choice header acc (tds1 ++ tds2) w =
  match prepare_telescopes choice header acc tds1 w with
  | (Ok acc1, w1) => prepare_telescopes choice header acc1 tds2 w1
  | (Raise e, w1) => (Raise e, w1)
  end.
Proof.
  revert acc w. induction tds1 as [|[tel_id td] tds1 IH]; intros acc w.
  - reflexivity.
  - simpl. rewrite !M_bind_run.
    destruct (prepare_telescope choice header acc tel_id td w) as [[acc1|e] w1];
      [apply IH|reflexivity].
Qed.

Lemma prepare_telescope_missing header acc tel_id td w :
  cs_effective_focal_length (td_camera_settings td) = None ->
  prepare_telescope effective header acc tel_id td w = (Raise RuntimeError, w).
Proof.
  intros Hnone. unfold prepare_telescope, chosen_focal_length.
  rewrite M_bind_lift, Hnone. reflexivity.
Qed.

Lemma prepare_telescopes_missing header acc tds w :
  (exists tel_id td, (tel_id, td) ∈ tds /\
     cs_effective_focal_length (td_camera_settings td) = None) ->
  exists e w', prepare_telescopes effective header acc tds w = (Raise e, w').
Proof.
  intros (tel_id & td & Hin & Hnone). revert acc w.
  induction tds as [|[t td'] tds IH]; intros acc w.
  - now apply elem_of_nil in Hin.
  - simpl. rewrite M_bind_run.
    destruct (prepare_telescope effective header acc t td' w) as [[acc1|e] w1] eqn:Hhead;
      [|eauto].
    apply elem_of_cons in Hin as [[= <- <-]|Hin]; [|now apply IH].
    rewrite prepare_telescope_missing in Hhead by done. discriminate.
Qed.

(** C5: with [focal_length_choice = effective] and a telescope
    description without an effective focal length, building the
    subarray description never returns normally; the exception is the
    [RuntimeError] of [prepare_subarray_info] (the error kind that the
    specification names ConfigurationError) when the telescopes before
    the one that lacks the field are built without an exception; and
    the constructor of the event source, which builds the subarray
    description, does not return an event source either, so that no
    event is ever iterated. *)
Theorem effective_focal_length_required :
  (forall tds header w,
     (exists tel_id td, (tel_id, td) ∈ tds /\
        cs_effective_focal_length (td_camera_settings td) = None) ->
     exists e w', prepare_subarray_info effective tds header w = (Raise e, w')) /\
  (forall pre tel_id td post header w acc w1,
     cs_effective_focal_length (td_camera_settings td) = None ->
     prepare_telescopes effective header (∅, ∅) pre w = (Ok acc, w1) ->
     prepare_subarray_info effective (pre ++ (tel_id, td) :: post) header w
       = (Raise RuntimeError, w1)) /\
  (forall cfg selector file w,
     focal_length_choice cfg = effective ->
     open_file cfg = Ok file ->
     (exists tel_id td, (tel_id, td) ∈ f_telescope_descriptions file /\
        cs_effective_focal_length (td_camera_settings td) = None) ->
     exists e w', __init__ cfg selector w = (Raise e, w')).
Proof.
  split; [|split].
  - intros tds header w Hmissing. unfold prepare_subarray_info.
    rewrite M_bind_run.
    destruct (prepare_telescopes_missing header (∅, ∅) tds w Hmissing)
      as (e & w' & ->). eauto.
  - intros pre tel_id td post header w acc w1 Hnone Hpre.
    unfold prepare_subarray_info.
    rewrite M_bind_run, prepare_telescopes_app, Hpre. simpl.
    rewrite M_bind_run, prepare_telescope_missing by done. reflexivity.
  - intros cfg selector file w Hchoice Hopen Hmissing.
    unfold __init__. rewrite M_bind_run. simpl. rewrite M_bind_lift, Hopen, M_bind_run. simpl.
    destruct (back_seekable cfg && is_stream file); [eauto|].
    rewrite M_bind_run, Hchoice.
    match goal with |- context [prepare_subarray_info effective ?tds ?h ?w0] =>
      destruct (prepare_subarray_info effective tds h w0) as [[sub|e] w1] eqn:Hsub
    end; [|eauto].
    unfold prepare_subarray_info in Hsub. rewrite M_bind_run in Hsub.
    match type of Hsub with context [prepare_telescopes effective ?h ?a ?tds ?w0] =>
      destruct (prepare_telescopes_missing h a tds w0 Hmissing) as (e & w2 & He)
    end.
    rewrite He in Hsub. discriminate.
Qed.

(** C6: when the configuration requires a backwards seekable source and
    the file that was opened is a stream (its file handle is neither a
    [BufferedReader] nor a [GzipFile]), the constructor raises
    [IOError]: no event source is returned, the file is where it was
    opened, and no camera, event container or warning has been made.
    Whether the file is a stream depends on its file handle alone. *)
Theorem back_seekable_required cfg selector file w :
  back_seekable cfg = true ->
  open_file cfg = Ok file ->
  is_stream file = true ->
  (exists class_name, f_filehandle file = OtherHandle class_name) /\
  exists w',
    __init__ cfg selector w = (Raise IOError, w') /\
    file_pos w' = 0 /\
    containers w' = containers w /\
    cameras w' = cameras w /\
    emitted w' = emitted w.
Proof.
  intros Hback Hopen Hstream. split.
  - unfold is_stream in Hstream. destruct (f_filehandle file); try discriminate. eauto.
  - unfold __init__.       eexists. split.
    + rewrite M_bind_run. simpl. rewrite M_bind_lift, Hopen, M_bind_run. simpl.
      rewrite Hback, Hstream. reflexivity.
    + done.
Qed.

(** ** The camera cache *)

Lemma build_camera_Ok cs ps telescope w camera w' :
  build_camera cs ps telescope w = (Ok camera, w') ->
  camera = length (cameras w) /\
  camera_cache w' = camera_cache w /\
  exists c, cameras w' = cameras w ++ [c] /\
    cd_camera_name c = gr_camera_name telescope.
Proof.
  unfold build_camera. rewrite M_bind_lift.
  destruct (cs_pixel_shape cs) as [|pixel_shape ?]; [done|].
  rewrite M_bind_run.
  destruct (simtel_shape_to_type pixel_shape) as [shape|]; simpl;
    intros [= <- <-]; simpl; eauto.
Qed.

(** One turn of the loop: the telescope gets the camera that the cache
    holds for its camera name afterwards, which is the cached one on a
    hit and a new object on a miss. *)
Lemma prepare_telescope_Ok choice header acc tel_id td w acc' w' :
  prepare_telescope choice header acc tel_id td w = (Ok acc', w') ->
  exists name t,
    resolved_camera_name choice td = Ok name /\
    acc'.1 = <[tel_id := t]> acc.1 /\
    camera_cache w' !! name = Some (tel_camera t) /\
    (camera_cache w !! name = Some (tel_camera t) /\
       cameras w' = cameras w /\ camera_cache w' = camera_cache w \/
     camera_cache w !! name = None /\
       tel_camera t = length (cameras w) /\
       camera_cache w' = <[name := tel_camera t]> (camera_cache w) /\
       exists c, cameras w' = cameras w ++ [c] /\ cd_camera_name c = name).
Proof.
  unfold prepare_telescope, resolved_camera_name. rewrite M_bind_lift.
  destruct (chosen_focal_length choice (td_camera_settings td)) as [fl|]; [|done].
  rewrite bind_Ok. rewrite M_bind_run. unfold cache_get at 1.
  set (telescope := resolve_telescope _ fl).
  destruct (camera_cache w !! gr_camera_name telescope) as [camera|] eqn:Hcache.
  - rewrite M_bind_ret, M_bind_lift.
    destruct (index_of tel_id (h_tel_id header)) as [i|]; [|done].
    rewrite M_bind_lift. destruct (h_tel_pos header !! i); [|done].
    intros [= <- <-]. do 2 eexists. split; [reflexivity|]. split; [reflexivity|].
    simpl. split; [done|]. left. done.
  - rewrite M_bind_run.
    destruct (_ ≫= _) as [[camera|] w1] eqn:Hbuild at 1; [|done].
    rewrite M_bind_run in Hbuild.
    destruct (build_camera _ _ telescope w) as [[camera'|] w0] eqn:Hb; [|done].
    apply build_camera_Ok in Hb as (-> & Hc0 & c & Hcs & Hname).
    rewrite M_bind_run in Hbuild. simpl in Hbuild. injection Hbuild as <- <-.
    rewrite M_bind_lift.
    destruct (index_of tel_id (h_tel_id header)) as [i|]; [|done].
    rewrite M_bind_lift. destruct (h_tel_pos header !! i); [|done].
    intros [= <- <-]. do 2 eexists. split; [reflexivity|]. split; [reflexivity|].
    simpl. rewrite Hc0. split; [apply lookup_insert_eq|]. right.
    split; [done|]. split; [done|]. split; [done|]. eauto.
Qed.

(** The loop of [prepare_subarray_info]: the cache only grows, every
    telescope gets the camera that the cache holds for its camera name
    in the end, and every new camera was built on a miss and is in the
    cache under its name. *)
Lemma prepare_telescopes_Ok choice header tds : forall acc w acc' w',
  prepare_telescopes choice header acc tds w = (Ok acc', w') ->
  NoDup (map fst tds) ->
  (forall n l, camera_cache w !! n = Some l -> camera_cache w' !! n = Some l) /\
  (forall tel_id td, (tel_id, td) ∈ tds ->
     exists name t,
       resolved_camera_name choice td = Ok name /\
       acc'.1 !! tel_id = Some t /\
       camera_cache w' !! name = Some (tel_camera t)) /\
  (forall tel_id, tel_id ∉ map fst tds -> acc'.1 !! tel_id = acc.1 !! tel_id) /\
  exists new,
    cameras w' = cameras w ++ new /\
    (forall i c, new !! i = Some c ->
       camera_cache w !! cd_camera_name c = None /\
       camera_cache w' !! cd_camera_name c = Some (length (cameras w) + i)) /\
    (forall n l, camera_cache w' !! n = Some l ->
       camera_cache w !! n = Some l \/
       exists c, new !! (l - length (cameras w)) = Some c /\
         length (cameras w) <= l /\ cd_camera_name c = n).
Proof.
  induction tds as [|[t td] rest IH]; intros acc w acc' w' Hrun Hnodup.
  - injection Hrun as <- <-. split; [done|]. split.
    { intros ? ? Hin. now apply elem_of_nil in Hin. }
    split; [done|]. exists []. rewrite app_nil_r. split; [done|].
    split; [intros i c Hi; destruct i; discriminate|]. eauto.
  - simpl in Hrun, Hnodup. apply NoDup_cons in Hnodup as [Hfresh Hnodup].
    rewrite M_bind_run in Hrun.
    destruct (prepare_telescope choice header acc t td w) as [[acc1|] w1] eqn:Hhead;
      [|done].
    destruct (prepare_telescope_Ok _ _ _ _ _ _ _ _ Hhead)
      as (name0 & t0 & Hname0 & Hacc1 & Hcache1 & Hcase).
    destruct (IH _ _ _ _ Hrun Hnodup) as (A1 & B1 & C1 & new1 & Hnew1 & D1 & E1).
    assert (Hmono : forall n l,
      camera_cache w !! n = Some l -> camera_cache w1 !! n = Some l).
    { intros n l Hn. destruct Hcase as [(_ & _ & ->)|(Hmiss & _ & -> & _)]; [done|].
      rewrite lookup_insert_ne; [done|]. congruence. }
    split; [eauto|]. split; [|split].
    + intros tel_id td' Hin. apply elem_of_cons in Hin as [[= -> ->]|Hin]; [|eauto].
      exists name0, t0. split; [done|]. split; [|eauto].
      rewrite C1 by done. rewrite Hacc1. apply lookup_insert_eq.
    + intros tel_id Hnot. apply not_elem_of_cons in Hnot as [Hne Hnot].
      rewrite C1 by done. rewrite Hacc1. now apply lookup_insert_ne.
    + destruct Hcase as [(Hhit & Hcs & Hcc)|(Hmiss & Hloc & Hcc & c0 & Hcs & Hc0)].
      * exists new1. rewrite Hcs, Hcc in *. eauto.
      * exists (c0 :: new1). rewrite Hnew1, Hcs, <- app_assoc. split; [done|].
        rewrite Hcs, length_app in D1, E1. simpl in D1, E1. split.
        -- intros [|i] c Hi; simpl in Hi.
           ++ injection Hi as <-. rewrite Hc0. split; [done|].
              rewrite Nat.add_0_r, <- Hloc. eauto.
           ++ destruct (D1 _ _ Hi) as [Hnone Hsome]. split.
              ** destruct (camera_cache w !! cd_camera_name c) as [l|] eqn:Hl; [|done].
                 apply Hmono in Hl. congruence.
              ** rewrite Hsome. f_equal. lia.
        -- intros n l Hl. destruct (E1 _ _ Hl) as [Hl1|(c & Hc & Hle & Hn)].
           ++ rewrite Hcc in Hl1. destruct (decide (name0 = n)) as [<-|Hne].
              ** rewrite lookup_insert_eq in Hl1. injection Hl1 as <-. right.
                 exists c0. rewrite Hloc, Nat.sub_diag. done.
              ** rewrite lookup_insert_ne in Hl1 by done. eauto.
           ++ right. exists c. split; [|split; [lia|done]].
              replace (l - length (cameras w)) with (S (l - (length (cameras w) + 1)))
                by lia. exact Hc.
Qed.

(** C8: after [prepare_subarray_info] over telescope descriptions with
    distinct telescope ids, two telescopes whose resolved camera type
    name is the same have the same camera reference, the one that the
    cache holds for that name.  The camera heap has only grown: the new
    cameras have pairwise different names, each was built when the
    cache had no entry for its name and is the cache's entry for it
    afterwards, and the entries that the cache had are still the same
    references.  Starting from an empty cache, as the constructor does,
    the reference of a telescope is that of a camera object with the
    resolved name. *)
Theorem camera_shared_by_name choice tds header w sub w' :
  prepare_subarray_info choice tds header w = (Ok sub, w') ->
  NoDup (map fst tds) ->
  (forall i j td_i td_j name,
     (i, td_i) ∈ tds -> (j, td_j) ∈ tds ->
     resolved_camera_name choice td_i = Ok name ->
     resolved_camera_name choice td_j = Ok name ->
     exists t_i t_j,
       sub_tel_descriptions sub !! i = Some t_i /\
       sub_tel_descriptions sub !! j = Some t_j /\
       tel_camera t_i = tel_camera t_j /\
       camera_cache w' !! name = Some (tel_camera t_i)) /\
  (exists new,
     cameras w' = cameras w ++ new /\
     NoDup (map cd_camera_name new) /\
     forall i c, new !! i = Some c ->
       camera_cache w !! cd_camera_name c = None /\
       camera_cache w' !! cd_camera_name c = Some (length (cameras w) + i)) /\
  (forall n l, camera_cache w !! n = Some l -> camera_cache w' !! n = Some l) /\
  (camera_cache w = ∅ ->
   forall i td name t,
     (i, td) ∈ tds -> resolved_camera_name choice td = Ok name ->
     sub_tel_descriptions sub !! i = Some t ->
     exists c, cameras w' !! tel_camera t = Some c /\ cd_camera_name c = name).
Proof.
  unfold prepare_subarray_info. rewrite M_bind_run.
  destruct (prepare_telescopes choice header (∅, ∅) tds w) as [[acc|] w1] eqn:Hrun;
    [|done].
  intros [= <- <-] Hnodup.
  destruct (prepare_telescopes_Ok _ _ _ _ _ _ _ Hrun Hnodup)
    as (A & B & _ & new & Hnew & D & E).
  simpl. split; [|split; [|split]].
  - intros i j td_i td_j name Hi Hj Hni Hnj.
    destruct (B _ _ Hi) as (name_i & t_i & Hni' & Hti & Hci).
    destruct (B _ _ Hj) as (name_j & t_j & Hnj' & Htj & Hcj).
    exists t_i, t_j. split; [done|]. split; [done|].
    assert (name_i = name) as -> by congruence.
    assert (name_j = name) as -> by congruence.
    split; [congruence|done].
  - exists new. split; [done|]. split; [|done].
    apply NoDup_alt. intros i j name Hi Hj.
    rewrite list_lookup_fmap in Hi, Hj.
    destruct (new !! i) as [ci|] eqn:Hci; [|done].
    destruct (new !! j) as [cj|] eqn:Hcj; [|done].
    injection Hi as Hi. injection Hj as Hj.
    destruct (D _ _ Hci) as [_ Hsi]. destruct (D _ _ Hcj) as [_ Hsj].
    rewrite Hi in Hsi. rewrite Hj in Hsj. rewrite Hsi in Hsj.
    injection Hsj as Hsj. lia.
  - exact A.
  - intros Hempty i td name t Hi Hn Ht.
    destruct (B _ _ Hi) as (name' & t' & Hn' & Ht' & Hc).
    assert (name' = name) as -> by congruence.
    assert (t' = t) as -> by congruence.
    destruct (E _ _ Hc) as [Hold|(c & Hc' & Hle & Hname)].
    + rewrite Hempty in Hold. done.
    + exists c. split; [|done]. rewrite Hnew, lookup_app_r by done. exact Hc'.
Qed.

End Properties.

(** * Examples *)

Lemma example_r0_wf : wf3 example_r0.
Proof. split; [reflexivity|]. repeat constructor. Defined.

Lemma example_pedestal_wf : wf2 example_pedestal.
Proof. split; [reflexivity|]. repeat constructor. Defined.

Lemma example_dc_to_pe_wf : wf2 example_dc_to_pe.
Proof. split; [reflexivity|]. repeat constructor. Defined.

Lemma example_r0_single_wf : wf3 example_r0_single.
Proof. split; [reflexivity|]. repeat constructor. Defined.

Lemma example_pedestal_zero_wf : wf2 example_pedestal_zero.
Proof. split; [reflexivity|]. repeat constructor. Defined.

Lemma example_dc_to_pe_one_wf : wf2 example_dc_to_pe_one.
Proof. split; [reflexivity|]. repeat constructor. Defined.

(** C1 on [example_r0]: in channel 0, pixel 0, the raw sample 10 with
    pedestal 6 over 3 samples and conversion 0.5 becomes
    (10 - 6/3) * 0.5 = 4; the threshold selector takes channel 1 for
    pixel 0, whose first returned sample is (1 - 6/3) * 0.5 = -0.5. *)
Lemma apply_simtel_r1_calibration_formula_witness :
  wf3 example_r0 /\ wf2 example_pedestal /\ wf2 example_dc_to_pe /\
  shape2 example_pedestal = (shape3 example_r0).1 /\
  shape2 example_dc_to_pe = (shape3 example_r0).1 /\
  (exists r1,
     calibrated_waveforms example_r0 example_pedestal example_dc_to_pe = Ok r1 /\
     item3 r1 0 0 0 = Some 4%float) /\
  (exists out w',
     apply_simtel_r1_calibration example_r0 example_pedestal example_dc_to_pe
       (threshold_selector 30) (@empty_world float ()) = (Ok (out, [1; 0]%Z), w') /\
     item2 out 0 0 = Some (-0.5)%float).
Proof.
  do 5 (split; [first [exact example_r0_wf | exact example_pedestal_wf
                      | exact example_dc_to_pe_wf | reflexivity]|]).
  destruct (apply_simtel_r1_calibration_formula example_r0 example_pedestal
              example_dc_to_pe (threshold_selector 30) (@empty_world float ())
              example_r0_wf example_pedestal_wf example_dc_to_pe_wf
              eq_refl eq_refl) as [(r1 & Hr1 & _ & Hall) Hret].
  split.
  - exists r1. split; [exact Hr1|].
    destruct (Hall 0 0 0) as (r & ped & g & Hr & Hp & Hg & ->);
      [simpl; lia..|].
    vm_compute in Hr, Hp, Hg.
    injection Hr as <-. injection Hp as <-. injection Hg as <-.
    vm_compute. reflexivity.
  - destruct (apply_simtel_r1_calibration example_r0 example_pedestal
                example_dc_to_pe (threshold_selector 30) (@empty_world float ()))
      as [[[out sel]|e] w'] eqn:Hrun.
    + assert (sel = [1; 0]%Z) as ->.
      { pose proof (f_equal (fun r => match r.1 with
                                      | Ok (_, s) => s
                                      | Raise _ => []
                                      end) Hrun) as Hs.
        vm_compute in Hs. congruence. }
      exists out, w'. split; [reflexivity|].
      destruct (Hret out _ w' eq_refl eq_refl) as [_ Hitems].
      destruct (Hitems 0 0) as (v & c & r & ped & g & Hv & Hc & Hr & Hp & Hg & ->);
        [simpl; lia..|].
      vm_compute in Hv. injection Hv as <-.
      vm_compute in Hc. injection Hc as <-.
      vm_compute in Hr, Hp, Hg.
      injection Hr as <-. injection Hp as <-. injection Hg as <-.
      vm_compute. reflexivity.
    + pose proof (f_equal (fun r => match r.1 with
                                    | Ok _ => true
                                    | Raise _ => false
                                    end) Hrun) as Hs.
      vm_compute in Hs. discriminate.
Defined.

(** C2 on the single-channel [example_r0_single] with pedestal 0 and
    conversion 1: the returned waveform is the raw one, the selected
    channels are zero, and the world is untouched, here with a selector
    that would raise if it were called; and on the two-channel
    [example_r0]: the selector is called on the raw waveforms and the
    returned rows are those of channel 1 for pixel 0 and of channel 0 for
    pixel 1. *)
Lemma apply_simtel_r1_calibration_gain_selection_witness :
  wf3 example_r0_single /\ wf2 example_pedestal_zero /\ wf2 example_dc_to_pe_one /\
  apply_simtel_r1_calibration example_r0_single example_pedestal_zero
    example_dc_to_pe_one (fun _ => Raise ValueError) (@empty_world float ())
  = (Ok ({| shape2 := (2, 3); items2 := [[10; 50; 10]; [4; 10; 4]]%float |},
         [0; 0]%Z), empty_world) /\
  exists r1 out,
    calibrated_waveforms example_r0 example_pedestal example_dc_to_pe = Ok r1 /\
    apply_simtel_r1_calibration example_r0 example_pedestal example_dc_to_pe
      (threshold_selector 30) (@empty_world float ())
    = (Ok (out, [1; 0]%Z), record_effect (GainSelectorCalled example_r0) empty_world) /\
    items2 out !! 0 = items3 r1 !! 1 ≫= (.!! 0) /\
    items2 out !! 1 = items3 r1 !! 0 ≫= (.!! 1) /\
    items2 out = [[-0.5; 1.5; 4]; [6; 18; 6]]%float.
Proof.
  do 3 (split; [first [exact example_r0_single_wf | exact example_pedestal_zero_wf
                      | exact example_dc_to_pe_one_wf]|]).
  split.
  - destruct (apply_simtel_r1_calibration_gain_selection example_r0_single
                example_pedestal_zero example_dc_to_pe_one
                (fun _ => Raise ValueError) (@empty_world float ())
                example_r0_single_wf example_pedestal_zero_wf example_dc_to_pe_one_wf
                eq_refl eq_refl) as (r1 & _ & Hone & _).
    destruct (Hone eq_refl) as (ch & _ & Hrun & Hraw).
    rewrite Hrun. simpl shape3. simpl fst. simpl snd.
    assert (items3 example_r0_single = [ch]) as Hch.
    { apply Hraw.
      - intros [|[|c]] [|[|[|p]]] x Hx; vm_compute in Hx; try discriminate;
          now injection Hx as <-.
      - intros [|[|c]] [|[|[|p]]] x Hx; vm_compute in Hx; try discriminate;
          now injection Hx as <-.
      - intros [|[|c]] [|[|[|p]]] [|[|[|[|s]]]] x Hx; vm_compute in Hx;
          try discriminate; injection Hx as <-; vm_compute; reflexivity. }
    injection Hch as <-. reflexivity.
  - destruct (apply_simtel_r1_calibration_gain_selection example_r0
                example_pedestal example_dc_to_pe
                (threshold_selector 30) (@empty_world float ())
                example_r0_wf example_pedestal_wf example_dc_to_pe_wf
                eq_refl eq_refl) as (r1 & Hr1 & _ & Hmany).
    assert (1 < (shape3 example_r0).1.1) as Htwo by (simpl; lia).
    destruct (Hmany Htwo) as [_ Hsel].
    destruct (Hsel [1; 0]%Z) as (out & Hrun & _ & Hrows);
      [vm_compute; reflexivity | reflexivity
      | repeat (constructor; [simpl; lia|]); constructor |].
    exists r1, out. split; [exact Hr1|]. split; [exact Hrun|].
    split; [exact (Hrows 0 1%Z eq_refl)|]. split; [exact (Hrows 1 0%Z eq_refl)|].
    pose proof (f_equal (fun r => match r.1 with
                                  | Ok (o, _) => items2 o
                                  | Raise _ => []
                                  end) Hrun) as Hs.
    vm_compute in Hs. symmetry. exact Hs.
Defined.

(** The value of a field of a container that a lookup gives. *)
Lemma lookup_field {A B : Type} (f : A -> B) (l : list A) (i : nat) (d : A) (b : B) :
  l !! i = Some d -> f <$> l !! i = Some b -> f d = b.
Proof. intros -> [= <-]. reflexivity. Defined.


(** C4 as it is stated fails when an allow-list rejects an array event:
    with the allow-list {9}, a file that breaks off after one complete
    array event of the telescopes 1, 3, 5 and 7 gives no event, not
    one. *)
Lemma truncated_stream_filtered_counterexample :
  let rs := take 1 (example_events None) in
  let self := example_source {[9]}%Z [()] (map Ok rs ++ [Raise EOFError]) in
  f_array_events (file_ self) = map Ok rs ++ [Raise EOFError] /\
  length rs = 1 /\
  exists w',
    collect (_generator self) 2 Created empty_world = (Ok ([], Finished), w') /\
    length ([] : list (@EventAndMonDataContainer float ())) <> length rs.
Proof.
  intros rs self. split; [reflexivity|]. split; [reflexivity|].
  eexists. split; [vm_compute; reflexivity|]. discriminate.
Qed.

(** C5 on the zstd example file, whose third telescope has no effective
    focal length: with [focal_length_choice = effective] the constructor
    raises the [RuntimeError], after the camera of the first two
    telescopes was built. *)
Lemma effective_focal_length_required_witness :
  let cfg := {| input_url := "gamma.simtel.zst"; max_events := None;
                allowed_tels := ∅; skip_calibration_events := true;
                back_seekable := false; focal_length_choice := effective |} in
  prepare_subarray_info effective (example_descriptions None) example_header
    (@empty_world float ())
  = (Raise RuntimeError,
     (prepare_telescopes effective example_header (∅, ∅)
        (take 2 (example_descriptions None)) empty_world).2) /\
  exists w', __init__ cfg None (@empty_world float ()) = (Raise RuntimeError, w').
Proof.
  intros cfg.
  destruct effective_focal_length_required as (_ & Hfirst & Hinit).
  split.
  - destruct (prepare_telescopes effective example_header (∅, ∅)
                (take 2 (example_descriptions None)) (@empty_world float ()))
      as [[acc|e] w1] eqn:Hpre.
    + exact (Hfirst (take 2 (example_descriptions None)) 3%Z
               (example_geometry 2048 None) [] example_header empty_world acc w1
               eq_refl Hpre).
    + exfalso.
      pose proof (f_equal (fun x => match x.1 with
                                    | Ok _ => true
                                    | Raise _ => false
                                    end) Hpre) as Hok.
      vm_compute in Hok. discriminate.
  - destruct (Hinit cfg None
                {| f_filehandle := OtherHandle "ZstdFile";
                   f_header := example_header;
                   f_telescope_descriptions := example_descriptions None;
                   f_mc_run_headers := [()];
                   f_array_events := [];
                   f_later_mc_run_headers := fun _ => [] |}
                empty_world eq_refl eq_refl)
      as (e & w' & Hrun).
    + exists 3%Z, (example_geometry 2048 None). split; [|reflexivity].
      do 2 apply list_elem_of_further. apply list_elem_of_here.
    + exists w'. rewrite Hrun. f_equal. f_equal.
      pose proof (f_equal (fun x => match x.1 with
                                    | Ok _ => RuntimeError
                                    | Raise e => e
                                    end) Hrun) as He.
      vm_compute in He. congruence.
Defined.

(** C6 on the zstd example file, which is read as a stream: requiring a
    backwards seekable source makes the constructor raise [IOError], with
    the file where it was opened. *)
Lemma back_seekable_required_witness :
  let cfg := {| input_url := "gamma.simtel.zst"; max_events := None;
                allowed_tels := ∅; skip_calibration_events := true;
                back_seekable := true; focal_length_choice := nominal |} in
  exists file w',
    open_file cfg = Ok file /\
    is_stream file = true /\
    __init__ cfg None (@empty_world float ()) = (Raise IOError, w') /\
    file_pos w' = 0.
Proof.
  intros cfg.
  pose (file := {| f_filehandle := OtherHandle "ZstdFile";
                   f_header := example_header;
                   f_telescope_descriptions := example_descriptions None;
                   f_mc_run_headers := [()];
                   f_array_events := @nil (result (@array_event float));
                   f_later_mc_run_headers := fun _ => [] |}).
  assert (Hopen : open_file cfg = Ok file) by (vm_compute; reflexivity).
  destruct (back_seekable_required cfg None file empty_world eq_refl Hopen eq_refl)
    as (_ & w' & Hrun & Hpos & _).
  exists file, w'. split; [exact Hopen|]. split; [reflexivity|].
  split; [exact Hrun|exact Hpos].
Defined.


(** Telescopes 1 and 2 of the example file have 1855 pixels and resolve
    to the camera name LSTCam: they share one camera reference, the one
    the cache holds for that name. *)
Lemma camera_shared_by_name_witness :
  exists sub w' t1 t2,
    prepare_subarray_info nominal (example_descriptions (Some 2%float))
      example_header (@empty_world float ()) = (Ok sub, w') /\
    NoDup (map fst (example_descriptions (Some 2%float))) /\
    sub_tel_descriptions sub !! 1%Z = Some t1 /\
    sub_tel_descriptions sub !! 2%Z = Some t2 /\
    tel_camera t1 = tel_camera t2 /\
    camera_cache w' !! "LSTCam" = Some (tel_camera t1).
Proof.
  destruct (prepare_subarray_info nominal (example_descriptions (Some 2%float))
              example_header (@empty_world float ())) as [[sub|e] w'] eqn:Hrun.
  - assert (NoDup (map fst (example_descriptions (Some 2%float)))) as Hids.
    { change (NoDup [1%Z; 2%Z; 3%Z]). compute_done. }
    destruct (camera_shared_by_name nominal (example_descriptions (Some 2%float))
                example_header empty_world sub w' Hrun Hids) as (Hshare & _).
    destruct (Hshare 1%Z 2%Z (example_geometry 1855 (Some 29%float))
                (example_geometry 1855 (Some 29%float)) "LSTCam")
      as (t1 & t2 & H1 & H2 & Heq & Hcache).
    + apply list_elem_of_here.
    + apply list_elem_of_further, list_elem_of_here.
    + vm_compute. reflexivity.
    + vm_compute. reflexivity.
    + exists sub, w', t1, t2. repeat split; assumption.
  - exfalso.
    pose proof (f_equal (fun x => match x.1 with
                                  | Ok _ => true
                                  | Raise _ => false
                                  end) Hrun) as Hok.
    vm_compute in Hok. discriminate.
Defined.


(** C10 on two array events read with the allow-list {3, 5}, the first
    with data of the telescopes 1, 3, 5 and 7, the second of 1 and 7:
    the first pull yields the container 0 with event id 100 and the
    telescopes 3 and 5; the second pull returns without a yield, and the
    container 0 then has the event id 101 and the telescopes 1 and 7. *)
Lemma shared_event_container_witness :
  let e1 := example_event "data" 100 [1; 3; 5; 7]%Z [1; 3; 5; 7]%Z None in
  let e2 := example_event "data" 101 [1; 7]%Z [1; 7]%Z None in
  let self := example_source {[3; 5]}%Z [()] [Ok e1; Ok e2] in
  exists w1 d0 w2 d',
    _generator self Created empty_world = (Ok (Some 0, Suspended 0 1), w1) /\
    containers w1 !! 0 = Some d0 /\
    index_event_id (index d0) = 100%Z /\
    tels_with_data (r0 d0) = {[3; 5]}%Z /\
    _generator self (Suspended 0 1) w1 = (Ok (None, Finished), w2) /\
    containers w2 !! 0 = Some d' /\
    index_event_id (index d') = 101%Z /\
    tels_with_data (r0 d') = {[1; 7]}%Z.
Proof.
  intros e1 e2 self.
  pose (run := _generator self Created empty_world).
  assert (Hrun : run = (Ok (Some 0, Suspended 0 1), run.2))
    by (vm_compute; reflexivity).
  destruct (containers run.2 !! 0) as [d0|] eqn:Hd0;
    [|vm_compute in Hd0; discriminate].
  destruct (shared_event_container self) as (_ & _ & _ & Hlast).
  destruct (Hlast 0 1 e2 101%Z run.2 d0) as (w2 & d' & Hrun2 & Hd' & _ & Hhdr);
    [vm_compute; reflexivity | vm_compute; reflexivity | reflexivity | exact Hd0 |].
  exists run.2, d0, w2, d'. split; [exact Hrun|]. split; [exact Hd0|].
  split; [apply (lookup_field (fun d => index_event_id (index d)) _ _ _ _ Hd0);
          vm_compute; reflexivity|].
  split; [apply (lookup_field (fun d => tels_with_data (r0 d)) _ _ _ _ Hd0);
          vm_compute; reflexivity|].
  split; [exact Hrun2|]. split; [exact Hd'|].
  unfold event_header in Hhdr.
  injection Hhdr as _ _ Hindex _ _ _ Hdata _ _ _ _ _ _.
  split; [rewrite Hindex; reflexivity|].
  rewrite Hdata. vm_compute. reflexivity.
Defined.

(** * Further properties of the event source *)

Section MoreProperties.
Context {num : Type} `{Scalar num} {RunHeader : Type}.
Context {collaborators : @Collaborators num RunHeader}.

Local Abbreviation camera_settings := (@camera_settings num).
Local Abbreviation pixel_settings := (@pixel_settings num).
Local Abbreviation telescope_description := (@telescope_description num).
Local Abbreviation file_header := (@file_header num).
Local Abbreviation telescope_event := (@telescope_event num).
Local Abbreviation tracking_position := (@tracking_position num).
Local Abbreviation mc_shower := (@mc_shower num).
Local Abbreviation mc_event := (@mc_event num).
Local Abbreviation array_event := (@array_event num).
Local Abbreviation CameraGeometry := (@CameraGeometry num).
Local Abbreviation CameraReadout := (@CameraReadout num).
Local Abbreviation CameraDescription := (@CameraDescription num).
Local Abbreviation OpticsDescription := (@OpticsDescription num).
Local Abbreviation TelescopeDescription := (@TelescopeDescription num).
Local Abbreviation SubarrayDescription := (@SubarrayDescription num).
Local Abbreviation R0CameraContainer := (@R0CameraContainer num).
Local Abbreviation R1CameraContainer := (@R1CameraContainer num).
Local Abbreviation MCCameraEventContainer := (@MCCameraEventContainer num).
Local Abbreviation TelescopePointingContainer := (@TelescopePointingContainer num).
Local Abbreviation MCEventContainer := (@MCEventContainer num).
Local Abbreviation effect := (@effect num).
Local Abbreviation GainSelector := (@GainSelector num).
Local Abbreviation SimTelFile := (@SimTelFile num RunHeader).
Local Abbreviation MCHeaderContainer := (@MCHeaderContainer num RunHeader).
Local Abbreviation EventAndMonDataContainer := (@EventAndMonDataContainer num RunHeader).
Local Abbreviation world := (@world num RunHeader).
Local Abbreviation SimTelEventSource := (@SimTelEventSource num RunHeader).
Local Abbreviation M := (@M num RunHeader).

(** ** Building cameras and the subarray *)

(** X1: [build_camera] reads the first entry of [pixel_shape]; without
    one it raises [IndexError] and builds nothing.  Otherwise it always
    returns a new camera object, named after the telescope's camera in
    the description, the geometry and the readout.  A pixel shape that
    [simtel_shape_to_type] does not know is not an error: the warning
    [UnknownPixelShapeWarning] is emitted once and the pixels are taken
    as hexagons with rotation 0d; a known shape gives its type and
    rotation and no warning. *)
Theorem build_camera_pixel_shape (cam_settings : camera_settings)
    (pixel_settings : pixel_settings) (telescope : GuessingResult) (w : world) :
  match cs_pixel_shape cam_settings with
  | [] =>
      build_camera cam_settings pixel_settings telescope w = (Raise IndexError, w)
  | pixel_shape :: _ =>
      exists c w',
        build_camera cam_settings pixel_settings telescope w
          = (Ok (length (cameras w)), w') /\
        cameras w' = cameras w ++ [c] /\
        containers w' = containers w /\
        camera_cache w' = camera_cache w /\
        file_pos w' = file_pos w /\
        cd_camera_name c = gr_camera_name telescope /\
        cg_camera_name (cd_geometry c) = gr_camera_name telescope /\
        cr_camera_name (cd_readout c) = gr_camera_name telescope /\
        match simtel_shape_to_type pixel_shape with
        | Some (pix_type, pix_rotation) =>
            emitted w' = emitted w /\
            cg_pix_type (cd_geometry c) = pix_type /\
            cg_pix_rotation (cd_geometry c) = pix_rotation
        | None =>
            emitted w' = emitted w ++
              [UnknownPixelShapeWarning pixel_shape (gr_camera_name telescope)] /\
            cg_pix_type (cd_geometry c) = "hexagon" /\
            cg_pix_rotation (cd_geometry c) = "0d"
        end
  end.
Proof.
  unfold build_camera. rewrite M_bind_lift.
  destruct (cs_pixel_shape cam_settings) as [|pixel_shape rest]; [reflexivity|].
  rewrite M_bind_run.
  destruct (simtel_shape_to_type pixel_shape) as [[pix_type pix_rotation]|]; simpl;
    do 2 eexists; (split; [reflexivity|]); simpl; repeat split; reflexivity.
Qed.

(** One turn of the loop of [prepare_subarray_info] that returns. *)
Lemma prepare_telescope_run choice (header : file_header) acc tel_id
    (td : telescope_description) (w : world) acc' w' :
  prepare_telescope choice header acc tel_id td w = (Ok acc', w') ->
  exists focal_length tel_idx pos camera,
    chosen_focal_length choice (td_camera_settings td) = Ok focal_length /\
    index_of tel_id (h_tel_id header) = Some tel_idx /\
    h_tel_pos header !! tel_idx = Some pos /\
    let telescope :=
      resolve_telescope (cs_n_pixels (td_camera_settings td)) focal_length in
    acc' =
      (<[tel_id :=
           {| tel_name := gr_name telescope;
              tel_type := gr_type telescope;
              tel_optics :=
                {| od_name := gr_name telescope;
                   od_num_mirrors := gr_n_mirrors telescope;
                   od_equivalent_focal_length := focal_length;
                   od_mirror_area := cs_mirror_area (td_camera_settings td) *u u_m2;
                   od_num_mirror_tiles := cs_n_mirrors (td_camera_settings td) |};
              tel_camera := camera |}]> acc.1,
       <[tel_id := pos *u u_m]> acc.2).
Proof.
  unfold prepare_telescope. rewrite M_bind_lift.
  destruct (chosen_focal_length choice (td_camera_settings td)) as [fl|]; [|done].
  rewrite M_bind_run. unfold cache_get at 1.
  destruct (camera_cache w !! _) as [camera|].
  - rewrite M_bind_ret, M_bind_lift.
    destruct (index_of tel_id (h_tel_id header)) as [i|] eqn:Hi; [|done].
    rewrite M_bind_lift. destruct (h_tel_pos header !! i) as [pos|] eqn:Hpos; [|done].
    intros [= <- <-]. exists fl, i, pos, camera.
    split; [reflexivity|]. split; [reflexivity|]. split; [exact Hpos|]. reflexivity.
  - rewrite M_bind_run.
    destruct (_ ≫= _) as [[camera|] w1] at 1; [|done].
    rewrite M_bind_lift.
    destruct (index_of tel_id (h_tel_id header)) as [i|] eqn:Hi; [|done].
    rewrite M_bind_lift. destruct (h_tel_pos header !! i) as [pos|] eqn:Hpos; [|done].
    intros [= <- <-]. exists fl, i, pos, camera.
    split; [reflexivity|]. split; [reflexivity|]. split; [exact Hpos|]. reflexivity.
Qed.

(** The maps that the loop of [prepare_subarray_info] has filled when
    it returns. *)
Lemma prepare_telescopes_run choice (header : file_header)
    (tds : list (Z * telescope_description)) : forall acc (w : world) acc' w',
  prepare_telescopes choice header acc tds w = (Ok acc', w') ->
  dom acc'.1 = list_to_set (map fst tds) ∪ dom acc.1 /\
  dom acc'.2 = list_to_set (map fst tds) ∪ dom acc.2 /\
  (forall tel_id, tel_id ∉ map fst tds ->
     acc'.1 !! tel_id = acc.1 !! tel_id /\ acc'.2 !! tel_id = acc.2 !! tel_id) /\
  (forall tel_id, tel_id ∈ map fst tds ->
     exists tel_idx pos,
       index_of tel_id (h_tel_id header) = Some tel_idx /\
       h_tel_pos header !! tel_idx = Some pos /\
       acc'.2 !! tel_id = Some (pos *u u_m)) /\
  (NoDup (map fst tds) ->
   forall tel_id td, (tel_id, td) ∈ tds ->
     exists focal_length t,
       chosen_focal_length choice (td_camera_settings td) = Ok focal_length /\
       acc'.1 !! tel_id = Some t /\
       let telescope :=
         resolve_telescope (cs_n_pixels (td_camera_settings td)) focal_length in
       tel_name t = gr_name telescope /\
       tel_type t = gr_type telescope /\
       tel_optics t =
         {| od_name := gr_name telescope;
            od_num_mirrors := gr_n_mirrors telescope;
            od_equivalent_focal_length := focal_length;
            od_mirror_area := cs_mirror_area (td_camera_settings td) *u u_m2;
            od_num_mirror_tiles := cs_n_mirrors (td_camera_settings td) |}).
Proof.
  induction tds as [|[t td] rest IH]; intros acc w acc' w' Hrun.
  - injection Hrun as <- <-. simpl.
    split; [now rewrite (left_id_L ∅ (∪))|]. split; [now rewrite (left_id_L ∅ (∪))|].
    split; [done|].
    split; [intros ? Hin; now apply elem_of_nil in Hin|].
    intros _ ? ? Hin. now apply elem_of_nil in Hin.
  - simpl in Hrun. rewrite M_bind_run in Hrun.
    destruct (prepare_telescope choice header acc t td w) as [[acc1|] w1] eqn:Hhead;
      [|done].
    destruct (prepare_telescope_run _ _ _ _ _ _ _ _ Hhead)
      as (fl & i & pos & camera & Hfl & Hi & Hpos & Hacc1).
    simpl in Hacc1.
    destruct (IH _ _ _ _ Hrun) as (D1 & D2 & Hout & Hposs & Hdesc).
    rewrite Hacc1 in D1, D2, Hout. simpl in D1, D2, Hout.
    rewrite dom_insert_L in D1. rewrite dom_insert_L in D2. simpl.
    split; [rewrite D1, (assoc_L (∪)), (comm_L (∪) (list_to_set _) {[t]}); reflexivity|].
    split; [rewrite D2, (assoc_L (∪)), (comm_L (∪) (list_to_set _) {[t]}); reflexivity|].
    split; [|split].
    + intros tel_id Hnot. apply not_elem_of_cons in Hnot as [Hne Hnot].
      destruct (Hout _ Hnot) as [-> ->].
      rewrite !lookup_insert_ne by done. done.
    + intros tel_id Hin.
      destruct (decide (tel_id ∈ map fst rest)) as [Hrest|Hrest]; [eauto|].
      apply elem_of_cons in Hin as [->|Hin]; [|done].
      destruct (Hout _ Hrest) as [_ ->]. rewrite lookup_insert_eq. eauto.
    + intros Hnodup tel_id td' Hin. apply NoDup_cons in Hnodup as [Hfresh Hnodup].
      apply elem_of_cons in Hin as [[= -> ->]|Hin]; [|eauto].
      destruct (Hout _ Hfresh) as [-> _]. rewrite lookup_insert_eq.
      exists fl. eexists. split; [done|]. split; [reflexivity|]. done.
Qed.

(** X2: when [prepare_subarray_info] returns, the subarray is named
    MonteCarloArray and both of its maps, telescope descriptions and
    telescope positions, have exactly the telescope ids of the file's
    telescope descriptions as keys. *)
Theorem prepare_subarray_info_keys choice
    (tds : list (Z * telescope_description)) (header : file_header)
    (w : world) sub w' :
  prepare_subarray_info choice tds header w = (Ok sub, w') ->
  sub_name sub = "MonteCarloArray" /\
  dom (sub_tel_descriptions sub) = list_to_set (map fst tds) /\
  dom (sub_tel_positions sub) = list_to_set (map fst tds).
Proof.
  unfold prepare_subarray_info. rewrite M_bind_run.
  destruct (prepare_telescopes choice header (∅, ∅) tds w) as [[acc|] w1] eqn:Hrun;
    [|done].
  intros [= <- <-]. simpl.
  destruct (prepare_telescopes_run _ _ _ _ _ _ _ Hrun) as (D1 & D2 & _).
  simpl in D1, D2. rewrite dom_empty_L, (right_id_L ∅ (∪)) in D1.
  rewrite dom_empty_L, (right_id_L ∅ (∪)) in D2. done.
Qed.

(** X3: when [prepare_subarray_info] returns, every telescope id of the
    telescope descriptions occurs in [header["tel_id"]], and the
    position of the telescope is the entry of [header["tel_pos"]] at
    the index of the first occurrence, in metres. *)
Theorem prepare_subarray_info_positions choice
    (tds : list (Z * telescope_description)) (header : file_header)
    (w : world) sub w' tel_id :
  prepare_subarray_info choice tds header w = (Ok sub, w') ->
  tel_id ∈ map fst tds ->
  exists tel_idx pos,
    h_tel_id header !! tel_idx = Some tel_id /\
    (forall i, i < tel_idx -> h_tel_id header !! i ≠ Some tel_id) /\
    h_tel_pos header !! tel_idx = Some pos /\
    sub_tel_positions sub !! tel_id = Some (pos *u u_m).
Proof.
  unfold prepare_subarray_info. rewrite M_bind_run.
  destruct (prepare_telescopes choice header (∅, ∅) tds w) as [[acc|] w1] eqn:Hrun;
    [|done].
  intros [= <- <-] Hin. simpl.
  destruct (prepare_telescopes_run _ _ _ _ _ _ _ Hrun) as (_ & _ & _ & Hpos & _).
  destruct (Hpos _ Hin) as (i & pos & Hi & Hp & Hacc).
  exists i, pos. split; [|split; [|done]].
  - clear -Hi. revert i Hi.
    induction (h_tel_id header) as [|y l IH]; intros i Hi; simpl in Hi; [done|].
    case_decide as Hy.
    + injection Hi as <-. now subst.
    + destruct (index_of tel_id l) as [j|]; [|done]. injection Hi as <-. simpl. eauto.
  - clear -Hi. revert i Hi.
    induction (h_tel_id header) as [|y l IH]; intros i Hi; simpl in Hi; [done|].
    case_decide as Hy.
    + injection Hi as <-. lia.
    + destruct (index_of tel_id l) as [j|] eqn:Hj; [|done]. injection Hi as <-.
      intros [|k] Hk; simpl; [congruence|]. apply (IH j); [done|lia].
Qed.

(** X4: when [prepare_subarray_info] returns, the description of each
    telescope has the focal length chosen by the configuration as
    equivalent focal length (the nominal [focal_length], or
    [effective_focal_length]), in metres; its name, type and number of
    mirrors are those of the telescope that [guess_telescope] finds for
    the number of pixels and that focal length, or those of
    [UNKNOWN_TELESCOPE] when it finds none; the mirror area and the
    number of mirror tiles are those of the camera settings. *)
Theorem prepare_subarray_info_optics choice
    (tds : list (Z * telescope_description)) (header : file_header)
    (w : world) sub w' tel_id td :
  prepare_subarray_info choice tds header w = (Ok sub, w') ->
  NoDup (map fst tds) ->
  (tel_id, td) ∈ tds ->
  let cam_settings := td_camera_settings td in
  exists t value telescope,
    sub_tel_descriptions sub !! tel_id = Some t /\
    match choice with
    | nominal => value = cs_focal_length cam_settings
    | effective => cs_effective_focal_length cam_settings = Some value
    end /\
    match guess_telescope (cs_n_pixels cam_settings) (value *u u_m) with
    | Some guessed => telescope = guessed
    | None => telescope = UNKNOWN_TELESCOPE
    end /\
    tel_name t = gr_name telescope /\
    tel_type t = gr_type telescope /\
    od_name (tel_optics t) = gr_name telescope /\
    od_num_mirrors (tel_optics t) = gr_n_mirrors telescope /\
    od_equivalent_focal_length (tel_optics t) = value *u u_m /\
    od_mirror_area (tel_optics t) = cs_mirror_area cam_settings *u u_m2 /\
    od_num_mirror_tiles (tel_optics t) = cs_n_mirrors cam_settings.
Proof.
  unfold prepare_subarray_info. rewrite M_bind_run.
  destruct (prepare_telescopes choice header (∅, ∅) tds w) as [[acc|] w1] eqn:Hrun;
    [|done].
  intros [= <- <-] Hnodup Hin. simpl.
  destruct (prepare_telescopes_run _ _ _ _ _ _ _ Hrun) as (_ & _ & _ & _ & Hdesc).
  destruct (Hdesc Hnodup _ _ Hin) as (fl & t & Hfl & Ht & Hname & Htype & Hopt).
  set (cam_settings := td_camera_settings td) in *.
  assert (exists value, fl = value *u u_m /\
            match choice with
            | nominal => value = cs_focal_length cam_settings
            | effective => cs_effective_focal_length cam_settings = Some value
            end) as (value & -> & Hvalue).
  { unfold chosen_focal_length in Hfl. destruct choice.
    - injection Hfl as <-. eauto.
    - destruct (cs_effective_focal_length cam_settings) as [f|]; [|done].
      injection Hfl as <-. eauto. }
  exists t, value, (resolve_telescope (cs_n_pixels cam_settings) (value *u u_m)).
  split; [done|]. split; [done|].
  split; [unfold resolve_telescope; now destruct (guess_telescope _ _)|].
  rewrite Hopt. done.
Qed.

Lemma build_camera_raise (cam_settings : camera_settings)
    (pixel_settings : pixel_settings) (telescope : GuessingResult) (w : world) e w' :
  build_camera cam_settings pixel_settings telescope w = (Raise e, w') ->
  e = IndexError /\ cs_pixel_shape cam_settings = [].
Proof.
  unfold build_camera. rewrite M_bind_lift.
  destruct (cs_pixel_shape cam_settings) as [|pixel_shape rest];
    [intros [= <- _]; done|].
  rewrite M_bind_run. destruct (simtel_shape_to_type pixel_shape); done.
Qed.

(** What is wrong with a telescope description at which the loop of
    [prepare_subarray_info] raises [e]. *)
Lemma prepare_telescope_raise choice (header : file_header) acc tel_id
    (td : telescope_description) (w : world) e w' :
  prepare_telescope choice header acc tel_id td w = (Raise e, w') ->
  e = RuntimeError /\ choice = effective /\
    cs_effective_focal_length (td_camera_settings td) = None \/
  e = IndexError /\
    (cs_pixel_shape (td_camera_settings td) = [] \/
     index_of tel_id (h_tel_id header) = None \/
     exists tel_idx, index_of tel_id (h_tel_id header) = Some tel_idx /\
       h_tel_pos header !! tel_idx = None).
Proof.
  unfold prepare_telescope. rewrite M_bind_lift.
  destruct (chosen_focal_length choice (td_camera_settings td)) as [fl|e0] eqn:Hfl.
  - assert (forall (acc1 : Z -> list num ->
                      gmap Z TelescopeDescription * gmap Z (Quantity (list num)))
                   (w1 : world),
      (tel_idx ← lift (match index_of tel_id (h_tel_id header) with
                       | Some i => Ok i
                       | None => Raise IndexError
                       end);
       pos ← lift (match h_tel_pos header !! tel_idx with
                   | Some pos => Ok pos
                   | None => Raise IndexError
                   end);
       mret (acc1 tel_id pos)) w1 = (Raise e, w') ->
      e = IndexError /\
      (index_of tel_id (h_tel_id header) = None \/
       exists tel_idx, index_of tel_id (h_tel_id header) = Some tel_idx /\
         h_tel_pos header !! tel_idx = None)) as Hpos.
    { intros acc1 w1. rewrite M_bind_lift.
      destruct (index_of tel_id (h_tel_id header)) as [i|]; [|intros [= <- _]; eauto].
      rewrite M_bind_lift.
      destruct (h_tel_pos header !! i) eqn:Hi; [done|intros [= <- _]; eauto]. }
    rewrite M_bind_run. unfold cache_get at 1.
    destruct (camera_cache w !! _) as [camera|].
    + rewrite M_bind_ret. intros Hrun. right.
      destruct (Hpos (fun t pos => (_, <[t := pos *u u_m]> acc.2)) _ Hrun)
        as [-> Hcase]. tauto.
    + rewrite M_bind_run.
      destruct (_ ≫= _) as [[camera|e1] w1] eqn:Hbuild at 1.
      * intros Hrun. right.
        destruct (Hpos (fun t pos => (_, <[t := pos *u u_m]> acc.2)) _ Hrun)
          as [-> Hcase]. tauto.
      * intros [= -> ->]. right.
        rewrite M_bind_run in Hbuild.
        destruct (build_camera _ _ _ w) as [[c|e2] w0] eqn:Hcam; [done|].
        injection Hbuild as -> ->.
        apply build_camera_raise in Hcam as [-> Hshape]. tauto.
  - intros [= <- _]. left. unfold chosen_focal_length in Hfl.
    destruct choice; [done|].
    destruct (cs_effective_focal_length (td_camera_settings td)); [done|].
    injection Hfl as <-. done.
Qed.

Lemma index_of_elem (x : Z) (l : list Z) :
  x ∈ l -> exists i, index_of x l = Some i /\ i < length l.
Proof.
  induction l as [|y l IH]; intros Hin; [now apply elem_of_nil in Hin|].
  simpl. case_decide as Hy; [exists 0; split; [done|lia]|].
  apply elem_of_cons in Hin as [->|Hin]; [done|].
  destruct (IH Hin) as (i & -> & Hi). exists (S i). split; [done|lia].
Qed.

(** X5: [prepare_subarray_info] raises nothing but [RuntimeError] and
    [IndexError], and each has its cause in one telescope description:
    [RuntimeError] only with [focal_length_choice = effective] and a
    description without effective focal length; [IndexError] only for
    a description with an empty [pixel_shape], or whose telescope id is
    not in [header["tel_id"]], or is there at an index at which
    [header["tel_pos"]] has no entry. *)
Theorem prepare_subarray_info_errors choice
    (tds : list (Z * telescope_description)) (header : file_header)
    (w : world) e w' :
  prepare_subarray_info choice tds header w = (Raise e, w') ->
  exists tel_id td,
    (tel_id, td) ∈ tds /\
    (e = RuntimeError /\ choice = effective /\
       cs_effective_focal_length (td_camera_settings td) = None \/
     e = IndexError /\
       (cs_pixel_shape (td_camera_settings td) = [] \/
        tel_id ∉ h_tel_id header \/
        exists tel_idx, h_tel_id header !! tel_idx = Some tel_id /\
          h_tel_pos header !! tel_idx = None)).
Proof.
  unfold prepare_subarray_info. rewrite M_bind_run.
  generalize (∅ : gmap Z TelescopeDescription, ∅ : gmap Z (Quantity (list num))).
  revert w.
  induction tds as [|[t td] rest IH]; intros w acc; [done|].
  simpl. rewrite M_bind_run.
  destruct (prepare_telescope choice header acc t td w) as [[acc1|e1] w1] eqn:Hhead.
  - intros Hrun. destruct (IH _ _ Hrun) as (tel_id & td' & Hin & Hcase).
    exists tel_id, td'. split; [now apply list_elem_of_further|done].
  - intros [= -> ->]. exists t, td. split; [apply list_elem_of_here|].
    destruct (prepare_telescope_raise _ _ _ _ _ _ _ _ Hhead)
      as [Hrt|(-> & [Hshape|[Hnone|(i & Hi & Hpos)]])]; [tauto|right..];
      (split; [done|]).
    + tauto.
    + right. left. intros Hin. apply index_of_elem in Hin as (i & Hi & _). congruence.
    + right. right. exists i. split; [|done].
      clear -Hi. revert i Hi.
      induction (h_tel_id header) as [|y l IH]; intros i Hi; simpl in Hi; [done|].
      case_decide as Hy.
      * injection Hi as <-. now subst.
      * destruct (index_of t l) as [j|]; [|done]. injection Hi as <-. simpl. eauto.
Qed.

(** X6: [prepare_subarray_info] returns a subarray description when
    every telescope description has a pixel shape, every telescope id
    is in [header["tel_id"]], [header["tel_pos"]] has an entry for
    each entry of [header["tel_id"]], and, with
    [focal_length_choice = effective], every description has an
    effective focal length. *)
Theorem prepare_subarray_info_returns choice
    (tds : list (Z * telescope_description)) (header : file_header) (w : world) :
  length (h_tel_id header) <= length (h_tel_pos header) ->
  (forall tel_id td, (tel_id, td) ∈ tds ->
     cs_pixel_shape (td_camera_settings td) ≠ [] /\
     tel_id ∈ h_tel_id header /\
     (choice = effective ->
      is_Some (cs_effective_focal_length (td_camera_settings td)))) ->
  exists sub w', prepare_subarray_info choice tds header w = (Ok sub, w').
Proof.
  intros Hlen Hall. unfold prepare_subarray_info. rewrite M_bind_run.
  generalize (∅ : gmap Z TelescopeDescription, ∅ : gmap Z (Quantity (list num))).
  revert w.
  induction tds as [|[t td] rest IH]; intros w acc; [simpl; eauto|].
  simpl. rewrite M_bind_run.
  destruct (prepare_telescope choice header acc t td w) as [[acc1|e1] w1] eqn:Hhead.
  - apply IH. intros tel_id td' Hin. apply Hall. now apply list_elem_of_further.
  - exfalso. destruct (Hall t td (list_elem_of_here _ _)) as (Hshape & Hin & Heff).
    apply index_of_elem in Hin as (i & Hi & Hlt).
    destruct (prepare_telescope_raise _ _ _ _ _ _ _ _ Hhead)
      as [(_ & Hc & Hnone)|(_ & [Hs|[Hnone|(j & Hj & Hpos)]])].
    + destruct (Heff Hc) as [f Hf]. congruence.
    + done.
    + congruence.
    + apply lookup_ge_None in Hpos. assert (j = i) by congruence. lia.
Qed.

(** ** The body of the telescope loop *)

Lemma map_update_map_update {C : Type} (k : Z) (dflt : C) (f g : C -> C)
    (m : gmap Z C) :
  map_update k dflt f (map_update k dflt g m) = map_update k dflt (fun c => f (g c)) m.
Proof. unfold map_update. now rewrite lookup_insert_eq, insert_insert_eq. Qed.

Lemma fill_mc_camera_run data (ae : array_event) tel_id tel_index n_pixels
    (w : world) r w' :
  fill_mc_camera data ae tel_id tel_index n_pixels w = (Ok r, w') ->
  exists dc_to_pe pedestal tp,
    ae_laser_calibrations ae !! tel_id = Some dc_to_pe /\
    ae_camera_monitorings ae !! tel_id = Some pedestal /\
    ae_tracking_positions ae !! tel_id = Some tp /\
    r = (pedestal, dc_to_pe, tp) /\
    containers w' !! data =
      update_mc tel_id (fun _ =>
        filled_mc ae tel_index n_pixels dc_to_pe pedestal tp)
      <$> containers w !! data.
Proof.
  unfold fill_mc_camera. rewrite M_bind_modify, M_bind_lift.
  destruct (ae_laser_calibrations ae !! tel_id) as [g|]; cbn [getitem]; [|done].
  rewrite M_bind_modify, M_bind_lift.
  destruct (ae_camera_monitorings ae !! tel_id) as [ped|]; cbn [getitem]; [|done].
  rewrite M_bind_modify, M_bind_lift.
  destruct (ae_tracking_positions ae !! tel_id) as [tp|]; cbn [getitem]; [|done].
  rewrite M_bind_modify. unfold mret, M_ret. intros [= <- <-]. exists g, ped, tp.
  do 4 (split; [reflexivity|]).
  cbn [containers]. rewrite !list_lookup_alter_eq. unfold loc in *.
  destruct (containers w !! data) as [d|]; [|reflexivity].
  simpl. f_equal. unfold update_mc, with_mc, with_mc_tel. simpl.
  rewrite !map_update_map_update. reflexivity.
Qed.

Lemma mret_world {A : Type} (a : A) (w : world) : ((mret a : M A) w).2 = w.
Proof. reflexivity. Qed.

Lemma fmap_Some_eq {A B : Type} (f : A -> B) (a : A) : f <$> Some a = Some (f a).
Proof. reflexivity. Qed.

(** From [m w = (r, w')] to [w' = (m w).2], without reduction. *)
Ltac run_world H :=
  match type of H with
  | ?m = (_, ?w') =>
      let E := fresh in
      assert (w' = m.2) as E by (rewrite H; reflexivity);
      rewrite E in *; clear H E
  end.

(** Projections of the containers applied to their constructors. *)
Ltac container_simpl :=
  cbn [meta event_type count inst_subarray index r0 r1 dl0 dl1_tel trig mc
       mcheader pointing obs_id event_id tels_with_data tel
       mc_energy mc_alt mc_az mc_core_x mc_core_y mc_h_first_int mc_x_max
       mc_shower_primary_id mc_tel mch_run_array_direction mch_run_header
       r0c_waveform r0c_num_trig_pix r0c_trig_pix_id
       r1c_waveform r1c_selected_gain_channel
       mcc_dc_to_pe mcc_pedestal mcc_photo_electron_image mcc_azimuth_raw
       mcc_altitude_raw mcc_azimuth_cor mcc_altitude_cor
       azimuth altitude index_obs_id index_event_id tels_with_trigger gps_time
       meta_origin meta_input_url meta_max_events id fst snd].

Lemma calibration_containers (a : ndarray3 num) (p g : ndarray2 num)
    (sel : GainSelector) (w : world) r w' :
  apply_simtel_r1_calibration a p g sel w = (r, w') ->
  containers w' = containers w /\ file_pos w' = file_pos w.
Proof.
  unfold apply_simtel_r1_calibration. rewrite M_bind_lift.
  destruct (calibrated_waveforms a p g) as [r1|]; [|now intros [= <- <-]].
  case_decide.
  - rewrite M_bind_lift. destruct (first_channel r1); now intros [= <- <-].
  - rewrite M_bind_run, call_gain_selector_run.
    destruct (sel a); [|now intros [= <- <-]].
    rewrite M_bind_lift. destruct (advanced_index _ _ _); now intros [= <- <-].
Qed.

Lemma update_r0_compose tel_id (f g : R0CameraContainer -> R0CameraContainer)
    (d : EventAndMonDataContainer) :
  update_r0 tel_id f (update_r0 tel_id g d) = update_r0 tel_id (fun c => f (g c)) d.
Proof.
  destruct d as [? ? ? ? ? [? ? ? ?] ? ? ? ? ? ? ?].
  unfold update_r0, with_r0, with_tel. simpl.
  now rewrite map_update_map_update.
Qed.

Lemma update_r1_compose tel_id (f g : R1CameraContainer -> R1CameraContainer)
    (d : EventAndMonDataContainer) :
  update_r1 tel_id f (update_r1 tel_id g d) = update_r1 tel_id (fun c => f (g c)) d.
Proof.
  destruct d as [? ? ? ? ? ? [? ? ? ?] ? ? ? ? ? ?].
  unfold update_r1, with_r1, with_tel. simpl.
  now rewrite map_update_map_update.
Qed.

Lemma update_r0_r1_comm t0 t1 (f : R0CameraContainer -> R0CameraContainer)
    (g : R1CameraContainer -> R1CameraContainer) (d : EventAndMonDataContainer) :
  update_r0 t0 f (update_r1 t1 g d) = update_r1 t1 g (update_r0 t0 f d).
Proof. destruct d. reflexivity. Qed.

Lemma update_r0_ext tel_id (f g : R0CameraContainer -> R0CameraContainer)
    (d : EventAndMonDataContainer) :
  (forall c, f c = g c) -> update_r0 tel_id f d = update_r0 tel_id g d.
Proof.
  intros Hfg. unfold update_r0, with_r0, with_tel, map_update. now rewrite Hfg.
Qed.

Lemma fill_waveforms_run (self : SimTelEventSource) data tel_id
    (te : telescope_event) (adc_samples : ndarray3 num)
    (pedestal dc_to_pe : ndarray2 num) (w : world) w' :
  fill_waveforms self data tel_id te adc_samples pedestal dc_to_pe w = (Ok (), w') ->
  exists r1 (w0 w1 : world),
    apply_simtel_r1_calibration adc_samples pedestal dc_to_pe (gain_selector self) w0
      = (Ok r1, w1) /\
    containers w' !! data =
      (fun d : EventAndMonDataContainer =>
         update_r1 tel_id (fun _ => filled_r1 r1)
           (update_r0 tel_id (filled_r0 te adc_samples) d))
      <$> containers w !! data.
Proof.
  unfold fill_waveforms. rewrite !M_bind_modify, M_bind_run.
  destruct (apply_simtel_r1_calibration _ _ _ _ _) as [[r1|] w1] eqn:Hcal; [|done].
  destruct (calibration_containers _ _ _ _ _ _ _ Hcal) as [Hcs _].
  rewrite !M_bind_modify.
  case_decide as Hpos.
  - rewrite M_bind_lift.
    destruct (te_pixel_lists te !! 0%Z) as [pl|] eqn:Hpl; [|lia]. cbn [getitem].
    intros Heq. run_world Heq.
    exists r1. do 2 eexists. split; [exact Hcal|].
    rewrite !modify_lookup, Hcs, !modify_lookup.
    unfold loc in *. destruct (containers w !! data) as [d|]; [|reflexivity].
    rewrite !fmap_Some_eq. f_equal.
    rewrite !update_r0_r1_comm, !update_r0_compose, !update_r1_compose.
    f_equal. apply update_r0_ext. intros c.
    unfold filled_r0. rewrite Hpl, decide_True by done. reflexivity.
  - intros Heq. run_world Heq.
    exists r1. do 2 eexists. split; [exact Hcal|].
    rewrite mret_world, !modify_lookup, Hcs, !modify_lookup.
    unfold loc in *. destruct (containers w !! data) as [d|]; [|reflexivity].
    rewrite !fmap_Some_eq. f_equal.
    rewrite !update_r0_r1_comm, !update_r0_compose, !update_r1_compose.
    f_equal. apply update_r0_ext. intros c.
    unfold filled_r0. destruct (te_pixel_lists te !! 0%Z) as [pl|]; [|reflexivity].
    rewrite decide_False by done. reflexivity.
Qed.

(** An event container by its fields. *)
Ltac destruct_container d :=
  destruct d as [? ? ? ? ? [? ? ? ?] [? ? ? ?] [? ? ? ?] ? ? [? ? ? ? ? ? ? ? ?] ? ?].

(** The updates of the telescope loop applied to a container given by
    its fields. *)
Ltac container_cbv :=
  cbv [update_r0 update_r1 update_mc with_r0 with_r1 with_mc with_mc_tel with_tel
       with_pointing set_pointing_azimuth set_pointing_altitude
       clear_telescopes with_dl0 with_dl1_tel
       outside_telescopes event_header shower_of
       meta event_type count inst_subarray index r0 r1 dl0 dl1_tel trig mc
       mcheader pointing obs_id event_id tels_with_data tel
       mc_energy mc_alt mc_az mc_core_x mc_core_y mc_h_first_int mc_x_max
       mc_shower_primary_id mc_tel].

(** The body of the telescope loop, for one telescope. *)
Lemma fill_telescope_run (self : SimTelEventSource) data (ae : array_event)
    tel_id (te : telescope_event) (w : world) w' d :
  fill_telescope self data ae tel_id te w = (Ok (), w') ->
  containers w !! data = Some d ->
  exists d',
    containers w' !! data = Some d' /\
    telescope_filled self ae tel_id te d d' /\
    outside_telescopes d' = outside_telescopes d /\
    (dom (tel (r0 d')) = {[tel_id]} ∪ dom (tel (r0 d)) /\
     dom (tel (r1 d')) = {[tel_id]} ∪ dom (tel (r1 d)) /\
     dom (mc_tel (mc d')) = {[tel_id]} ∪ dom (mc_tel (mc d)) /\
     dom (pointing d') = {[tel_id]} ∪ dom (pointing d)) /\
    forall t, t ≠ tel_id ->
      tel (r0 d') !! t = tel (r0 d) !! t /\
      tel (r1 d') !! t = tel (r1 d) !! t /\
      mc_tel (mc d') !! t = mc_tel (mc d) !! t /\
      pointing d' !! t = pointing d !! t.
Proof.
  unfold fill_telescope. rewrite M_bind_lift.
  destruct (index_of _ _) as [tel_index|] eqn:Hidx; [|done].
  rewrite M_bind_lift. fold (adc_samples_of te).
  destruct (adc_samples_of te) as [adc_samples|] eqn:Hadc; [|done].
  rewrite M_bind_run.
  destruct (fill_mc_camera _ _ _ _ _ w) as [[[[ped g] tp]|] w1] eqn:Hmc; [|done].
  apply fill_mc_camera_run in Hmc
    as (g' & ped' & tp' & Hg & Hped & Htp & [= <- <- <-] & Hw1).
  cbn [fst snd]. rewrite M_bind_run, fill_pointing_run.
  intros Hwf Hd.
  apply fill_waveforms_run in Hwf as (r1 & w0 & w0' & Hcal & Hw').
  rewrite !modify_lookup, Hw1, Hd, !fmap_Some_eq in Hw'.
  eexists. split; [exact Hw'|]. clear Hw' Hw1 Hd.
  split; [|split; [|split]].
  - exists tel_index, adc_samples, g, ped, tp, r1, w0, w0'.
    do 6 (split; [done|]).
    destruct_container d. container_cbv. unfold map_update.
    rewrite !lookup_insert_eq. done.
  - destruct_container d. container_cbv. reflexivity.
  - destruct_container d. container_cbv. unfold map_update.
    rewrite !dom_insert_L.
    split; [done|]. split; [done|]. split; [done|].
    now rewrite (assoc_L (∪)), (idemp_L (∪)).
  - intros t Hne. destruct_container d. container_cbv. unfold map_update.
    rewrite !lookup_insert_ne by done. done.
Qed.

(** The telescope loop. *)
Lemma fill_telescopes_run (self : SimTelEventSource) data (ae : array_event)
    (tes : list (Z * telescope_event)) : forall (w : world) w' d,
  fill_telescopes self data ae tes w = (Ok (), w') ->
  containers w !! data = Some d ->
  exists d',
    containers w' !! data = Some d' /\
    outside_telescopes d' = outside_telescopes d /\
    (dom (tel (r0 d')) = list_to_set (map fst tes) ∪ dom (tel (r0 d)) /\
     dom (tel (r1 d')) = list_to_set (map fst tes) ∪ dom (tel (r1 d)) /\
     dom (mc_tel (mc d')) = list_to_set (map fst tes) ∪ dom (mc_tel (mc d)) /\
     dom (pointing d') = list_to_set (map fst tes) ∪ dom (pointing d)) /\
    (forall t, t ∉ map fst tes ->
       tel (r0 d') !! t = tel (r0 d) !! t /\
       tel (r1 d') !! t = tel (r1 d) !! t /\
       mc_tel (mc d') !! t = mc_tel (mc d) !! t /\
       pointing d' !! t = pointing d !! t) /\
    (NoDup (map fst tes) ->
     forall tel_id te, (tel_id, te) ∈ tes ->
       telescope_filled self ae tel_id te d d').
Proof.
  induction tes as [|[t te] rest IH]; intros w w' d Hrun Hd.
  - injection Hrun as <-. exists d. split; [done|]. split; [done|].
    simpl. rewrite !(left_id_L ∅ (∪)). split; [done|]. split; [done|].
    intros _ ? ? Hin. now apply elem_of_nil in Hin.
  - simpl in Hrun. rewrite M_bind_run in Hrun.
    destruct (fill_telescope self data ae t te w) as [[[]|] w1] eqn:Hhead; [|done].
    destruct (fill_telescope_run _ _ _ _ _ _ _ _ Hhead Hd)
      as (d1 & Hd1 & Hfilled & Hout1 & (A0 & A1 & A2 & A3) & Hother1).
    destruct (IH _ _ _ Hrun Hd1)
      as (d' & Hd' & Hout & (B0 & B1 & B2 & B3) & Hother & Hrest).
    exists d'. split; [done|]. split; [congruence|]. split; [|split].
    + simpl. rewrite B0, B1, B2, B3, A0, A1, A2, A3.
      rewrite !(assoc_L (∪)), !(comm_L (∪) (list_to_set (map fst rest)) {[t]}). done.
    + intros t' Hnot. apply not_elem_of_cons in Hnot as [Hne Hnot].
      destruct (Hother _ Hnot) as (-> & -> & -> & ->). now apply Hother1.
    + intros Hnodup tel_id te' Hin. simpl in Hnodup.
      apply NoDup_cons in Hnodup as [Hfresh Hnodup].
      apply elem_of_cons in Hin as [[= -> ->]|Hin].
      * destruct Hfilled as (i & adc & g & ped & tp & cal & w0 & w0' & H1 & H2 & H3
                             & H4 & H5 & H6 & H7 & H8 & H9 & H10).
        destruct (Hother _ Hfresh) as (E0 & E1 & E2 & E3).
        exists i, adc, g, ped, tp, cal, w0, w0'.
        do 6 (split; [done|]). rewrite E0, E1, E2, E3. done.
      * assert (tel_id ≠ t) as Hne.
        { intros ->. apply Hfresh. apply (list_elem_of_fmap_2 fst) in Hin. exact Hin. }
        destruct (Hrest Hnodup _ _ Hin)
          as (i & adc & g & ped & tp & cal & w0 & w0' & H1 & H2 & H3
              & H4 & H5 & H6 & H7 & H8 & H9 & H10).
        destruct (Hother1 _ Hne) as (E0 & _).
        exists i, adc, g, ped, tp, cal, w0, w0'.
        do 6 (split; [done|]). rewrite <- E0. done.
Qed.

(** ** The MC run headers that have been read *)

Lemma M_bind_read_mc_run_headers {B : Type} (k : list RunHeader -> M B) (w : world) :
  (read_mc_run_headers ≫= k) w = k (mc_run_headers w) w.
Proof. reflexivity. Qed.

Lemma modify_mc_run_headers data f (w : world) :
  mc_run_headers (modify data f w).2 = mc_run_headers w.
Proof. reflexivity. Qed.

Lemma reads_no_block_ret {A : Type} (a : A) : reads_no_block (mret a : M A).
Proof. by intros w r w' [= <- <-]. Qed.

Lemma reads_no_block_lift {A : Type} (r : result A) : reads_no_block (lift r : M A).
Proof. by intros w r' w' [= <- <-]. Qed.

Lemma reads_no_block_modify data f : reads_no_block (modify data f : M ()).
Proof. by intros w r w' [= <- <-]. Qed.

Lemma reads_no_block_emit (e : effect) : reads_no_block (emit e : M ()).
Proof. by intros w r w' [= <- <-]. Qed.

Lemma reads_no_block_read : reads_no_block (read_mc_run_headers : M (list RunHeader)).
Proof. by intros w r w' [= <- <-]. Qed.

Lemma reads_no_block_bind {A B : Type} (m : M A) (k : A -> M B) :
  reads_no_block m -> (forall a, reads_no_block (k a)) -> reads_no_block (m ≫= k).
Proof.
  intros Hm Hk w r w' Hrun. rewrite M_bind_run in Hrun.
  destruct (m w) as [[a|e] w1] eqn:Hmw.
  - rewrite (Hk a _ _ _ Hrun). exact (Hm _ _ _ Hmw).
  - injection Hrun as <- <-. exact (Hm _ _ _ Hmw).
Qed.

Ltac reads_no_block :=
  repeat first
    [ apply reads_no_block_ret | apply reads_no_block_lift
    | apply reads_no_block_modify | apply reads_no_block_emit
    | apply reads_no_block_read
    | apply reads_no_block_bind; [|intros]
    | match goal with |- reads_no_block (if ?c then _ else _) => destruct c end
    | match goal with |- reads_no_block (match ?c with _ => _ end) => destruct c end ].

Lemma reads_no_block_calibration (a : ndarray3 num) (p g : ndarray2 num)
    (sel : GainSelector) :
  reads_no_block (apply_simtel_r1_calibration a p g sel : M (ndarray2 num * list Z)).
Proof. unfold apply_simtel_r1_calibration, call_gain_selector. reads_no_block. Qed.

Lemma reads_no_block_fill_telescopes (self : SimTelEventSource) data (ae : array_event)
    (tes : list (Z * telescope_event)) :
  reads_no_block (fill_telescopes self data ae tes).
Proof.
  induction tes as [|[tel_id te] rest IH]; simpl; [apply reads_no_block_ret|].
  apply reads_no_block_bind; [|intros; exact IH].
  unfold fill_telescope, fill_mc_camera, fill_pointing, fill_waveforms.
  repeat first
    [ apply reads_no_block_calibration | apply reads_no_block_ret
    | apply reads_no_block_lift | apply reads_no_block_modify
    | apply reads_no_block_bind; [|intros]
    | match goal with |- reads_no_block (if ?c then _ else _) => destruct c end ].
Qed.

Lemma reads_no_block_assemble (self : SimTelEventSource) data (ae : array_event) :
  reads_no_block (assemble self data ae).
Proof.
  unfold assemble, fill_mc_information.
  repeat first
    [ apply reads_no_block_fill_telescopes | apply reads_no_block_ret
    | apply reads_no_block_lift | apply reads_no_block_modify
    | apply reads_no_block_read
    | apply reads_no_block_bind; [|intros]
    | match goal with |- reads_no_block (if ?c then _ else _) => destruct c end
    | match goal with |- reads_no_block (match ?c with _ => _ end) => destruct c end ].
Qed.

Lemma reads_no_block_process_array_event (self : SimTelEventSource) data counter
    (ae : array_event) :
  reads_no_block (process_array_event self data counter ae).
Proof.
  unfold process_array_event.
  repeat first
    [ apply reads_no_block_assemble | apply reads_no_block_ret
    | apply reads_no_block_lift | apply reads_no_block_modify
    | apply reads_no_block_bind; [|intros]
    | match goal with |- reads_no_block (if ?c then _ else _) => destruct c end ].
Qed.

Lemma fill_mc_information_run (self : SimTelEventSource) data (ae : array_event)
    (w : world) w' :
  fill_mc_information self data ae w = (Ok (), w') ->
  exists ev sh h,
    ae_mc_event ae = Some ev /\
    ae_mc_shower ae = Some sh /\
    last (mc_run_headers w) = Some h /\
    containers w' !! data =
      (fun d : EventAndMonDataContainer =>
         with_mcheader (fun _ =>
           {| mch_run_array_direction :=
                Some (h_direction (f_header (file_ self)) *u u_rad);
              mch_run_header := Some h |})
           (set_mc_shower ev sh d))
      <$> containers w !! data.
Proof.
  unfold fill_mc_information. rewrite M_bind_lift.
  destruct (ae_mc_event ae) as [ev|]; cbn [getitem]; [|done].
  rewrite M_bind_lift.
  destruct (ae_mc_shower ae) as [sh|]; cbn [getitem]; [|done].
  rewrite !M_bind_modify, M_bind_read_mc_run_headers, M_bind_lift.
  rewrite !modify_mc_run_headers.
  destruct (last (mc_run_headers w)) as [h|]; [|done].
  intros Heq. run_world Heq. exists ev, sh, h. do 3 (split; [done|]).
  rewrite !modify_lookup. unfold loc in *.
  destruct (containers w !! data) as [d|]; [|reflexivity].
  rewrite !fmap_Some_eq. reflexivity.
Qed.

(** ** The loop body *)

Lemma telescope_filled_transfer (self : SimTelEventSource) (ae : array_event)
    tel_id (te : telescope_event) (d0 d d' : EventAndMonDataContainer) :
  tel (r0 d0) !! tel_id = tel (r0 d) !! tel_id ->
  telescope_filled self ae tel_id te d0 d' ->
  telescope_filled self ae tel_id te d d'.
Proof.
  intros Heq (i & adc & g & ped & tp & cal & w0 & w0' & H1 & H2 & H3
              & H4 & H5 & H6 & H7 & H8 & H9 & H10).
  exists i, adc, g, ped, tp, cal, w0, w0'. rewrite <- Heq. done.
Qed.

Lemma yielded_from_transfer (self : SimTelEventSource) headers (ae : array_event)
    (d0 d d' : EventAndMonDataContainer) :
  beyond_header d0 = beyond_header d ->
  yielded_from self headers ae d0 d' -> yielded_from self headers ae d d'.
Proof.
  unfold beyond_header. intros [= Hmeta _ Hmc Hmch Hpt _ _ _ _].
  intros (Y1 & Y2 & (Y3 & Y4) & Y5 & Y6 & Y7).
  split; [congruence|]. split; [done|]. split.
  { rewrite <- Hpt. done. }
  split; [|split].
  - intros Hdata. destruct (Y5 Hdata) as (ev & sh & h & E1 & E2 & E3 & E4 & E5).
    exists ev, sh, h. do 3 (split; [done|]). split; [|done].
    rewrite E4. unfold set_mc_shower, with_mc, shower_of. reflexivity.
  - intros Hother. destruct (Y6 Hother) as [E1 E2]. rewrite E1, E2, Hmc, Hmch. done.
  - intros Hnodup tel_id te Hin.
    apply (telescope_filled_transfer _ _ _ _ (clear_telescopes d0)); [reflexivity|].
    now apply Y7.
Qed.

Lemma outside_telescopes_eq (d d' : EventAndMonDataContainer) :
  outside_telescopes d' = outside_telescopes d ->
  meta d' = meta d /\ shower_of (mc d') = shower_of (mc d) /\
  mcheader d' = mcheader d /\ tel (dl0 d') = tel (dl0 d) /\
  dl1_tel d' = dl1_tel d /\ event_header d' = event_header d /\ trig d' = trig d.
Proof.
  unfold outside_telescopes. intros Heq.
  do 6 (apply pair_equal_spec in Heq as [Heq ?]). done.
Qed.

Lemma assemble_run (self : SimTelEventSource) data (ae : array_event)
    (w : world) st w' d :
  assemble self data ae w = (Ok st, w') ->
  containers w !! data = Some d ->
  exists d', containers w' !! data = Some d' /\
    yielded_from self (mc_run_headers w) ae d d'.
Proof.
  unfold assemble. rewrite M_bind_modify, M_bind_run. intros Hrun Hd.
  destruct ((if decide (ae_type ae = "data") then fill_mc_information self data ae
             else mret ()) _) as [[[]|] w2] eqn:Hmc; [|done].
  rewrite M_bind_modify, M_bind_run in Hrun.
  destruct (fill_telescopes _ _ _ _ _) as [[[]|] w4] eqn:Htel; [|done].
  injection Hrun as <- <-.
  assert (exists d2, containers w2 !! data = Some d2 /\
            meta d2 = meta d /\ pointing d2 = pointing d /\
            (ae_type ae = "data" ->
             exists ev sh h,
               ae_mc_event ae = Some ev /\
               ae_mc_shower ae = Some sh /\
               last (mc_run_headers w) = Some h /\
               shower_of (mc d2) = shower_of (mc (set_mc_shower ev sh d)) /\
               mcheader d2 =
                 {| mch_run_array_direction :=
                      Some (h_direction (f_header (file_ self)) *u u_rad);
                    mch_run_header := Some h |}) /\
            (ae_type ae ≠ "data" ->
             shower_of (mc d2) = shower_of (mc d) /\ mcheader d2 = mcheader d))
    as (d2 & Hd2 & Hmeta2 & Hpt2 & Hdata2 & Hother2).
  { case_decide as Htype.
    - apply fill_mc_information_run in Hmc as (ev & sh & h & E1 & E2 & E3 & Hw2).
      rewrite modify_lookup, Hd, !fmap_Some_eq in Hw2.
      eexists. split; [exact Hw2|]. split; [done|]. split; [done|].
      split; [|done]. intros _. exists ev, sh, h. done.
    - run_world Hmc. rewrite mret_world, modify_lookup, Hd, fmap_Some_eq.
      eexists. split; [reflexivity|]. split; [done|]. split; [done|].
      split; [done|]. intros _. done. }
  assert (containers (modify data clear_telescopes w2).2 !! data
            = Some (clear_telescopes d2)) as Hd3.
  { now rewrite modify_lookup, Hd2. }
  destruct (fill_telescopes_run _ _ _ _ _ _ _ Htel Hd3)
    as (d' & Hd' & Hout & (D0 & D1 & D2 & D3) & Hother & Hfilled).
  exists d'. split; [done|].
  apply outside_telescopes_eq in Hout as (Hmeta & Hshower & Hmch & Hdl0 & Hdl1 & _).
  assert (forall X : gset Z, X ∪ ∅ = X) as Hunit by (intros X; apply (right_id_L ∅ (∪))).
  split; [rewrite Hmeta; exact Hmeta2|].
  split; [|split; [|split; [|split]]].
  - unfold telescopes_of.
    rewrite D0, D1, D2, Hdl0, Hdl1.
    destruct_container d2. container_cbv. rewrite !dom_empty_L, !Hunit. done.
  - split.
    + rewrite D3. unfold telescopes_of. f_equal. rewrite <- Hpt2.
      destruct_container d2. reflexivity.
    + intros t Hnot. unfold telescopes_of in Hnot.
      rewrite elem_of_list_to_set in Hnot.
      destruct (Hother _ Hnot) as (_ & _ & _ & ->). rewrite <- Hpt2.
      destruct_container d2. reflexivity.
  - intros Hdata. destruct (Hdata2 Hdata) as (ev & sh & h & E1 & E2 & E3 & E4 & E5).
    exists ev, sh, h. do 3 (split; [done|]).
    rewrite Hshower, Hmch, <- E4, <- E5. destruct_container d2. done.
  - intros Htype. destruct (Hother2 Htype) as [<- <-].
    rewrite Hshower, Hmch. destruct_container d2. done.
  - intros Hnodup tel_id te Hin.
    apply (telescope_filled_transfer _ _ _ _ (clear_telescopes d2));
      [destruct_container d2; destruct_container d; reflexivity|].
    now apply Hfilled.
Qed.

(** The loop body on a container [d]: when it goes on to the next array
    event it has written the header only; when it yields, the
    container is as [yielded_from] says, with the event type of the
    array event. *)
Lemma process_array_event_run (self : SimTelEventSource) data counter
    (ae : array_event) (w : world) st w' d :
  process_array_event self data counter ae w = (Ok st, w') ->
  containers w !! data = Some d ->
  exists d',
    containers w' !! data = Some d' /\
    match st with
    | Yield =>
        yielded_from self (mc_run_headers w) ae d d' /\
        event_type d' = ae_type ae /\ count d' = counter
    | Continue => beyond_header d' = beyond_header d
    end.
Proof.
  intros Hrun Hd.
  destruct (process_array_event_spec _ _ _ _ _ _ _ Hrun) as (_ & _ & _ & Hspec).
  revert Hrun. unfold process_array_event. rewrite M_bind_modify, M_bind_lift.
  destruct (if decide (ae_type ae = "calibration") then _ else _) as [ev|]; [|done].
  rewrite !M_bind_modify.
  match goal with
  | |- context [modify data ?f3 (modify data ?f2 (modify data ?f1 w).2).2] =>
      set (w3 := (modify data f3 (modify data f2 (modify data f1 w).2).2).2);
      assert (containers w3 !! data = Some (f3 (f2 (f1 d)))) as Hd3
        by (unfold w3; now rewrite !modify_lookup, Hd);
      assert (beyond_header (f3 (f2 (f1 d))) = beyond_header d) as Hb3
        by (destruct_container d; reflexivity);
      set (d3 := f3 (f2 (f1 d))) in *
  end.
  assert (forall w4 d4,
    containers w4 !! data = Some d4 -> beyond_header d4 = beyond_header d ->
    mc_run_headers w4 = mc_run_headers w ->
    assemble self data ae w4 = (Ok st, w') ->
    exists d', containers w' !! data = Some d' /\
      match st with
      | Yield =>
          yielded_from self (mc_run_headers w) ae d d' /\
          event_type d' = ae_type ae /\ count d' = counter
      | Continue => beyond_header d' = beyond_header d
      end) as Hasm.
  { intros w4 d4 Hd4 Hb4 Hh4 Hrun.
    destruct (assemble_spec _ _ _ _ _ _ Hrun) as (-> & _).
    destruct (assemble_run _ _ _ _ _ _ _ Hrun Hd4) as (d' & Hd' & Hy).
    rewrite Hh4 in Hy.
    exists d'. split; [done|]. split; [now apply (yielded_from_transfer _ _ _ d4)|].
    destruct (Hspec _ Hd') as (ev' & _ & Hhdr & _).
    unfold event_header in Hhdr. do 5 (apply pair_equal_spec in Hhdr as [Hhdr _]).
    now apply pair_equal_spec in Hhdr. }
  case_decide.
  - case_decide.
    + intros Heq. pose proof Heq as Hst. unfold mret, M_ret in Hst.
      apply pair_equal_spec in Hst as [Hst _]. injection Hst as <-.
      run_world Heq. exists d3. rewrite mret_world. done.
    + rewrite M_bind_modify. eapply Hasm.
      * rewrite modify_lookup, Hd3. reflexivity.
      * rewrite <- Hb3. unfold d3. destruct_container d. reflexivity.
      * reflexivity.
  - exact (Hasm _ _ Hd3 Hb3 eq_refl).
Qed.

(** ** Pulls *)

(** A pull that yields, seen from the container [d] that the generator
    writes to: the array events that the filter rejects have changed
    its header only. *)
Lemma generator_loop_yield_from (self : SimTelEventSource) data
    (pending : list (result array_event)) :
  forall counter (w : world) l g' w' d,
  generator_loop self data pending counter w = (Ok (Some l, g'), w') ->
  containers w !! data = Some d ->
  exists skipped ae rest d',
    pending = map Ok skipped ++ Ok ae :: rest /\
    Forall (fun r => passes_filter (allowed_tels (config self)) r = false) skipped /\
    passes_filter (allowed_tels (config self)) ae = true /\
    l = data /\
    g' = Suspended data (S (counter + length skipped)) /\
    file_pos w' = file_pos w + S (length skipped) /\
    containers w' !! data = Some d' /\
    yielded_from self (mc_run_headers w') ae d d' /\
    event_type d' = ae_type ae /\
    count d' = counter + length skipped /\
    mc_run_headers w' =
      mc_run_headers w ++
      concat (map (mc_run_headers_before (file_ self))
                (seq (file_pos w) (S (length skipped)))).
Proof.
  induction pending as [|[ae|e] rest IH]; intros counter w l g' w' d Hrun Hd.
  - discriminate.
  - rewrite generator_loop_cons in Hrun.
    destruct (process_array_event self data counter ae (advance self w).2)
      as [[st|] w1] eqn:Hproc; [|done].
    destruct (process_array_event_spec _ _ _ _ _ _ _ Hproc) as (Hst & Hp & _).
    assert (containers (advance self w).2 !! data = Some d) as Hd0 by exact Hd.
    destruct (process_array_event_run _ _ _ _ _ _ _ _ Hproc Hd0) as (d1 & Hd1 & Hcase).
    pose proof (reads_no_block_process_array_event _ _ _ _ _ _ _ Hproc) as Hh.
    change (mc_run_headers (advance self w).2)
      with (mc_run_headers w ++ mc_run_headers_before (file_ self) (file_pos w))
      in Hh, Hcase.
    destruct st.
    + destruct (IH _ _ _ _ _ _ Hrun Hd1)
        as (skipped & ae' & rest' & d' & -> & Hsk & Hpass & -> & -> & Hp' & Hd'
            & Hy & Htype & Hcount & Hheaders).
      exists (ae :: skipped), ae', rest', d'. simpl.
      split; [done|]. split.
      { constructor; [|done]. destruct (passes_filter _ ae); done. }
      split; [done|]. split; [done|]. rewrite <- Nat.add_succ_comm.
      split; [done|]. split; [rewrite Hp', Hp; simpl; lia|].
      split; [done|]. split; [now apply (yielded_from_transfer _ _ _ d1)|].
      split; [done|]. split; [lia|].
      rewrite Hheaders, Hh, Hp. cbn [file_pos advance snd].
      rewrite <- app_assoc. reflexivity.
    + injection Hrun as <- <- <-. destruct Hcase as (Hy & Htype & Hcount).
      rewrite <- Hh in Hy.
      exists [], ae, rest, d1. simpl. rewrite Nat.add_0_r.
      split; [done|]. split; [constructor|].
      split; [destruct (passes_filter _ ae); done|].
      split; [done|]. split; [done|]. split; [rewrite Hp; simpl; lia|].
      do 4 (split; [done|]). rewrite Hh, app_nil_r. reflexivity.
  - discriminate.
Qed.

(** A pull that yields, seen from the container that the generator
    writes to: the new one with its metadata on the first pull, the
    one of the pulls before afterwards.  The array event is the one
    before the position at which the pull leaves the file. *)
Lemma _generator_yield_from (self : SimTelEventSource) g (w : world) l g' w' :
  _generator self g w = (Ok (Some l, g'), w') ->
  exists ae counter,
    (Ok ae ∈ f_array_events (file_ self) /\
     0 < file_pos w' /\
     f_array_events (file_ self) !! (file_pos w' - 1) = Some (Ok ae)) /\
    passes_filter (allowed_tels (config self)) ae = true /\
    g' = Suspended l (S counter) /\
    match g with
    | Created =>
        l = length (containers w) /\
        exists d',
          containers w' !! l = Some d' /\
          yielded_from self (mc_run_headers w') ae
            (with_meta (fun _ =>
               {| meta_origin := Some "hessio";
                  meta_input_url := Some (input_url (config self));
                  meta_max_events := Some (max_events (config self)) |})
               EventAndMonDataContainer_default) d' /\
          event_type d' = ae_type ae /\ count d' = counter
    | Suspended data _ =>
        l = data /\
        forall d, containers w !! data = Some d ->
          exists d',
            containers w' !! data = Some d' /\
            yielded_from self (mc_run_headers w') ae d d' /\
            event_type d' = ae_type ae /\ count d' = counter
    | Finished => False
    end.
Proof.
  intros Hrun. apply _generator_Ok in Hrun as (w1 & Hc & [Hinner|[? _]]); [|done].
  assert (Hat : forall (pos n : nat) (skipped : list array_event) (ae : array_event) rest,
    drop pos (f_array_events (file_ self)) = map Ok skipped ++ Ok ae :: rest ->
    n = pos + S (length skipped) ->
    Ok ae ∈ f_array_events (file_ self) /\ 0 < n /\
    f_array_events (file_ self) !! (n - 1) = Some (Ok ae)).
  { intros pos n skipped ae rest Hpend ->. split; [|split; [lia|]].
    - apply (subseteq_drop pos). rewrite Hpend.
      apply elem_of_app. right. apply list_elem_of_here.
    - replace (pos + S (length skipped) - 1) with (pos + length skipped) by lia.
      rewrite <- lookup_drop, Hpend.
      rewrite <- (length_map Ok skipped). apply list_lookup_middle. reflexivity. }
  assert (Hloop : forall data counter (w2 : world) d,
    resume self data counter w2 = (Ok (Some l, g'), w') ->
    containers w2 !! data = Some d ->
    exists ae counter',
      (Ok ae ∈ f_array_events (file_ self) /\
       0 < file_pos w' /\
       f_array_events (file_ self) !! (file_pos w' - 1) = Some (Ok ae)) /\
      passes_filter (allowed_tels (config self)) ae = true /\
      g' = Suspended l (S counter') /\
      l = data /\
      exists d',
        containers w' !! data = Some d' /\
        yielded_from self (mc_run_headers w') ae d d' /\
        event_type d' = ae_type ae /\ count d' = counter').
  { intros data counter w2 d Hres Hd. unfold resume in Hres.
    destruct (generator_loop_yield_from _ _ _ _ _ _ _ _ _ Hres Hd)
      as (skipped & ae & rest & d' & Hpend & _ & Hpass & -> & -> & Hpos & Hd' & Hy
          & Htype & Hcount & _).
    exists ae, (counter + length skipped).
    split; [exact (Hat _ _ _ _ _ Hpend Hpos)|].
    do 3 (split; [done|]). exists d'. done. }
  destruct g as [|data counter|].
  - revert Hinner. unfold __generator. rewrite M_bind_run.
    unfold new_container at 1. cbn iota beta. rewrite M_bind_modify. intros Hres.
    edestruct Hloop as (ae & counter' & Hin & Hpass & Hg & Hl & d' & Hd' & Hy);
      [exact Hres| |].
    { rewrite modify_lookup. cbn [containers].
      rewrite lookup_app_r, Nat.sub_diag by lia. reflexivity. }
    exists ae, counter'. do 3 (split; [done|]). rewrite <- Hc.
    split; [done|]. exists d'. rewrite Hl. done.
  - destruct (generator_loop_yield _ _ _ _ _ _ _ _ Hinner) as (-> & _).
    assert (exists ae,
              (Ok ae ∈ f_array_events (file_ self) /\
               0 < file_pos w' /\
               f_array_events (file_ self) !! (file_pos w' - 1) = Some (Ok ae)) /\
              passes_filter (allowed_tels (config self)) ae = true /\
              exists counter', g' = Suspended data (S counter') /\
              forall d, containers w !! data = Some d ->
                exists d', containers w' !! data = Some d' /\
                  yielded_from self (mc_run_headers w') ae d d' /\
                  event_type d' = ae_type ae /\ count d' = counter')
      as (ae & Hin & Hpass & counter' & Hg & Hall).
    { unfold __generator, resume in Hinner.
      destruct (generator_loop_yield _ _ _ _ _ _ _ _ Hinner)
        as (_ & _ & skipped & ae & rest & w0 & Hpend & Hsk & Hpass & Hg & Hpos & _).
      exists ae. split; [exact (Hat _ _ _ _ _ Hpend Hpos)|].
      split; [done|]. exists (counter + length skipped). split; [done|].
      intros d Hd. rewrite <- Hc in Hd.
      destruct (generator_loop_yield_from _ _ _ _ _ _ _ _ _ Hinner Hd)
        as (skipped' & ae' & rest' & d' & Hpend' & Hsk' & Hpass' & _ & Hg' & _ & Hd'
            & Hy & Htype & Hcount & _).
      assert (skipped' = skipped /\ ae' = ae) as [-> ->].
      { rewrite Hpend in Hpend'. clear -Hpend' Hsk Hsk' Hpass Hpass'.
        revert skipped' Hpend' Hsk'.
        induction Hsk as [|x skipped Hx Hsk IH]; intros [|y skipped'] Heq Hsk';
          simpl in Heq.
        - injection Heq as ->. done.
        - injection Heq as ->. apply Forall_cons in Hsk' as [Hy _]. congruence.
        - injection Heq as ->. congruence.
        - injection Heq as -> Heq. apply Forall_cons in Hsk' as [_ Hsk'].
          destruct (IH _ Heq Hsk') as [-> ->]. done. }
      exists d'. done. }
    exists ae, counter'. done.
  - discriminate.
Qed.

(** The MC run headers that the loop has read when it yields: those
    there were, and the blocks on the way to each array event that it
    has read. *)
Lemma generator_loop_headers (self : SimTelEventSource) data
    (pending : list (result array_event)) :
  forall counter (w : world) l g' w',
  generator_loop self data pending counter w = (Ok (Some l, g'), w') ->
  file_pos w < file_pos w' /\
  mc_run_headers w' =
    mc_run_headers w ++
    concat (map (mc_run_headers_before (file_ self))
              (seq (file_pos w) (file_pos w' - file_pos w))).
Proof.
  induction pending as [|[ae|e] rest IH]; intros counter w l g' w' Hrun.
  - discriminate.
  - rewrite generator_loop_cons in Hrun.
    destruct (process_array_event self data counter ae (advance self w).2)
      as [[st|] w1] eqn:Hproc; [|done].
    destruct (process_array_event_spec _ _ _ _ _ _ _ Hproc) as (_ & Hp & _).
    pose proof (reads_no_block_process_array_event _ _ _ _ _ _ _ Hproc) as Hh.
    change (mc_run_headers (advance self w).2)
      with (mc_run_headers w ++ mc_run_headers_before (file_ self) (file_pos w))
      in Hh.
    change (file_pos (advance self w).2) with (S (file_pos w)) in Hp.
    destruct st.
    + destruct (IH _ _ _ _ _ Hrun) as [Hlt Hheaders].
      split; [lia|].
      replace (file_pos w' - file_pos w) with (S (file_pos w' - file_pos w1)) by lia.
      cbn [seq map concat]. rewrite Hheaders, Hh, Hp, <- app_assoc. reflexivity.
    + injection Hrun as <- <- <-. split; [lia|].
      replace (file_pos w1 - file_pos w) with 1 by lia.
      cbn [seq map concat]. rewrite Hh, app_nil_r. reflexivity.
  - discriminate.
Qed.

(** The position from which a pull reads: the start of the file when
    a new iteration finds the file beyond the start position of the
    event source, and the position of the file otherwise. *)
Lemma _generator_yield_headers (self : SimTelEventSource) g (w : world) l g' w' :
  _generator self g w = (Ok (Some l, g'), w') ->
  let start := match g with
               | Created => if decide (start_pos self < file_pos w) then 0
                            else file_pos w
               | _ => file_pos w
               end in
  start < file_pos w' /\
  mc_run_headers w' =
    mc_run_headers w ++
    concat (map (mc_run_headers_before (file_ self))
              (seq start (file_pos w' - start))).
Proof.
  intros Hrun start.
  assert (Hloop : forall data counter (w2 : world) p hs,
    resume self data counter w2 = (Ok (Some l, g'), w') ->
    file_pos w2 = p -> mc_run_headers w2 = hs ->
    p < file_pos w' /\
    mc_run_headers w' =
      hs ++ concat (map (mc_run_headers_before (file_ self))
                      (seq p (file_pos w' - p)))).
  { intros data counter w2 p hs Hres <- <-. unfold resume in Hres.
    exact (generator_loop_headers _ _ _ _ _ _ _ _ Hres). }
  assert (exists w1,
            match g with
            | Created => rewind self
            | _ => mret ()
            end w = (Ok (), w1) /\
            file_pos w1 = start /\ mc_run_headers w1 = mc_run_headers w)
    as (w1 & Hw1 & Hp1 & Hh1).
  { subst start. destruct g; try (exists w; done).
    unfold rewind. rewrite M_bind_run. simpl.
    case_decide; (eexists; split; [reflexivity|]; done). }
  unfold _generator in Hrun. rewrite M_bind_run, Hw1 in Hrun.
  unfold try_except in Hrun.
  destruct (__generator self g w1) as [[r|e] w2] eqn:Hinner.
  - injection Hrun as -> <-. rewrite <- Hh1, <- Hp1.
    destruct g as [|data counter|].
    + revert Hinner. unfold __generator. rewrite M_bind_run.
      unfold new_container at 1. cbn iota beta. rewrite M_bind_modify. intros Hres.
      exact (Hloop _ _ _ _ _ Hres eq_refl eq_refl).
    + exact (Hloop _ _ _ _ _ Hinner eq_refl eq_refl).
    + discriminate Hinner.
  - destruct e; simpl in Hrun; discriminate Hrun.
Qed.


(** ** What a yielded event holds *)

(** X7: every event that an iteration yields has the metadata that
    [__generator] writes into its container when it makes it: origin
    hessio, and the input url and the maximum number of events of the
    configuration.  No later statement writes to [data.meta]. *)
Theorem events_carry_meta (self : SimTelEventSource) fuel (w : world) evs g' w' :
  collect (_generator self) fuel Created w = (Ok (evs, g'), w') ->
  Forall (fun d : EventAndMonDataContainer =>
            meta d = {| meta_origin := Some "hessio";
                        meta_input_url := Some (input_url (config self));
                        meta_max_events := Some (max_events (config self)) |}) evs.
Proof.
  set (M := {| meta_origin := Some "hessio";
               meta_input_url := Some (input_url (config self));
               meta_max_events := Some (max_events (config self)) |}).
  assert (forall fuel g (w : world) evs g' w',
    match g with
    | Suspended data _ => exists d, containers w !! data = Some d /\ meta d = M
    | _ => True
    end ->
    collect (_generator self) fuel g w = (Ok (evs, g'), w') ->
    Forall (fun d : EventAndMonDataContainer => meta d = M) evs) as Hinv.
  { clear. intros fuel. induction fuel as [|fuel IH]; intros g w evs g' w' Hg Hrun.
    - injection Hrun as <- _ _. constructor.
    - rewrite collect_S in Hrun.
      destruct (_generator self g w) as [[[[l|] g1]|] w1] eqn:Hpull; [| |done].
      + destruct (collect (_generator self) fuel g1 w1) as [[[rest gf]|] w2] eqn:Hrest;
          [|done].
        injection Hrun as <- <- <-.
        destruct (_generator_yield_from _ _ _ _ _ _ Hpull)
          as (ae & counter & _ & _ & -> & Hcase).
        assert (exists d', containers w1 !! l = Some d' /\ meta d' = M)
          as (d' & Hd' & Hmeta).
        { destruct g as [|data c|]; [| |done].
          - destruct Hcase as (_ & d' & Hd' & (Hm & _) & _). exists d'. done.
          - destruct Hcase as (-> & Hall). destruct Hg as (d & Hd & Hm).
            destruct (Hall _ Hd) as (d' & Hd' & (Hm' & _) & _).
            exists d'. split; [done|congruence]. }
        rewrite Hd'. constructor; [exact Hmeta|].
        apply (IH (Suspended l (S counter)) w1 rest gf w2); [eauto|exact Hrest].
      + injection Hrun as <- _ _. constructor. }
  intros Hrun. apply (Hinv fuel Created w evs g' w'); [exact I|exact Hrun].
Qed.

(** X8: the simulated shower and the run header of the container are
    written for array events of type data only.  When a pull, the
    first one of an iteration or a later one, yields an event of that
    type, the shower is the one of the array event (energy in TeV,
    angles in rad, core position and height of first interaction in m,
    the depth of the maximum in g/cm2), and the header has the array
    direction and the MC run header that the file object has read
    last when the array event is processed: the last one of those
    that it had read before the pull and of the blocks on the way to
    the array events that the pull reads, from the start of the file
    after a back-seek.  When the pull yields an event of another
    type, the shower and the header are what the container held
    before the pull, or those of a new container on the first pull. *)
Theorem mc_information_for_data_events (self : SimTelEventSource) g (w : world)
    l g' w' d' :
  _generator self g w = (Ok (Some l, g'), w') ->
  containers w' !! l = Some d' ->
  let start := match g with
               | Created => if decide (start_pos self < file_pos w) then 0
                            else file_pos w
               | _ => file_pos w
               end in
  exists ae,
    f_array_events (file_ self) !! (file_pos w' - 1) = Some (Ok ae) /\
    event_type d' = ae_type ae /\
    start < file_pos w' /\
    mc_run_headers w' =
      mc_run_headers w ++
      concat (map (mc_run_headers_before (file_ self))
                (seq start (file_pos w' - start))) /\
    (ae_type ae = "data" ->
     exists ev sh h,
       ae_mc_event ae = Some ev /\
       ae_mc_shower ae = Some sh /\
       last (mc_run_headers w') = Some h /\
       mc_energy (mc d') = Some (ms_energy sh *u u_TeV) /\
       mc_alt (mc d') = Some (ms_altitude sh *u u_rad) /\
       mc_az (mc d') = Some (ms_azimuth sh *u u_rad) /\
       mc_core_x (mc d') = Some (me_xcore ev *u u_m) /\
       mc_core_y (mc d') = Some (me_ycore ev *u u_m) /\
       mc_h_first_int (mc d') = Some (ms_h_first_int sh *u u_m) /\
       mc_x_max (mc d') = Some (ms_xmax sh *u u_g_per_cm2) /\
       mc_shower_primary_id (mc d') = Some (ms_primary_id sh) /\
       mch_run_array_direction (mcheader d') =
         Some (h_direction (f_header (file_ self)) *u u_rad) /\
       mch_run_header (mcheader d') = Some h) /\
    (ae_type ae ≠ "data" ->
     match g with
     | Suspended data _ =>
         exists d, containers w !! data = Some d /\
           shower_of (mc d') = shower_of (mc d) /\ mcheader d' = mcheader d
     | _ =>
         shower_of (mc d') = shower_of (mc EventAndMonDataContainer_default) /\
         mcheader d' = mcheader EventAndMonDataContainer_default
     end).
Proof.
  intros Hrun Hd' start.
  destruct (_generator_yield_headers _ _ _ _ _ _ Hrun) as [Hlt Hheaders].
  destruct (_generator_yield_from _ _ _ _ _ _ Hrun)
    as (ae & counter' & (_ & _ & Hat) & _ & _ & Hcase).
  assert (exists d,
            yielded_from self (mc_run_headers w') ae d d' /\
            event_type d' = ae_type ae /\
            match g with
            | Suspended data _ => containers w !! data = Some d
            | _ => shower_of (mc d) = shower_of (mc EventAndMonDataContainer_default) /\
                   mcheader d = mcheader EventAndMonDataContainer_default
            end) as (d & Hy & Htype & Hd).
  { destruct g as [|data counter|]; [| |done].
    - destruct Hcase as (-> & d'' & Hd'' & Hy & Htype & _).
      assert (d'' = d') as -> by congruence.
      eexists. split; [exact Hy|]. split; [done|]. split; reflexivity.
    - destruct Hcase as (-> & Hall).
      destruct (_generator_yield _ _ _ _ _ _ Hrun)
        as (? & ? & ? & _ & _ & _ & _ & _ & Hlen).
      destruct (lookup_lt_is_Some_2 (containers w) data) as [d Hd].
      { rewrite <- Hlen. by apply lookup_lt_Some in Hd'. }
      destruct (Hall _ Hd) as (d'' & Hd'' & Hy & Htype & _).
      assert (d'' = d') as -> by congruence.
      exists d. done. }
  destruct Hy as (_ & _ & _ & Hdata & Hother & _).
  exists ae. do 4 (split; [done|]). split.
  - intros Hdata'. destruct (Hdata Hdata') as (ev & sh & h & E1 & E2 & E3 & E4 & E5).
    exists ev, sh, h. do 3 (split; [done|]).
    unfold shower_of, set_mc_shower, with_mc in E4. cbn [mc mc_energy mc_alt mc_az
      mc_core_x mc_core_y mc_h_first_int mc_x_max mc_shower_primary_id] in E4.
    injection E4 as -> -> -> -> -> -> -> ->. rewrite E5. done.
  - intros Htype'. destruct (Hother Htype') as [E1 E2].
    destruct g as [|data counter|].
    + destruct Hd as [<- <-]. done.
    + exists d. done.
    + destruct Hd as [<- <-]. done.
Qed.






(** ** Exceptions *)

Lemma mapM_result_raise {A B : Type} (f : A -> result B) (l : list A) e :
  mapM_result f l = Raise e -> exists x, x ∈ l /\ f x = Raise e.
Proof.
  induction l as [|x l IH]; simpl; [done|].
  destruct (f x) as [y|e'] eqn:Hx; simpl.
  - destruct (mapM_result f l) as [ys|e']; simpl; [done|].
    intros [= ->]. destruct (IH eq_refl) as (x' & Hin & Hx').
    exists x'. split; [now apply list_elem_of_further|done].
  - intros [= ->]. exists x. split; [apply list_elem_of_here|done].
Qed.

Lemma broadcast_dim_raise e0 m n e : broadcast_dim e0 m n = Raise e -> e = e0.
Proof. unfold broadcast_dim. repeat case_decide; congruence. Qed.

Lemma binary_op_raise f (a b : ndarray3 num) e :
  binary_op f a b = Raise e -> e = ValueError.
Proof.
  unfold binary_op. destruct (shape3 a) as [[ca pa] sa], (shape3 b) as [[cb pb] sb].
  destruct (broadcast_dim ValueError ca cb) eqn:Hc;
    [|rewrite bind_Raise; intros [= <-]; now apply broadcast_dim_raise in Hc].
  rewrite bind_Ok.
  destruct (broadcast_dim ValueError pa pb) eqn:Hp;
    [|rewrite bind_Raise; intros [= <-]; now apply broadcast_dim_raise in Hp].
  rewrite bind_Ok.
  destruct (broadcast_dim ValueError sa sb) eqn:Hs;
    [|rewrite bind_Raise; intros [= <-]; now apply broadcast_dim_raise in Hs].
  done.
Qed.

Lemma advanced_index_raise (a : ndarray3 num) idx0 idx1 e :
  advanced_index a idx0 idx1 = Raise e -> e = IndexError.
Proof.
  unfold advanced_index.
  destruct (broadcast_dim IndexError _ _) eqn:Hn;
    [|rewrite bind_Raise; intros [= <-]; now apply broadcast_dim_raise in Hn].
  rewrite bind_Ok.
  destruct (mapM_result _ _) as [rows|e'] eqn:Hrows; [done|].
  rewrite bind_Raise. intros [= <-].
  apply mapM_result_raise in Hrows as ([i j] & _ & Hx). revert Hx. cbn [fst snd].
  unfold normalize_index.
  repeat case_decide; rewrite ?bind_Ok, ?bind_Raise;
    try (intros [= <-]; reflexivity);
    destruct (_ ≫= _); congruence.
Qed.

(** [apply_simtel_r1_calibration] raises [ValueError] (shapes that do
    not broadcast), [IndexError] (no channel, or a selected channel
    that does not exist), or what the gain selector raises. *)
Lemma calibration_raise (a : ndarray3 num) (p g : ndarray2 num)
    (sel : GainSelector) (w : world) e w' :
  apply_simtel_r1_calibration a p g sel w = (Raise e, w') ->
  e = ValueError \/ e = IndexError \/ sel a = Raise e.
Proof.
  unfold apply_simtel_r1_calibration, calibrated_waveforms. rewrite M_bind_lift.
  destruct (binary_op subtract _ _) as [d|e1] eqn:Hsub.
  - rewrite bind_Ok. destruct (binary_op multiply _ _) as [r1|e1] eqn:Hmul.
    + case_decide.
      * rewrite M_bind_lift. unfold first_channel.
        destruct (items3 r1); [intros [= <- _]; tauto|done].
      * rewrite M_bind_run, call_gain_selector_run.
        destruct (sel a) as [s|e1]; [|intros [= <- _]; tauto].
        rewrite M_bind_lift.
        destruct (advanced_index _ _ _) eqn:Hadv; [done|].
        intros [= <- _]. apply advanced_index_raise in Hadv. tauto.
    + intros [= <- _]. apply binary_op_raise in Hmul. tauto.
  - rewrite bind_Raise. intros [= <- _]. apply binary_op_raise in Hsub. tauto.
Qed.

Lemma index_of_None (x : Z) (l : list Z) : index_of x l = None -> x ∉ l.
Proof.
  intros Hnone Hin. apply index_of_elem in Hin as (i & Hi & _). congruence.
Qed.

Lemma fill_telescope_raise (self : SimTelEventSource) data (ae : array_event)
    tel_id (te : telescope_event) (w : world) e w' :
  fill_telescope self data ae tel_id te w = (Raise e, w') ->
  telescope_error self ae tel_id te e.
Proof.
  unfold fill_telescope, telescope_error. rewrite M_bind_lift.
  destruct (index_of _ _) as [tel_index|] eqn:Hidx;
    [|intros [= <- _]; left; split; [now apply index_of_None|done]].
  rewrite M_bind_lift. fold (adc_samples_of te).
  destruct (adc_samples_of te) as [adc|e1] eqn:Hadc.
  - rewrite M_bind_run.
    destruct (fill_mc_camera _ _ _ _ _ w) as [[[[ped g] tp]|e1] w1] eqn:Hmc.
    + apply fill_mc_camera_run in Hmc
        as (g' & ped' & tp' & Hg & Hped & Htp & [= <- <- <-] & _).
      cbn [fst snd]. rewrite M_bind_run, fill_pointing_run.
      unfold fill_waveforms. rewrite !M_bind_modify, M_bind_run.
      destruct (apply_simtel_r1_calibration _ _ _ _ _) as [[r1|e1] w2] eqn:Hcal.
      * rewrite !M_bind_modify. case_decide as Hpos; [|done].
        rewrite M_bind_lift.
        destruct (te_pixel_lists te !! 0%Z); [done|lia].
      * intros [= <- _]. right. right. right. exists adc, ped, g. eauto 10.
    + intros [= <- _]. right. right. left.
      revert Hmc. unfold fill_mc_camera. rewrite M_bind_modify, M_bind_lift.
      destruct (ae_laser_calibrations ae !! tel_id); cbn [getitem];
        [|intros [= <- _]; tauto].
      rewrite M_bind_modify, M_bind_lift.
      destruct (ae_camera_monitorings ae !! tel_id); cbn [getitem];
        [|intros [= <- _]; tauto].
      rewrite M_bind_modify, M_bind_lift.
      destruct (ae_tracking_positions ae !! tel_id); cbn [getitem];
        [done|intros [= <- _]; tauto].
  - intros [= <- _]. right. left. unfold adc_samples_of in Hadc.
    destruct (te_adc_samples te); [done|].
    destruct (te_adc_sums te); [done|]. cbn [getitem] in Hadc.
    rewrite bind_Raise in Hadc. injection Hadc as <-. done.
Qed.

Lemma fill_telescopes_raise (self : SimTelEventSource) data (ae : array_event)
    (tes : list (Z * telescope_event)) : forall (w : world) e w',
  fill_telescopes self data ae tes w = (Raise e, w') ->
  exists tel_id te, (tel_id, te) ∈ tes /\ telescope_error self ae tel_id te e.
Proof.
  induction tes as [|[t te] rest IH]; intros w e w'; [done|].
  simpl. rewrite M_bind_run.
  destruct (fill_telescope self data ae t te w) as [[[]|e1] w1] eqn:Hhead.
  - intros Hrun. destruct (IH _ _ _ Hrun) as (tel_id & te' & Hin & Herr).
    exists tel_id, te'. split; [now apply list_elem_of_further|done].
  - intros [= <- _]. exists t, te. split; [apply list_elem_of_here|].
    now apply fill_telescope_raise in Hhead.
Qed.

Lemma process_array_event_raise (self : SimTelEventSource) data counter
    (ae : array_event) (w : world) e w' :
  process_array_event self data counter ae w = (Raise e, w') ->
  loop_body_error self (mc_run_headers w') ae e.
Proof.
  intros Hraise.
  rewrite (reads_no_block_process_array_event _ _ _ _ _ _ _ Hraise).
  revert Hraise.
  assert (forall w4 : world, mc_run_headers w4 = mc_run_headers w ->
    assemble self data ae w4 = (Raise e, w') ->
    ae_type ae = "data" /\
      (ae_mc_event ae = None /\ e = KeyError (Name "mc_event") \/
       ae_mc_shower ae = None /\ e = KeyError (Name "mc_shower") \/
       mc_run_headers w = [] /\ e = IndexError) \/
    exists tel_id te,
      (tel_id, te) ∈ ae_telescope_events ae /\
      telescope_error self ae tel_id te e) as Hasm.
  { intros w4 Hh4. unfold assemble. rewrite M_bind_modify, M_bind_run.
    destruct ((if decide (ae_type ae = "data") then fill_mc_information self data ae
               else mret ()) _) as [[[]|e1] w5] eqn:Hmc.
    - rewrite M_bind_modify, M_bind_run.
      destruct (fill_telescopes _ _ _ _ _) as [[[]|e2] w6] eqn:Htel; [done|].
      intros [= <- _]. right. now apply fill_telescopes_raise in Htel.
    - intros [= <- _]. left. case_decide as Hdata; [|done]. split; [done|].
      revert Hmc. unfold fill_mc_information. rewrite M_bind_lift.
      destruct (ae_mc_event ae); cbn [getitem]; [|intros [= <- _]; tauto].
      rewrite M_bind_lift.
      destruct (ae_mc_shower ae); cbn [getitem]; [|intros [= <- _]; tauto].
      rewrite !M_bind_modify, M_bind_read_mc_run_headers, M_bind_lift.
      rewrite !modify_mc_run_headers, Hh4.
      destruct (mc_run_headers w) as [|h hs] eqn:Hh;
        [intros [= <- _]; tauto|].
      destruct (last (h :: hs)) eqn:Hlast; [done|].
      rewrite last_cons in Hlast. destruct (last hs); done. }
  unfold process_array_event, loop_body_error. rewrite M_bind_modify, M_bind_lift.
  destruct (if decide (ae_type ae = "calibration") then _ else _) as [ev|e1] eqn:Hev.
  - rewrite !M_bind_modify.
    repeat case_decide; rewrite ?M_bind_modify; intros Hrun;
      try discriminate Hrun; right; refine (Hasm _ _ Hrun); reflexivity.
  - intros [= <- _]. left. case_decide as Hcal; [done|].
    destruct (ae_event_id ae); [done|]. cbn [getitem] in Hev. injection Hev as <-.
    done.
Qed.

Lemma generator_loop_raise (self : SimTelEventSource) data
    (pending : list (result array_event)) : forall counter (w : world) e w',
  generator_loop self data pending counter w = (Raise e, w') ->
  Raise e ∈ pending \/
  exists ae, Ok ae ∈ pending /\ loop_body_error self (mc_run_headers w') ae e.
Proof.
  induction pending as [|[ae|e0] rest IH]; intros counter w e w' Hrun.
  - discriminate.
  - rewrite generator_loop_cons in Hrun.
    destruct (process_array_event self data counter ae (advance self w).2)
      as [[[]|e1] w1] eqn:Hproc.
    + destruct (IH _ _ _ _ Hrun) as [Hin|(ae' & Hin & Herr)].
      * left. now apply list_elem_of_further.
      * right. exists ae'. split; [now apply list_elem_of_further|done].
    + discriminate.
    + injection Hrun as <- <-. right. exists ae. split; [apply list_elem_of_here|].
      now apply process_array_event_raise in Hproc.
  - injection Hrun as <- _. left. apply list_elem_of_here.
Qed.

(** X14: a pull from the generator never raises [EOFError].  What it
    raises is what reading the file raised for an array event, or the
    exception of the loop body for an array event of the file: a
    [KeyError] for a missing event id, simulated event or shower, or a
    missing laser calibration, camera monitoring, tracking position or
    [adc_sums] of a telescope; an [IndexError] when the file object
    has read no MC run header; a [ValueError] for a telescope that is
    not in [header["tel_id"]]; or what the R1 calibration raises. *)
Theorem iteration_errors (self : SimTelEventSource) g (w : world) e w' :
  _generator self g w = (Raise e, w') ->
  e ≠ EOFError /\
  (Raise e ∈ f_array_events (file_ self) \/
   exists ae, Ok ae ∈ f_array_events (file_ self) /\
     loop_body_error self (mc_run_headers w') ae e).
Proof.
  unfold _generator. rewrite M_bind_run.
  assert (exists w1 : world,
    match g with
    | Created => rewind self
    | _ => mret ()
    end w = (Ok (), w1)) as (w1 & ->).
  { destruct g; try (eexists; reflexivity).
    unfold rewind. rewrite M_bind_run. cbn [tell]. cbn iota beta.
    case_decide; eexists; reflexivity. }
  unfold try_except.
  destruct (__generator self g w1) as [[r|e1] w2] eqn:Hinner; [done|].
  destruct (is_EOFError e1) eqn:Heof; [done|]. intros [= <- <-].
  split; [intros ->; discriminate|].
  assert (forall data counter (w3 : world),
    resume self data counter w3 = (Raise e1, w2) ->
    Raise e1 ∈ f_array_events (file_ self) \/
    exists ae, Ok ae ∈ f_array_events (file_ self) /\
      loop_body_error self (mc_run_headers w2) ae e1)
    as Hres.
  { intros data counter w3 Hrun. unfold resume in Hrun.
    destruct (generator_loop_raise _ _ _ _ _ _ _ Hrun) as [Hin|(ae & Hin & Herr)].
    - left. now apply (subseteq_drop (file_pos w3)).
    - right. exists ae. split; [now apply (subseteq_drop (file_pos w3))|done]. }
  destruct g as [|data counter|].
  - revert Hinner. unfold __generator. rewrite M_bind_run.
    unfold new_container at 1. cbn iota beta. rewrite M_bind_modify. apply Hres.
  - exact (Hres _ _ _ Hinner).
  - discriminate.
Qed.

(** ** Warnings *)

Lemma quiet_ret {A : Type} (a : A) : quiet (mret a : M A).
Proof. intros w r w' [= <- <-]. exists []. now rewrite app_nil_r. Qed.

Lemma quiet_lift {A : Type} (r : result A) : quiet (lift r : M A).
Proof. intros w r' w' [= <- <-]. exists []. now rewrite app_nil_r. Qed.

Lemma quiet_read : quiet (read_mc_run_headers : M (list RunHeader)).
Proof. intros w r w' [= <- <-]. exists []. now rewrite app_nil_r. Qed.

Lemma quiet_modify data f : quiet (modify data f : M ()).
Proof. intros w r w' [= <- <-]. exists []. simpl. now rewrite app_nil_r. Qed.

Lemma quiet_advance (self : SimTelEventSource) : quiet (advance self).
Proof. intros w r w' [= <- <-]. exists []. simpl. now rewrite app_nil_r. Qed.

Lemma quiet_call (a : ndarray3 num) : quiet (emit (GainSelectorCalled a) : M ()).
Proof.
  intros w r w' [= <- <-]. exists [GainSelectorCalled a]. split; [done|].
  constructor; [exact I|constructor].
Qed.

Lemma quiet_bind {A B : Type} (m : M A) (k : A -> M B) :
  quiet m -> (forall a, quiet (k a)) -> quiet (m ≫= k).
Proof.
  intros Hm Hk w r w' Hrun. rewrite M_bind_run in Hrun.
  destruct (m w) as [[a|e] w1] eqn:Hmw.
  - destruct (Hm _ _ _ Hmw) as (c1 & E1 & F1).
    destruct (Hk a _ _ _ Hrun) as (c2 & E2 & F2).
    exists (c1 ++ c2). split; [now rewrite E2, E1, app_assoc|].
    now apply Forall_app.
  - injection Hrun as <- <-. exact (Hm _ _ _ Hmw).
Qed.

Ltac quiet :=
  repeat first
    [ apply quiet_ret | apply quiet_lift | apply quiet_modify | apply quiet_call
    | apply quiet_advance
    | apply quiet_bind; [|intros]
    | match goal with |- quiet (if ?c then _ else _) => destruct c end
    | match goal with |- quiet (match ?c with _ => _ end) => destruct c end ].

Lemma quiet_calibration (a : ndarray3 num) (p g : ndarray2 num) (sel : GainSelector) :
  quiet (apply_simtel_r1_calibration a p g sel : M (ndarray2 num * list Z)).
Proof. unfold apply_simtel_r1_calibration, call_gain_selector. quiet. Qed.

Lemma quiet_fill_telescopes (self : SimTelEventSource) data (ae : array_event)
    (tes : list (Z * telescope_event)) :
  quiet (fill_telescopes self data ae tes).
Proof.
  induction tes as [|[tel_id te] rest IH]; simpl; [apply quiet_ret|].
  apply quiet_bind; [|intros; exact IH].
  unfold fill_telescope, fill_mc_camera, fill_pointing, fill_waveforms.
  repeat first
    [ apply quiet_calibration | apply quiet_ret | apply quiet_lift
    | apply quiet_modify | apply quiet_bind; [|intros]
    | match goal with |- quiet (if ?c then _ else _) => destruct c end ].
Qed.

Lemma quiet_process_array_event (self : SimTelEventSource) data counter
    (ae : array_event) :
  quiet (process_array_event self data counter ae).
Proof.
  assert (quiet (assemble self data ae)) as Hasm.
  { unfold assemble, fill_mc_information.
    repeat first
      [ apply quiet_fill_telescopes | apply quiet_ret | apply quiet_lift
      | apply quiet_modify | apply quiet_read | apply quiet_bind; [|intros]
      | match goal with |- quiet (if ?c then _ else _) => destruct c end ]. }
  unfold process_array_event.
  repeat first
    [ exact Hasm | apply quiet_ret | apply quiet_lift
    | apply quiet_modify | apply quiet_bind; [|intros]
    | match goal with |- quiet (if ?c then _ else _) => destruct c end ].
Qed.

Lemma quiet_generator_loop (self : SimTelEventSource) data
    (pending : list (result array_event)) :
  forall counter, quiet (generator_loop self data pending counter).
Proof.
  induction pending as [|[ae|e] rest IH]; intros counter; simpl.
  - apply quiet_ret.
  - apply quiet_bind; [apply quiet_advance|]. intros _.
    apply quiet_bind; [apply quiet_process_array_event|]. intros [].
    + apply IH.
    + apply quiet_ret.
  - apply quiet_lift.
Qed.

(** ** A complete iteration *)

(** What the R1 calibration returns or raises does not depend on the
    world. *)
Lemma calibration_no_world (a : ndarray3 num) (p g : ndarray2 num)
    (sel : GainSelector) (w w0 : world) :
  (apply_simtel_r1_calibration a p g sel w).1
  = (apply_simtel_r1_calibration a p g sel w0).1.
Proof.
  unfold apply_simtel_r1_calibration. rewrite !M_bind_lift.
  destruct (calibrated_waveforms a p g) as [r1|e]; [|reflexivity].
  case_decide.
  - rewrite !M_bind_lift. destruct (first_channel r1); reflexivity.
  - rewrite !M_bind_run, !call_gain_selector_run.
    destruct (sel a) as [s|e]; [|reflexivity].
    rewrite !M_bind_lift. destruct (advanced_index _ _ _); reflexivity.
Qed.

Lemma processable_no_error (self : SimTelEventSource) headers (ae : array_event) e :
  processable self ae ->
  (ae_type ae = "data" -> headers ≠ []) ->
  ~ loop_body_error self headers ae e.
Proof.
  intros (Hid & Hmc & Htels) Hheaders
    [(Hcal & Hnone & _)
    |[(Hdata & [(Hnone & _)|[(Hnone & _)|(Hnil & _)]])
     |(tel_id & te & Hin & Herr)]].
  - destruct (Hid Hcal) as [? ?]. congruence.
  - destruct (Hmc Hdata) as [[? ?] _]. congruence.
  - destruct (Hmc Hdata) as [_ [? ?]]. congruence.
  - exact (Hheaders Hdata Hnil).
  - destruct (Htels _ _ Hin)
      as (Hhdr & adc & ped & g & cal & w0 & w1 & Hadc & Hg & Hped & [tp Htp] & Hrun).
    destruct Herr
      as [(Hnot & _)
         |[(Hs & Hsum & _)
          |[([Hn|[Hn|Hn]] & _)
           |(adc' & ped' & g' & w0' & w1' & Hadc' & Hped' & Hg' & Hraise)]]].
    + done.
    + unfold adc_samples_of in Hadc. rewrite Hs, Hsum in Hadc.
      cbn [getitem] in Hadc. rewrite bind_Raise in Hadc. discriminate Hadc.
    + congruence.
    + congruence.
    + congruence.
    + rewrite Hadc in Hadc'. injection Hadc' as <-.
      rewrite Hped in Hped'. injection Hped' as <-.
      rewrite Hg in Hg'. injection Hg' as <-.
      pose proof (calibration_no_world adc ped g (gain_selector self) w0 w0') as Heq.
      rewrite Hrun, Hraise in Heq. discriminate Heq.
Qed.

Lemma process_array_event_returns (self : SimTelEventSource) data counter
    (ae : array_event) (w : world) :
  processable self ae ->
  (ae_type ae = "data" -> mc_run_headers w ≠ []) ->
  exists st w', process_array_event self data counter ae w = (Ok st, w').
Proof.
  intros Hp Hh.
  destruct (process_array_event self data counter ae w) as [[st|e] w'] eqn:Hrun;
    [eauto|].
  exfalso. pose proof (process_array_event_raise _ _ _ _ _ _ _ Hrun) as Herr.
  rewrite (reads_no_block_process_array_event _ _ _ _ _ _ _ Hrun) in Herr.
  exact (processable_no_error _ _ _ _ Hp Hh Herr).
Qed.

(** Once an array event has been read, the file object has an MC run
    header when it had one before, or when the file has one before its
    first array event and is read from there. *)
Lemma headers_after_read (self : SimTelEventSource) (w : world) :
  mc_run_headers w ≠ [] \/ file_pos w = 0 /\ f_mc_run_headers (file_ self) ≠ [] ->
  mc_run_headers (advance self w).2 ≠ [].
Proof.
  change (mc_run_headers (advance self w).2)
    with (mc_run_headers w ++ mc_run_headers_before (file_ self) (file_pos w)).
  intros Hh Hnil. apply app_eq_nil in Hnil as [Hn1 Hn2].
  destruct Hh as [?|[Hp Hf]]; [done|]. rewrite Hp in Hn2. done.
Qed.

(** The loop over array events that it can process returns: it yields
    or comes to the end of the file. *)
Lemma generator_loop_returns (self : SimTelEventSource) data
    (remaining : list array_event) : forall counter (w : world),
  (forall ae, ae ∈ remaining -> processable self ae) ->
  mc_run_headers w ≠ [] \/ file_pos w = 0 /\ f_mc_run_headers (file_ self) ≠ [] ->
  exists r w', generator_loop self data (map Ok remaining) counter w = (Ok r, w').
Proof.
  induction remaining as [|ae rest IH]; intros counter w Hall Hh.
  - eexists _, _. reflexivity.
  - cbn [map]. rewrite generator_loop_cons.
    pose proof (headers_after_read self w Hh) as Hread.
    destruct (process_array_event_returns self data counter ae (advance self w).2)
      as (st & w1 & Hproc).
    { apply Hall. apply list_elem_of_here. }
    { intros _. exact Hread. }
    rewrite Hproc. destruct st; [|eauto].
    apply IH.
    + intros ae' Hin. apply Hall. by apply list_elem_of_further.
    + left. rewrite (reads_no_block_process_array_event _ _ _ _ _ _ _ Hproc).
      exact Hread.
Qed.

(** A pull of the inner generator on a file that reading never fails
    on, as a run of the loop. *)
Lemma pull_clean (self : SimTelEventSource) (rs : list array_event)
    done remaining g (w : world) :
  f_array_events (file_ self) = map Ok rs ->
  rs = done ++ remaining ->
  file_pos w = length done ->
  match g with
  | Created => done = []
  | Suspended data counter => counter = length done /\ data < length (containers w)
  | Finished => False
  end ->
  exists data (wg : world),
    file_pos wg = file_pos w /\
    emitted wg = emitted w /\
    mc_run_headers wg = mc_run_headers w /\
    data < length (containers wg) /\
    __generator self g w
      = generator_loop self data (map Ok remaining) (length done) wg.
Proof.
  intros Hfile -> Hpos Hg.
  assert (Hres : forall data counter (wg : world), file_pos wg = length done ->
    resume self data counter wg
    = generator_loop self data (map Ok remaining) counter wg).
  { intros data counter wg Hwg. unfold resume. rewrite Hfile, Hwg.
    now rewrite drop_done_all. }
  destruct g as [|data counter|]; [| |done].
  - subst done. eexists _, _. split; [|split; [|split; [|split]]].
    5: { unfold __generator. rewrite M_bind_run.
         unfold new_container at 1. cbn iota beta. rewrite M_bind_modify.
         rewrite Hres by exact Hpos. reflexivity. }
    + reflexivity.
    + reflexivity.
    + reflexivity.
    + rewrite modify_length. cbn [containers]. rewrite length_app. simpl. lia.
  - destruct Hg as [-> Hvalid]. exists data, w. do 4 (split; [done|]).
    unfold __generator. now rewrite Hres.
Qed.

Lemma filter_imap_rejected allowed (f : nat -> nat) (skipped : list array_event) :
  Forall (fun r => passes_filter allowed r = false) skipped ->
  List.filter (fun p : nat * array_event => passes_filter allowed p.2)
    (imap (fun i => pair (f i)) skipped) = [].
Proof.
  intros Hsk. revert f. induction Hsk as [|x l Hx _ IH]; intros f; [done|].
  simpl. rewrite Hx. apply (IH (f ∘ S)).
Qed.

(** Draining the inner generator over a file of array events that the
    loop body can process: with more pulls than array events that pass
    the telescope filter the generator returns, and there is one event
    for each of these array events. *)
Lemma collect_clean (self : SimTelEventSource) (rs : list array_event) :
  f_array_events (file_ self) = map Ok rs ->
  (forall ae, ae ∈ rs -> processable self ae) ->
  forall fuel done remaining g (w : world),
    rs = done ++ remaining ->
    file_pos w = length done ->
    mc_run_headers w ≠ [] \/ file_pos w = 0 /\ f_mc_run_headers (file_ self) ≠ [] ->
    match g with
    | Created => done = []
    | Suspended data counter => counter = length done /\ data < length (containers w)
    | Finished => False
    end ->
    length (List.filter (passes_filter (allowed_tels (config self))) remaining) < fuel ->
    exists evs w',
      collect (__generator self) fuel g w = (Ok (evs, Finished), w') /\
      Forall2 (fun (d : EventAndMonDataContainer) (p : nat * array_event) =>
                 count d = p.1 /\
                 event_type d = ae_type p.2 /\
                 event_id_of p.2 = Ok (index_event_id (index d)))
        evs
        (List.filter (fun p => passes_filter (allowed_tels (config self)) p.2)
           (imap (fun i => pair (length done + i)) remaining)) /\
      file_pos w' = length rs /\
      exists calls, emitted w' = emitted w ++ calls /\
        Forall is_gain_selector_call calls.
Proof.
  intros Hfile Hable.
  induction fuel as [|fuel IH]; intros done remaining g w Hrs Hpos Hh Hg Hfuel; [lia|].
  destruct (pull_clean self rs done remaining g w Hfile Hrs Hpos Hg)
    as (data & wg & Hwg & Hemit & Hhg & Hvalid & Hpull).
  rewrite collect_S, Hpull.
  destruct (generator_loop_returns self data remaining (length done) wg)
    as ([[l|] g1] & w1 & Hloop).
  { intros ae Hin. apply Hable. rewrite Hrs. apply elem_of_app. by right. }
  { rewrite Hhg, Hwg. exact Hh. }
  - rewrite Hloop.
    destruct (quiet_generator_loop _ _ _ _ _ _ _ Hloop) as (c1 & Hc1 & Hf1).
    destruct (generator_loop_headers _ _ _ _ _ _ _ _ Hloop) as [Hlt Hheaders].
    destruct (generator_loop_yield _ _ _ _ _ _ _ _ Hloop)
      as (-> & Hlen & skipped & ae & rest & w0 & Hpend & Hsk & Hpass & ->
          & Hp1 & Hproc).
    apply map_Ok_split in Hpend as (rest' & -> & ->).
    destruct (IH (done ++ skipped ++ [ae]) rest'
                (Suspended data (S (length done + length skipped))) w1)
      as (evs1 & w2 & Hrest & Hall & Hend & c2 & Hc2 & Hf2).
    + rewrite Hrs, <- !app_assoc. reflexivity.
    + rewrite Hp1, Hwg, Hpos, !length_app. simpl. lia.
    + left. rewrite Hheaders. intros Hnil. apply app_eq_nil in Hnil as [Hn1 Hn2].
      rewrite Hhg in Hn1. destruct Hh as [?|[Hp0 Hf0]]; [done|].
      rewrite Hwg, Hp0 in Hn2, Hlt.
      destruct (file_pos w1 - 0) as [|n] eqn:Hn; [lia|].
      cbn [seq map concat mc_run_headers_before] in Hn2.
      apply app_eq_nil in Hn2 as [? _]. done.
    + split; [rewrite !length_app; simpl; lia|]. now rewrite Hlen.
    + rewrite List.filter_app, filter_rejected in Hfuel by done.
      simpl in Hfuel. rewrite Hpass in Hfuel. simpl in Hfuel. lia.
    + rewrite Hrest. eexists _, w2. split; [reflexivity|]. split; [|split].
      * rewrite imap_app, List.filter_app, filter_imap_rejected by done.
        simpl. rewrite Hpass. constructor.
        -- destruct (process_array_event_spec _ _ _ _ _ _ _ Hproc)
             as (_ & _ & Hlen0 & Hspec).
           destruct (lookup_lt_is_Some_2 (containers w1) data) as [d' Hd'];
             [now rewrite Hlen|].
           unfold loc in *. rewrite Hd'. simpl.
           destruct (Hspec _ Hd') as (ev & Hev & Hhdr & _).
           unfold event_header in Hhdr.
           do 4 (apply pair_equal_spec in Hhdr as [Hhdr _]).
           apply pair_equal_spec in Hhdr as [Hhdr Hidx].
           apply pair_equal_spec in Hhdr as [Htype Hcount].
           rewrite Hidx. simpl.
           split; [rewrite Hcount; lia|done].
        -- erewrite imap_ext; [exact Hall|].
           intros i x _. simpl. f_equal. rewrite !length_app. simpl. lia.
      * exact Hend.
      * exists (c1 ++ c2). split; [now rewrite Hc2, Hc1, Hemit, app_assoc|].
        now apply Forall_app.
  - rewrite Hloop.
    destruct (quiet_generator_loop _ _ _ _ _ _ _ Hloop) as (c1 & Hc1 & Hf1).
    destruct (generator_loop_return _ _ _ _ _ _ _ Hloop)
      as (-> & _ & Hp1 & skipped & Hpend & Hsk).
    apply map_Ok_inj in Hpend as ->.
    eexists _, w1. split; [reflexivity|].
    split; [rewrite filter_imap_rejected by done; constructor|].
    split; [rewrite Hp1, Hwg, Hpos, Hrs, length_app, length_map; reflexivity|].
    exists c1. now rewrite Hc1, Hemit.
Qed.

(** Where the inner generator raises nothing, and no seek to the start
    of the file is due, pulling from the generator is pulling from the
    inner one. *)
Lemma collect_outer (self : SimTelEventSource) :
  forall fuel g (w : world) evs gf w',
    match g with
    | Created => file_pos w <= start_pos self
    | _ => True
    end ->
    collect (__generator self) fuel g w = (Ok (evs, gf), w') ->
    collect (_generator self) fuel g w = (Ok (evs, gf), w').
Proof.
  induction fuel as [|fuel IH]; intros g w evs gf w' Hg Hrun; [exact Hrun|].
  rewrite collect_S in Hrun |- *.
  assert (_generator self g w
          = match __generator self g w with
            | (Raise e, w1) =>
                if is_EOFError e then (Ok (None, Finished), warned_truncated self w1)
                else (Raise e, w1)
            | ok => ok
            end) as ->.
  { unfold _generator. rewrite M_bind_run.
    assert (match g with
            | Created => rewind self
            | _ => mret ()
            end w = (Ok (), w)) as ->.
    { destruct g; [now apply no_backseek|reflexivity..]. }
    unfold try_except. destruct (__generator self g w) as [[r|e] w1]; [done|].
    destruct (is_EOFError e); reflexivity. }
  destruct (__generator self g w) as [[[[l|] g1]|e] w1] eqn:Hpull; [| |done].
  - destruct (collect (__generator self) fuel g1 w1) as [[[rest gf']|] w2] eqn:Hrest;
      [|done].
    rewrite (IH g1 w1 rest gf' w2); [exact Hrun| |exact Hrest].
    apply __generator_yield in Hpull as (? & ? & ? & _ & _ & _ & -> & _). exact I.
  - exact Hrun.
Qed.

(** X15: iterating, from the start of the file, a file that is read
    without an exception, whose array events the loop body can process
    and which has an MC run header before its first array event: with
    more pulls than array events that pass the telescope filter the
    generator returns, and there is one event for each of these array
    events, in the order of the file; its counter is the position of
    the array event in the file, the rejected array events counted; it
    has the type and the event id of the array event.  The file is
    read to its end, and no warning is emitted. *)
Theorem complete_iteration (self : SimTelEventSource) (rs : list array_event)
    fuel (w : world) :
  f_array_events (file_ self) = map Ok rs ->
  (forall ae, ae ∈ rs -> processable self ae) ->
  f_mc_run_headers (file_ self) ≠ [] ->
  file_pos w = 0 ->
  length (List.filter (passes_filter (allowed_tels (config self))) rs) < fuel ->
  exists evs w',
    collect (_generator self) fuel Created w = (Ok (evs, Finished), w') /\
    Forall2 (fun (d : EventAndMonDataContainer) (p : nat * array_event) =>
               count d = p.1 /\
               event_type d = ae_type p.2 /\
               event_id_of p.2 = Ok (index_event_id (index d)))
      evs
      (List.filter (fun p => passes_filter (allowed_tels (config self)) p.2)
         (imap pair rs)) /\
    file_pos w' = length rs /\
    exists calls, emitted w' = emitted w ++ calls /\
      Forall is_gain_selector_call calls.
Proof.
  intros Hfile Hable Hheader Hpos Hfuel.
  destruct (collect_clean self rs Hfile Hable fuel [] rs Created w
              eq_refl Hpos (or_intror (conj Hpos Hheader)) eq_refl Hfuel)
    as (evs & w' & Hrun & Hall & Hend & Hquiet).
  exists evs, w'. split.
  { apply collect_outer; [|exact Hrun]. simpl. lia. }
  split; [|done]. erewrite imap_ext; [exact Hall|]. done.
Qed.

(** The first pull after the file has been read from: the file is set
    back to its start and the warning is emitted. *)
Lemma rewind_backseek (self : SimTelEventSource) (w : world) :
  start_pos self < file_pos w ->
  _generator self Created w =
  _generator self Created
    (record_effect (Warn "Backseeking to start of file.") (seek 0 w).2).
Proof.
  intros Hread. unfold _generator. rewrite !M_bind_run.
  rewrite (no_backseek self (record_effect _ _)) by (simpl; lia).
  unfold rewind. rewrite M_bind_run. cbn [tell]. cbn iota beta.
  rewrite decide_True by done. reflexivity.
Qed.

(** X16: iterating once more.  When the file has been read beyond the
    position at which the event source started, a new iteration sets
    the file back to its start and emits the warning Backseeking to
    start of file; on a file that is read without an exception, whose
    array events the loop body can process and which has an MC run
    header before its first array event, with more pulls than array
    events that pass the telescope filter, the generator then returns
    with one event for each of these array events, with the counters,
    types and event ids of a first iteration, and no other warning. *)
Theorem second_iteration (self : SimTelEventSource) (rs : list array_event)
    fuel (w : world) :
  f_array_events (file_ self) = map Ok rs ->
  (forall ae, ae ∈ rs -> processable self ae) ->
  f_mc_run_headers (file_ self) ≠ [] ->
  start_pos self < file_pos w ->
  length (List.filter (passes_filter (allowed_tels (config self))) rs) < fuel ->
  exists evs w',
    collect (_generator self) fuel Created w = (Ok (evs, Finished), w') /\
    Forall2 (fun (d : EventAndMonDataContainer) (p : nat * array_event) =>
               count d = p.1 /\
               event_type d = ae_type p.2 /\
               event_id_of p.2 = Ok (index_event_id (index d)))
      evs
      (List.filter (fun p => passes_filter (allowed_tels (config self)) p.2)
         (imap pair rs)) /\
    file_pos w' = length rs /\
    exists calls,
      emitted w' = emitted w ++ Warn "Backseeking to start of file." :: calls /\
      Forall is_gain_selector_call calls.
Proof.
  intros Hfile Hable Hheader Hread Hfuel.
  destruct fuel as [|fuel]; [lia|].
  set (w0 := record_effect (Warn "Backseeking to start of file.") (seek 0 w).2).
  destruct (collect_clean self rs Hfile Hable (S fuel) [] rs Created w0
              eq_refl eq_refl (or_intror (conj eq_refl Hheader)) eq_refl Hfuel)
    as (evs & w' & Hrun & Hall & Hend & calls & Hc & Hf).
  exists evs, w'. split.
  { rewrite collect_S, rewind_backseek, <- collect_S by done.
    apply collect_outer; [|exact Hrun]. simpl. lia. }
  split; [|split; [done|]].
  - erewrite imap_ext; [exact Hall|]. done.
  - exists calls. split; [|done]. rewrite Hc. simpl. now rewrite <- app_assoc.
Qed.

(** ** Truncated files *)

(** C4 (amended): when the file breaks off after the complete array
    events [rs] (the next read raises [EOFError]), the loop body can
    process each of them, and the file has an MC run header before its
    first array event, then iterating the file from its start, with
    more pulls than array events that pass the telescope filter, gives
    the events that iterating a file with just these array events
    gives, the generator returns, nothing is raised, and the warning
    is logged and emitted; there is one event for each of the array
    events that pass the telescope filter, so one for each when no
    allow-list is configured. *)
Theorem truncated_stream_ends_gracefully (self : SimTelEventSource)
    (rs : list array_event) tail fuel (w : world) :
  f_array_events (file_ self) = map Ok rs ++ Raise EOFError :: tail ->
  (forall ae, ae ∈ rs -> processable self ae) ->
  f_mc_run_headers (file_ self) ≠ [] ->
  file_pos w = 0 ->
  length (List.filter (passes_filter (allowed_tels (config self))) rs) < fuel ->
  exists evs w',
    collect (__generator (with_events self (map Ok rs))) fuel Created w
      = (Ok (evs, Finished), w') /\
    collect (_generator self) fuel Created w
      = (Ok (evs, Finished), warned_truncated self w') /\
    emitted (warned_truncated self w')
      = emitted w' ++ [LogWarning (truncated_message self);
                       Warn (truncated_message self)] /\
    Forall2 (fun (d : EventAndMonDataContainer) (p : nat * array_event) =>
               count d = p.1 /\
               event_type d = ae_type p.2 /\
               event_id_of p.2 = Ok (index_event_id (index d)))
      evs
      (List.filter (fun p => passes_filter (allowed_tels (config self)) p.2)
         (imap pair rs)) /\
    length evs = length (List.filter (passes_filter (allowed_tels (config self))) rs) /\
    (allowed_tels (config self) = ∅ -> length evs = length rs).
Proof.
  intros Hfile Hable Hheader Hpos Hfuel.
  destruct (collect_clean (with_events self (map Ok rs)) rs eq_refl Hable fuel [] rs
              Created w eq_refl Hpos (or_intror (conj Hpos Hheader)) eq_refl Hfuel)
    as (evs & w' & Hclean & Hall & _).
  destruct (collect_truncated self rs tail Hfile fuel [] rs Created w evs w')
    as [Hrun Hlen]; try done; [simpl; lia|].
  exists evs, w'. split; [exact Hclean|]. split; [exact Hrun|].
  split; [simpl; now rewrite <- app_assoc|].
  split; [erewrite imap_ext; [exact Hall|]; done|].
  split; [exact Hlen|].
  intros Hnone. rewrite Hlen, Hnone. f_equal.
  clear. induction rs as [|ae rs IH]; simpl; [done|]. now rewrite IH.
Qed.

(** ** The constructor *)

Lemma build_camera_containers (cam_settings : camera_settings)
    (pixel_settings : pixel_settings) (telescope : GuessingResult) (w : world) r w' :
  build_camera cam_settings pixel_settings telescope w = (r, w') ->
  containers w' = containers w.
Proof.
  unfold build_camera. rewrite M_bind_lift.
  destruct (cs_pixel_shape cam_settings) as [|pixel_shape rest];
    [now intros [= _ <-]|].
  rewrite M_bind_run. destruct (simtel_shape_to_type pixel_shape); simpl;
    now intros [= _ <-].
Qed.

Lemma prepare_telescopes_containers choice (header : file_header)
    (tds : list (Z * telescope_description)) : forall acc (w : world) r w',
  prepare_telescopes choice header acc tds w = (r, w') ->
  containers w' = containers w.
Proof.
  induction tds as [|[t td] rest IH]; intros acc w r w'; [now intros [= _ <-]|].
  simpl. rewrite M_bind_run.
  destruct (prepare_telescope choice header acc t td w) as [r1 w1] eqn:Hhead.
  assert (containers w1 = containers w) as Hw1.
  { revert Hhead. unfold prepare_telescope. rewrite M_bind_lift.
    destruct (chosen_focal_length _ _) as [fl|]; [|now intros [= _ <-]].
    assert (forall (acc1 : Z -> list num ->
                      gmap Z TelescopeDescription * gmap Z (Quantity (list num)))
                   (wa : world),
      (tel_idx ← lift (match index_of t (h_tel_id header) with
                       | Some i => Ok i
                       | None => Raise IndexError
                       end);
       pos ← lift (match h_tel_pos header !! tel_idx with
                   | Some pos => Ok pos
                   | None => Raise IndexError
                   end);
       mret (acc1 t pos)) wa = (r1, w1) -> w1 = wa) as Hpos.
    { intros acc1 wa. rewrite M_bind_lift.
      destruct (index_of t (h_tel_id header)) as [i|]; [|now intros [= _ <-]].
      rewrite M_bind_lift. destruct (h_tel_pos header !! i); now intros [= _ <-]. }
    rewrite M_bind_run. unfold cache_get at 1.
    destruct (camera_cache w !! _) as [camera|].
    - rewrite M_bind_ret. intros Hrun.
      now rewrite (Hpos (fun t pos => (_, <[t := pos *u u_m]> acc.2)) _ Hrun).
    - rewrite M_bind_run.
      destruct (_ ≫= _) as [[camera|e1] wb] eqn:Hbuild at 1.
      + intros Hrun.
        rewrite (Hpos (fun t pos => (_, <[t := pos *u u_m]> acc.2)) _ Hrun).
        rewrite M_bind_run in Hbuild.
        destruct (build_camera _ _ _ w) as [[c|] wc] eqn:Hcam; [|done].
        apply build_camera_containers in Hcam. rewrite M_bind_run in Hbuild.
        injection Hbuild as _ <-. exact Hcam.
      + intros [= _ <-]. rewrite M_bind_run in Hbuild.
        destruct (build_camera _ _ _ w) as [[c|] wc] eqn:Hcam.
        * rewrite M_bind_run in Hbuild. done.
        * apply build_camera_containers in Hcam. now injection Hbuild as _ <-. }
  destruct r1 as [acc1|e1].
  - intros Hrun. rewrite (IH _ _ _ _ Hrun). exact Hw1.
  - now intros [= _ <-].
Qed.

(** X17: when the constructor returns an event source, the source has
    the configuration, the file that was opened with it, the gain
    selector that was given and [ThresholdGainSelector] without one;
    with [back_seekable] the file is no stream.  Its start position is
    the position of the file, so that the first iteration does not go
    back in the file and emits no warning for it.  The subarray
    description was built with an empty camera cache: the cameras of
    its telescopes are new objects, none of them a camera that existed
    before. *)
Theorem init_returns cfg selector (w : world) (self : SimTelEventSource) w' :
  __init__ cfg selector w = (Ok self, w') ->
  config self = cfg /\
  open_file cfg = Ok (file_ self) /\
  (back_seekable cfg = true -> is_stream (file_ self) = false) /\
  gain_selector self = default ThresholdGainSelector selector /\
  start_pos self = file_pos w' /\
  rewind self w' = (Ok (), w') /\
  containers w' = containers w /\
  (NoDup (map fst (f_telescope_descriptions (file_ self))) ->
   forall tel_id t,
     sub_tel_descriptions (_subarray_info self) !! tel_id = Some t ->
     length (cameras w) <= tel_camera t < length (cameras w')).
Proof.
  unfold __init__. rewrite M_bind_run. cbn [clear_camera_cache]. cbn iota beta.
  rewrite M_bind_lift. destruct (open_file cfg) as [file|] eqn:Hopen; [|done].
  rewrite M_bind_run. cbn [seek]. cbn iota beta.
  destruct (back_seekable cfg && is_stream file) eqn:Hback; [done|].
  rewrite M_bind_run.
  match goal with
  | |- context [prepare_subarray_info ?c ?tds ?h ?wx] =>
      set (w0 := wx); destruct (prepare_subarray_info c tds h w0) as [[sub|] w1] eqn:Hsub
  end; [|done].
  rewrite M_bind_run. cbn [tell]. cbn iota beta. intros [= <- <-]. cbn [config file_
    _subarray_info start_pos gain_selector].
  split; [done|]. split; [done|]. split.
  { intros Hb. rewrite Hb in Hback. exact Hback. }
  split; [now destruct selector|]. split; [done|].
  split; [apply no_backseek; simpl; lia|].
  unfold prepare_subarray_info in Hsub. rewrite M_bind_run in Hsub.
  destruct (prepare_telescopes _ _ _ _ w0) as [[acc|] w2] eqn:Hloop; [|done].
  injection Hsub as <- <-. cbn [sub_tel_descriptions].
  split.
  { change (containers w) with (containers w0).
    exact (prepare_telescopes_containers _ _ _ _ _ _ _ Hloop). }
  intros Hnodup tel_id t Ht.
  destruct (prepare_telescopes_Ok _ _ _ _ _ _ _ Hloop Hnodup)
    as (_ & Hin & Hout & new & Hnew & _ & Hcache).
  destruct (decide (tel_id ∈ map fst (f_telescope_descriptions file))) as [Hmem|Hmem].
  - apply list_elem_of_fmap in Hmem as ([t' td] & -> & Hmem).
    destruct (Hin _ _ Hmem) as (name & t0 & _ & Ht0 & Hc).
    cbn [fst] in Ht. rewrite Ht0 in Ht. injection Ht as ->.
    destruct (Hcache _ _ Hc) as [Hold|(c & Hc' & Hle & _)]; [done|].
    apply lookup_lt_Some in Hc'. rewrite Hnew, length_app.
    change (cameras w0) with (cameras w) in *. lia.
  - rewrite (Hout _ Hmem) in Ht. done.
Qed.


End MoreProperties.

(** * The further properties on the example files *)

Lemma example_descriptions_ids (effective : option float) :
  NoDup (map fst (example_descriptions effective)).
Proof. change (NoDup [1%Z; 2%Z; 3%Z]). compute_done. Defined.

(** The run does not raise: its result, evaluated, is [Ok]. *)
Ltac run_returns H :=
  exfalso;
  let Hok := fresh "Hok" in
  pose proof (f_equal (fun x => match x.1 with
                                | Ok _ => true
                                | Raise _ => false
                                end) H) as Hok;
  vm_compute in Hok; discriminate Hok.


(** X2 on the gzip example file, with its telescopes 1, 2 and 3. *)
Lemma prepare_subarray_info_keys_witness :
  exists sub w',
    prepare_subarray_info nominal (example_descriptions (Some 2%float))
      example_header (@empty_world float ()) = (Ok sub, w') /\
    sub_name sub = "MonteCarloArray" /\
    dom (sub_tel_descriptions sub) = list_to_set [1; 2; 3]%Z /\
    dom (sub_tel_positions sub) = list_to_set [1; 2; 3]%Z.
Proof.
  destruct (prepare_subarray_info nominal (example_descriptions (Some 2%float))
              example_header (@empty_world float ())) as [[sub|e] w'] eqn:Hrun;
    [|run_returns Hrun].
  exists sub, w'. split; [reflexivity|].
  exact (prepare_subarray_info_keys nominal _ _ _ _ _ Hrun).
Defined.

(** X3 on the gzip example file: the position of telescope 2 is the
    second entry of the positions of the header. *)
Lemma prepare_subarray_info_positions_witness :
  exists sub w',
    prepare_subarray_info nominal (example_descriptions (Some 2%float))
      example_header (@empty_world float ()) = (Ok sub, w') /\
    sub_tel_positions sub !! 2%Z
      = Some ([100%float; 0%float; 16%float] *u u_m).
Proof.
  destruct (prepare_subarray_info nominal (example_descriptions (Some 2%float))
              example_header (@empty_world float ())) as [[sub|e] w'] eqn:Hrun;
    [|run_returns Hrun].
  exists sub, w'. split; [reflexivity|].
  destruct (prepare_subarray_info_positions nominal _ _ _ _ _ 2%Z Hrun)
    as (tel_idx & pos & Hidx & _ & Hpos & ->).
  { apply list_elem_of_further, list_elem_of_here. }
  destruct tel_idx as [|[|[|tel_idx]]]; vm_compute in Hidx; try discriminate Hidx.
  vm_compute in Hpos. injection Hpos as <-. reflexivity.
Defined.

(** X4 on the gzip example file: telescope 3, of 2048 pixels, is not
    recognised and has the name of the unknown telescope, with the
    nominal focal length of 28 m. *)
Lemma prepare_subarray_info_optics_witness :
  exists sub w' t,
    prepare_subarray_info nominal (example_descriptions (Some 2%float))
      example_header (@empty_world float ()) = (Ok sub, w') /\
    sub_tel_descriptions sub !! 3%Z = Some t /\
    tel_name t = "UNKNOWN" /\
    od_equivalent_focal_length (tel_optics t) = 28%float *u u_m /\
    od_mirror_area (tel_optics t) = 386%float *u u_m2 /\
    od_num_mirror_tiles (tel_optics t) = 198%Z.
Proof.
  destruct (prepare_subarray_info nominal (example_descriptions (Some 2%float))
              example_header (@empty_world float ())) as [[sub|e] w'] eqn:Hrun;
    [|run_returns Hrun].
  destruct (prepare_subarray_info_optics nominal _ _ _ _ _ 3%Z
              (example_geometry 2048 (Some 2%float)) Hrun
              (example_descriptions_ids _))
    as (t & value & telescope & Ht & -> & Htel & Hname & _ & _ & _ & Hf & Ha & Hn).
  { do 2 apply list_elem_of_further. apply list_elem_of_here. }
  exists sub, w', t. split; [reflexivity|]. split; [exact Ht|].
  vm_compute in Htel. subst telescope.
  split; [exact Hname|]. split; [exact Hf|]. split; [exact Ha|exact Hn].
Defined.

(** X5 on a file whose only telescope, 4, is not in the header. *)
Lemma prepare_subarray_info_errors_witness :
  exists e w' tel_id td,
    prepare_subarray_info nominal [(4%Z, example_geometry 5 None)] example_header
      (@empty_world float ()) = (Raise e, w') /\
    (tel_id, td) ∈ [(4%Z, example_geometry 5 None)] /\
    (e = RuntimeError /\ nominal = effective /\
       cs_effective_focal_length (td_camera_settings td) = None \/
     e = IndexError /\
       (cs_pixel_shape (td_camera_settings td) = [] \/
        tel_id ∉ h_tel_id example_header \/
        exists tel_idx, h_tel_id example_header !! tel_idx = Some tel_id /\
          h_tel_pos example_header !! tel_idx = None)).
Proof.
  destruct (prepare_subarray_info nominal [(4%Z, example_geometry 5 None)]
              example_header (@empty_world float ())) as [[sub|e] w'] eqn:Hrun.
  { exfalso.
    pose proof (f_equal (fun x => match x.1 with
                                  | Ok _ => true
                                  | Raise _ => false
                                  end) Hrun) as Hok.
    vm_compute in Hok. discriminate Hok. }
  destruct (prepare_subarray_info_errors nominal _ _ _ _ _ Hrun)
    as (tel_id & td & Hin & Hcause).
  exists e, w', tel_id, td. split; [reflexivity|]. split; [exact Hin|exact Hcause].
Defined.

(** X6 on the gzip example file, with the effective focal lengths. *)
Lemma prepare_subarray_info_returns_witness :
  exists sub w',
    prepare_subarray_info effective (example_descriptions (Some 2%float))
      example_header (@empty_world float ()) = (Ok sub, w').
Proof.
  apply prepare_subarray_info_returns.
  - simpl. lia.
  - intros tel_id td Hin.
    repeat (apply elem_of_cons in Hin as [Hin|Hin];
            [injection Hin as -> ->; split; [discriminate|];
             split; [repeat first [apply list_elem_of_here
                                  |apply list_elem_of_further]
                    |intros _; eexists; reflexivity]|]).
    by apply elem_of_nil in Hin.
Defined.

(** X7 on the five array events, read with the allow-list {3, 5}. *)
Lemma events_carry_meta_witness :
  exists evs g' w',
    collect (_generator (example_source {[3; 5]}%Z [()]
                           (map Ok (example_events None))))
      6 Created empty_world = (Ok (evs, g'), w') /\
    Forall (fun d : @EventAndMonDataContainer float () =>
              meta d = {| meta_origin := Some "hessio";
                          meta_input_url := Some "gamma.simtel.gz";
                          meta_max_events := Some None |}) evs.
Proof.
  set (self := example_source {[3; 5]}%Z [()] (map Ok (example_events None))).
  destruct (collect (_generator self) 6 Created empty_world)
    as [[[evs g']|e] w'] eqn:Hrun; [|run_returns Hrun].
  exists evs, g', w'. split; [reflexivity|].
  exact (events_carry_meta self 6 empty_world evs g' w' Hrun).
Defined.

Section MergedFile.

Local Existing Instance example_named_collaborators.

(** X8 on a file merged from two runs: the first pull yields the first
    array event with the MC run header of the first run, the second
    pull the second array event with the header of the second run,
    which stands between the two array events. *)
Lemma mc_information_for_data_events_witness :
  let self := example_merged_source in
  let w1 := (_generator self Created empty_world).2 in
  let w2 := (_generator self (Suspended 0 1) w1).2 in
  exists d1 d2,
    _generator self Created empty_world = (Ok (Some 0, Suspended 0 1), w1) /\
    containers w1 !! 0 = Some d1 /\
    mch_run_header (mcheader d1) = Some "run 1" /\
    _generator self (Suspended 0 1) w1 = (Ok (Some 0, Suspended 0 2), w2) /\
    containers w2 !! 0 = Some d2 /\
    mch_run_header (mcheader d2) = Some "run 2" /\
    mc_run_headers w2 = ["run 1"; "run 2"].
Proof.
  intros self w1 w2.
  assert (Hrun1 : _generator self Created empty_world
                  = (Ok (Some 0, Suspended 0 1), w1)) by (vm_compute; reflexivity).
  assert (Hrun2 : _generator self (Suspended 0 1) w1
                  = (Ok (Some 0, Suspended 0 2), w2)) by (vm_compute; reflexivity).
  destruct (containers w1 !! 0) as [d1|] eqn:Hd1; [|vm_compute in Hd1; discriminate].
  destruct (containers w2 !! 0) as [d2|] eqn:Hd2; [|vm_compute in Hd2; discriminate].
  exists d1, d2. split; [exact Hrun1|]. split; [reflexivity|].
  assert (forall g (w w' : world) g' d',
    _generator self g w = (Ok (Some 0, g'), w') ->
    containers w' !! 0 = Some d' ->
    (forall ae, f_array_events (file_ self) !! (file_pos w' - 1) = Some (Ok ae) ->
                ae_type ae = "data") ->
    mch_run_header (mcheader d') = last (mc_run_headers w')) as Hheader.
  { intros g w w' g' d' Hrun Hd' Htype.
    destruct (mc_information_for_data_events self g w 0 g' w' d' Hrun Hd')
      as (ae & Hat & _ & _ & _ & Hdata & _).
    destruct (Hdata (Htype ae Hat)) as (ev & sh & h & _ & _ & Hlast & Hrest).
    rewrite Hlast. apply Hrest. }
  split.
  { rewrite (Hheader Created empty_world w1 (Suspended 0 1) d1 Hrun1 Hd1);
      [vm_compute; reflexivity|].
    intros ae Hat. vm_compute in Hat. injection Hat as <-. reflexivity. }
  split; [exact Hrun2|]. split; [reflexivity|]. split.
  { rewrite (Hheader (Suspended 0 1) w1 w2 (Suspended 0 2) d2 Hrun2 Hd2);
      [vm_compute; reflexivity|].
    intros ae Hat. vm_compute in Hat. injection Hat as <-. reflexivity. }
  vm_compute. reflexivity.
Defined.

End MergedFile.






(** X14 on an array event with data of telescope 2, which is not in
    the header of the example file. *)
Lemma iteration_errors_witness :
  let ae := example_event "data" 100 [2]%Z [2]%Z None in
  let self := example_source ∅ [()] [Ok ae] in
  exists e w',
    _generator self Created empty_world = (Raise e, w') /\
    e ≠ EOFError /\
    (Raise e ∈ f_array_events (file_ self) \/
     exists ae, Ok ae ∈ f_array_events (file_ self) /\
       loop_body_error self (mc_run_headers w') ae e).
Proof.
  intros ae self.
  destruct (_generator self Created empty_world) as [[r|e] w'] eqn:Hrun.
  { exfalso.
    pose proof (f_equal (fun x => match x.1 with
                                  | Ok _ => true
                                  | Raise _ => false
                                  end) Hrun) as Hok.
    vm_compute in Hok. discriminate Hok. }
  exists e, w'. split; [reflexivity|].
  exact (iteration_errors self Created empty_world e w' Hrun).
Defined.

(** The array events of the examples are array events that the loop
    body can process, when their telescopes are in the header of the
    example file. *)
Lemma lookup_list_to_map_const {V : Type} (v : V) (tels : list Z) (tel_id : Z) :
  tel_id ∈ tels ->
  (list_to_map (map (fun t => (t, v)) tels) : gmap Z V) !! tel_id = Some v.
Proof.
  induction tels as [|t tels IH]; intros Hin; [by apply elem_of_nil in Hin|].
  cbn [map list_to_map foldr]. destruct (decide (t = tel_id)) as [->|Hne].
  - apply lookup_insert_eq.
  - rewrite lookup_insert_ne by done. apply IH.
    apply elem_of_cons in Hin as [Heq|Hin]; [congruence|exact Hin].
Defined.

Lemma example_event_processable (allowed : gset Z) (events : list (result array_event))
    (type : string) (id : Z) (tels triggered : list Z) (cor : option float) :
  Forall (fun t => t ∈ [1; 3; 5; 7; 9]%Z) tels ->
  processable (example_source allowed [()] events)
    (example_event type id tels triggered cor).
Proof.
  intros Htels. split; [intros _; eexists; reflexivity|].
  split; [intros _; split; eexists; reflexivity|].
  intros tel_id te Hin. cbn [ae_telescope_events example_event] in Hin.
  apply list_elem_of_fmap in Hin as (t & [= -> ->] & Hin).
  split; [exact (proj1 (Forall_forall _ _) Htels t Hin)|].
  eexists _, _, _, _, empty_world, _.
  split; [reflexivity|].
  split; [exact (lookup_list_to_map_const _ _ _ Hin)|].
  split; [exact (lookup_list_to_map_const _ _ _ Hin)|].
  split; [eexists; exact (lookup_list_to_map_const _ _ _ Hin)|].
  vm_compute. reflexivity.
Defined.

(** The array events of the list of [Hin] are example events. *)
Ltac example_events_processable Hin :=
  repeat (apply elem_of_cons in Hin as [->|Hin];
          [apply example_event_processable;
           repeat (constructor;
                   [repeat first [apply list_elem_of_here
                                 |apply list_elem_of_further]|]);
           constructor|]);
  by apply elem_of_nil in Hin.

(** X15 on three array events read with the allow-list {3, 5}: the
    second, of the telescopes 1 and 7, is rejected. *)
Lemma complete_iteration_witness :
  let rs := [example_event "data" 100 [1; 3; 5; 7]%Z [1; 3; 5; 7]%Z None;
             example_event "data" 101 [1; 7]%Z [1; 7]%Z None;
             example_event "calibration" 102 [3]%Z [3]%Z None] in
  let self := example_source {[3; 5]}%Z [()] (map Ok rs) in
  exists evs w',
    collect (_generator self) 3 Created empty_world = (Ok (evs, Finished), w') /\
    map count evs = [0; 2] /\
    Forall2 (fun (d : EventAndMonDataContainer) (p : nat * array_event) =>
               count d = p.1 /\
               event_type d = ae_type p.2 /\
               event_id_of p.2 = Ok (index_event_id (index d)))
      evs
      (List.filter (fun p => passes_filter (allowed_tels (config self)) p.2)
         (imap pair rs)) /\
    file_pos w' = 3 /\
    exists calls, emitted w' = calls /\ Forall is_gain_selector_call calls.
Proof.
  intros rs self.
  destruct (complete_iteration self rs 3 empty_world) as (evs & w' & Hrun & Hrest).
  - reflexivity.
  - intros ae Hin. unfold rs in Hin. example_events_processable Hin.
  - discriminate.
  - reflexivity.
  - vm_compute. lia.
  - exists evs, w'. split; [exact Hrun|]. split; [|exact Hrest].
    pose proof (f_equal (fun x => match x.1 with
                                  | Ok (evs, _) => map count evs
                                  | Raise _ => []
                                  end) Hrun) as Hcount.
    vm_compute in Hcount. symmetry. exact Hcount.
Defined.

(** X16 on the same file, iterated a second time. *)
Lemma second_iteration_witness :
  let rs := [example_event "data" 100 [1; 3; 5; 7]%Z [1; 3; 5; 7]%Z None;
             example_event "data" 101 [1; 7]%Z [1; 7]%Z None;
             example_event "calibration" 102 [3]%Z [3]%Z None] in
  let self := example_source {[3; 5]}%Z [()] (map Ok rs) in
  let w := (collect (_generator self) 3 Created empty_world).2 in
  exists evs w',
    file_pos w = 3 /\
    collect (_generator self) 3 Created w = (Ok (evs, Finished), w') /\
    map count evs = [0; 2] /\
    file_pos w' = 3 /\
    exists calls,
      emitted w' = emitted w ++ Warn "Backseeking to start of file." :: calls /\
      Forall is_gain_selector_call calls.
Proof.
  intros rs self.
  assert (Hable : forall ae, ae ∈ rs -> processable self ae).
  { intros ae Hin. unfold rs in Hin. example_events_processable Hin. }
  intros w.
  assert (Hpos : file_pos w = 3) by (vm_compute; reflexivity).
  destruct (second_iteration self rs 3 w) as (evs & w' & Hrun & _ & Hend & Hcalls).
  - reflexivity.
  - exact Hable.
  - discriminate.
  - rewrite Hpos. simpl. lia.
  - vm_compute. lia.
  - exists evs, w'. split; [exact Hpos|]. split; [exact Hrun|].
    split; [|split; [exact Hend|exact Hcalls]].
    pose proof (f_equal (fun x => match x.1 with
                                  | Ok (evs, _) => map count evs
                                  | Raise _ => []
                                  end) Hrun) as Hcount.
    vm_compute in Hcount. symmetry. exact Hcount.
Defined.

(** C4 (amended) on a file that breaks off after three of the five
    array events, without allow-list: iterating gives three events, the
    generator returns, and the warning is logged and emitted. *)
Lemma truncated_stream_ends_gracefully_witness :
  let rs := take 3 (example_events None) in
  let self := example_source ∅ [()] (map Ok rs ++ [Raise EOFError]) in
  f_array_events (file_ self) = map Ok rs ++ [Raise EOFError] /\
  exists evs w',
    collect (__generator (with_events self (map Ok rs))) 4 Created empty_world
      = (Ok (evs, Finished), w') /\
    collect (_generator self) 4 Created empty_world
      = (Ok (evs, Finished), warned_truncated self w') /\
    length evs = 3 /\
    map (fun d => index_event_id (index d)) evs = [100; 101; 102]%Z /\
    emitted (warned_truncated self w')
      = [LogWarning (truncated_message self); Warn (truncated_message self)].
Proof.
  intros rs self. split; [reflexivity|].
  destruct (truncated_stream_ends_gracefully self rs [] 4 empty_world)
    as (evs & w' & Hclean & Hrun & Hemit & _ & Hlen & Hall).
  - reflexivity.
  - intros ae Hin.
    change rs with [example_event "data" 100 [1; 3; 5; 7]%Z [1; 3; 5; 7]%Z None;
                    example_event "data" 101 [1; 3; 5; 7]%Z [1; 3; 5; 7]%Z None;
                    example_event "data" 102 [1; 3; 5; 7]%Z [1; 3; 5; 7]%Z None]
      in Hin.
    example_events_processable Hin.
  - discriminate.
  - reflexivity.
  - vm_compute. lia.
  - exists evs, w'. split; [exact Hclean|]. split; [exact Hrun|].
    split; [rewrite (Hall eq_refl); reflexivity|].
    split.
    + pose proof (f_equal (fun x => match x.1 with
                                    | Ok (evs, _) =>
                                        map (fun d => index_event_id (index d)) evs
                                    | Raise _ => []
                                    end) Hclean) as Hids.
      vm_compute in Hids. symmetry. exact Hids.
    + rewrite Hemit.
      assert (emitted w' = []) as ->; [|reflexivity].
      change w' with (Ok (evs, Finished), w').2. rewrite <- Hclean.
      vm_compute. reflexivity.
Defined.

(** X17 on the gzip example file, required to be seekable. *)
Lemma init_returns_witness :
  let cfg := {| input_url := "gamma.simtel.gz"; max_events := None;
                allowed_tels := ∅; skip_calibration_events := true;
                back_seekable := true; focal_length_choice := nominal |} in
  exists self w',
    __init__ cfg None (@empty_world float ()) = (Ok self, w') /\
    config self = cfg /\
    open_file cfg = Ok (file_ self) /\
    is_stream (file_ self) = false /\
    gain_selector self = ThresholdGainSelector /\
    start_pos self = file_pos w' /\
    rewind self w' = (Ok (), w') /\
    forall tel_id t,
      sub_tel_descriptions (_subarray_info self) !! tel_id = Some t ->
      tel_camera t < length (cameras w').
Proof.
  intros cfg.
  destruct (__init__ cfg None (@empty_world float ())) as [[self|e] w'] eqn:Hrun;
    [|run_returns Hrun].
  destruct (init_returns cfg None empty_world self w' Hrun)
    as (Hcfg & Hopen & Hseek & Hsel & Hstart & Hrewind & _ & Hcams).
  exists self, w'. split; [reflexivity|]. split; [exact Hcfg|].
  split; [exact Hopen|]. split; [exact (Hseek eq_refl)|]. split; [exact Hsel|].
  split; [exact Hstart|]. split; [exact Hrewind|].
  intros tel_id t Ht. apply (Hcams) in Ht; [lia|].
  pose proof (f_equal (fun x => match x with
                                | Ok f => map fst (f_telescope_descriptions f)
                                | Raise _ => []
                                end) Hopen) as Hids.
  simpl in Hids. rewrite <- Hids. vm_compute. compute_done.
Defined.


(** * Properties of the FITS monitoring source *)

Section FitsProperties.

Import fitsdataformat fitsmonitoringsource.

Context {Rows AstropyError : Type} {astropy : Astropy Rows AstropyError}.
Context {file_system : FileSystem}.

Local Abbreviation state := (state Rows).
Local Abbreviation Table := (Table Rows).
Local Abbreviation outcome := (@outcome AstropyError).
Local Abbreviation get_table := (@get_table Rows AstropyError).

(** A header data unit that the loop of [_process_single_file] skips. *)
Local Abbreviation skipped hdu := (forall source_name, ~ usable hdu source_name).

Lemma logger_run (r : log_record) (s : state) :
  exists s', logger (AstropyError := AstropyError) r s = (Returns (), s') /\
    _monitoring_sources s' = _monitoring_sources s /\
    provenance s' = provenance s /\ open_files s' = open_files s.
Proof. eexists. split; [reflexivity|]. done. Qed.

Lemma _detect_monitoring_source_run (hdu : HDU) (s : state) :
  exists source_name s',
    _detect_monitoring_source (AstropyError := AstropyError) hdu s
      = (Returns source_name, s') /\
    _monitoring_sources s' = _monitoring_sources s /\
    provenance s' = provenance s /\ open_files s' = open_files s /\
    (forall name, source_name = Some name <->
       hdu_header hdu !! SOURCE = Some (Str name) /\
       is_Some (dict_get name MONITORING_SOURCES)).
Proof.
  unfold _detect_monitoring_source.
  destruct (hdu_header hdu !! SOURCE) as [[name|z|b|f]|] eqn:Hsource.
  1: destruct (dict_get name MONITORING_SOURCES) eqn:Hreg.
  all: do 2 eexists; (split; [reflexivity|]); do 3 (split; [done|]).
  all: intros name'; split; [intros Heq|intros [Heq [? Hs]]].
  all: try discriminate Heq.
  - injection Heq as <-. done.
  - congruence.
  - injection Heq as <-. congruence.
Qed.

Lemma _validate_table_structure_run (hdu : HDU) (source_name : string) (s : state) :
  exists valid s',
    _validate_table_structure (AstropyError := AstropyError) hdu source_name s
      = (Returns valid, s') /\
    _monitoring_sources s' = _monitoring_sources s /\
    provenance s' = provenance s /\ open_files s' = open_files s /\
    (valid = true <-> has_required_columns hdu source_name).
Proof.
  unfold _validate_table_structure, has_required_columns.
  destruct (dict_get source_name MONITORING_SOURCES) as [ms|] eqn:Hreg.
  - case_decide as Hmissing.
    + do 2 eexists; (split; [reflexivity|]); do 3 (split; [done|]).
      split; [intros _|done].
      exists ms. split; [done|]. intros column Hcolumn.
      apply (elem_of_list_to_set (C := gset string)).
      destruct (decide (column ∈ (list_to_set (hdu_columns_names hdu) : gset string)))
        as [Hin|Hout]; [done|].
      assert (column ∈ (∅ : gset string)) as Hempty; [|by apply not_elem_of_empty in Hempty].
      rewrite <- Hmissing. apply elem_of_difference. split; [|done].
      by apply elem_of_list_to_set.
    + do 2 eexists; (split; [reflexivity|]); do 3 (split; [done|]).
      split; [done|]. intros (ms' & [= <-] & Hall). exfalso. apply Hmissing.
      apply leibniz_equiv. apply elem_of_equiv_empty. intros column Hcolumn.
      apply elem_of_difference in Hcolumn as [Hreq Hnot].
      apply Hnot. apply elem_of_list_to_set. apply Hall.
      by apply elem_of_list_to_set in Hreq.
  - do 2 eexists; (split; [reflexivity|]); do 3 (split; [done|]).
    split; [done|]. by intros (ms & [=] & _).
Qed.

Lemma usable_inj (hdu : HDU) (name name' : string) :
  usable hdu name -> usable hdu name' -> name = name'.
Proof. intros (_ & Hn & _) (_ & Hn' & _). congruence. Qed.

Lemma has_required_columns_registered (hdu : HDU) (name : string) :
  has_required_columns hdu name -> is_Some (dict_get name MONITORING_SOURCES).
Proof. intros (ms & -> & _). by eexists. Qed.

(** The loop over the header data units: either every unit is skipped
    and nothing is stored, or the first usable unit is read, and its
    table stored unless reading fails. *)
Lemma process_hdus_run (file : string) (hdul : list HDU) (s : state)
    (r : outcome ()) (s' : state) :
  process_hdus file hdul s = (r, s') ->
  provenance s' = provenance s /\ open_files s' = open_files s /\
  ((r = Returns () /\ _monitoring_sources s' = _monitoring_sources s /\
    Forall (fun hdu => skipped hdu) hdul) \/
   (exists pre hdu post source_name,
      hdul = pre ++ hdu :: post /\
      Forall (fun hdu => skipped hdu) pre /\
      usable hdu source_name /\
      match Table_read hdu with
      | inr table =>
          r = Returns () /\
          _monitoring_sources s'
            = <[source_name := stored_table hdu table]> (_monitoring_sources s)
      | inl e =>
          r = Raises (Raised e) /\ _monitoring_sources s' = _monitoring_sources s
      end)).
Proof.
  revert s. induction hdul as [|hdu rest IH]; intros s Hrun.
  { injection Hrun as <- <-. do 2 (split; [done|]). left. by repeat split. }
  assert (forall s0, _monitoring_sources s0 = _monitoring_sources s ->
            provenance s0 = provenance s -> open_files s0 = open_files s ->
            skipped hdu -> process_hdus file rest s0 = (r, s') ->
            provenance s' = provenance s /\ open_files s' = open_files s /\
            ((r = Returns () /\ _monitoring_sources s' = _monitoring_sources s /\
              Forall (fun hdu => skipped hdu) (hdu :: rest)) \/
             (exists pre hdu0 post source_name,
                hdu :: rest = pre ++ hdu0 :: post /\
                Forall (fun hdu => skipped hdu) pre /\
                usable hdu0 source_name /\
                match Table_read hdu0 with
                | inr table =>
                    r = Returns () /\
                    _monitoring_sources s'
                      = <[source_name := stored_table hdu0 table]> (_monitoring_sources s)
                | inl e =>
                    r = Raises (Raised e) /\
                    _monitoring_sources s' = _monitoring_sources s
                end))) as Hskip.
  { intros s0 Hs0 Hp0 Ho0 Hskipped Hrest.
    destruct (IH _ Hrest) as (Hp & Ho & Hcases).
    split; [congruence|]. split; [congruence|].
    destruct Hcases as [(-> & Hs & Hall)|(pre & hdu0 & post & name & -> & Hpre & Huse & Hread)].
    - left. split; [done|]. split; [congruence|]. by constructor.
    - right. exists (hdu :: pre), hdu0, post, name.
      split; [done|]. split; [by constructor|]. split; [done|].
      rewrite <- Hs0. exact Hread. }
  cbn [process_hdus] in Hrun.
  destruct (is_BinTableHDU hdu) eqn:Hbin.
  2: { apply (Hskip s); try done. intros name (Hb & _). congruence. }
  unfold bind in Hrun at 1.
  destruct (_detect_monitoring_source_run hdu s)
    as (source_name & s1 & -> & Hs1 & Hp1 & Ho1 & Hdetect) in Hrun.
  destruct source_name as [name|].
  2: { unfold bind in Hrun at 1.
       destruct (logger_run (warning_undetermined (hdu_name hdu) file) s1)
         as (s2 & -> & Hs2 & Hp2 & Ho2) in Hrun.
       apply (Hskip s2); try congruence.
       intros name (_ & Hsource & Hcols).
       assert (None = Some name) as [=].
       apply Hdetect. split; [done|]. by eapply has_required_columns_registered. }
  unfold bind in Hrun at 1.
  destruct (_validate_table_structure_run hdu name s1)
    as (valid & s2 & -> & Hs2 & Hp2 & Ho2 & Hvalid) in Hrun.
  destruct valid.
  2: { unfold bind in Hrun at 1.
       destruct (logger_run (warning_missing_columns (hdu_name hdu) file name) s2)
         as (s3 & -> & Hs3 & Hp3 & Ho3) in Hrun.
       apply (Hskip s3); try congruence.
       intros name' (_ & Hsource & Hcols).
       assert (name' = name) as ->.
       { destruct (proj1 (Hdetect name) eq_refl) as [Hn _]. congruence. }
       by apply Hvalid in Hcols. }
  unfold _process_table in Hrun.
  assert (usable hdu name) as Huse.
  { split; [done|]. split; [by apply Hdetect|by apply Hvalid]. }
  destruct (Table_read hdu) as [e|table] eqn:Hread.
  - injection Hrun as <- <-. split; [congruence|]. split; [congruence|].
    right. exists [], hdu, rest, name. rewrite Hread.
    split; [done|]. split; [constructor|]. split; [done|]. split; [done|congruence].
  - injection Hrun as <- <-. cbn. split; [congruence|]. split; [congruence|].
    right. exists [], hdu, rest, name. rewrite Hread.
    split; [done|]. split; [constructor|]. split; [done|]. split; [done|].
    unfold stored_table. by rewrite Hs2, Hs1.
Qed.

Lemma _process_single_file_run (file : string) (s : state) (r : outcome ())
    (s' : state) :
  _process_single_file file s = (r, s') ->
  provenance s' = provenance s ++ [(file, "Monitoring")] /\
  open_files s' = open_files s /\
  match fits_open file with
  | inl e => r = Raises (Raised e) /\ _monitoring_sources s' = _monitoring_sources s
  | inr hdul =>
      (r = Returns () /\ _monitoring_sources s' = _monitoring_sources s /\
       Forall (fun hdu => skipped hdu) hdul) \/
      (exists pre hdu post source_name,
         hdul = pre ++ hdu :: post /\
         Forall (fun hdu => skipped hdu) pre /\
         usable hdu source_name /\
         match Table_read hdu with
         | inr table =>
             r = Returns () /\
             _monitoring_sources s'
               = <[source_name := stored_table hdu table]> (_monitoring_sources s)
         | inl e =>
             r = Raises (Raised e) /\ _monitoring_sources s' = _monitoring_sources s
         end)
  end.
Proof.
  unfold _process_single_file, bind, add_input_file, with_fits_open.
  destruct (fits_open file) as [e|hdul].
  { intros [= <- <-]. done. }
  unfold try_finally.
  destruct (process_hdus file hdul _) as [r0 s1] eqn:Hloop.
  intros [= <- <-].
  apply process_hdus_run in Hloop as (Hp & Ho & Hcases).
  split; [exact Hp|]. split; [cbn; by rewrite Ho|].
  exact Hcases.
Qed.

(** X19 ([_process_single_file]): when a file has been processed, it
    could be opened, and either none of its header data units is a
    binary table of a registered monitoring source with all the columns
    of that source, and no table is stored, or the table of the first
    such unit is stored under the name of its source, with the
    metadata of the header; the units after it are not looked at. *)
Theorem first_usable_table_of_a_file (file : string) (s s' : state) :
  _process_single_file file s = (Returns (), s') ->
  exists hdul,
    fits_open file = inr hdul /\
    ((Forall (fun hdu => forall source_name, ~ usable hdu source_name) hdul /\
      _monitoring_sources s' = _monitoring_sources s) \/
     (exists pre hdu post source_name table,
        hdul = pre ++ hdu :: post /\
        Forall (fun hdu => forall source_name, ~ usable hdu source_name) pre /\
        usable hdu source_name /\
        Table_read hdu = inr table /\
        _monitoring_sources s'
          = <[source_name := stored_table hdu table]> (_monitoring_sources s))).
Proof.
  intros Hrun. apply _process_single_file_run in Hrun as (_ & _ & Hcases).
  destruct (fits_open file) as [e|hdul]; [by destruct Hcases|].
  exists hdul. split; [done|].
  destruct Hcases as [(_ & Hs & Hall)|(pre & hdu & post & name & -> & Hpre & Huse & Hread)].
  - by left.
  - right. destruct (Table_read hdu) as [e|table] eqn:Htable; [by destruct Hread|].
    exists pre, hdu, post, name, table. by destruct Hread.
Qed.

Lemma process_files_run (input_files : list string) (s : state) (r : outcome ())
    (s' : state) :
  process_files input_files s = (r, s') ->
  open_files s' = open_files s /\
  exists n,
    n <= length input_files /\
    provenance s'
      = provenance s ++ map (fun file => (file, "Monitoring")) (take n input_files) /\
    (r = Returns () -> n = length input_files) /\
    (forall e, r = Raises e -> 0 < n).
Proof.
  revert s. induction input_files as [|file rest IH]; intros s.
  { intros [= <- <-]. split; [done|]. exists 0.
    split; [done|]. split; [by rewrite app_nil_r|]. done. }
  cbn [process_files]. unfold bind at 1.
  destruct (_process_single_file file s) as [[[]|e] s1] eqn:Hfile.
  - intros Hrest. apply _process_single_file_run in Hfile as (Hp & Ho & _).
    apply IH in Hrest as (Ho' & n & Hn & Hp' & Hall & Hraise).
    split; [congruence|]. exists (S n).
    split; [cbn; lia|]. split.
    { rewrite Hp', Hp. cbn. by rewrite <- app_assoc. }
    split; [intros Hr; cbn; by rewrite Hall|intros; lia].
  - intros [= <- <-]. apply _process_single_file_run in Hfile as (Hp & Ho & _).
    split; [done|]. exists 1.
    split; [cbn; lia|]. split; [by rewrite Hp|]. split; [done|intros; lia].
Qed.

Lemma validate_input_files_run (input_files : list string) (s : state)
    (r : outcome ()) (s' : state) :
  validate_input_files input_files s = (r, s') ->
  s' = s /\
  (r = Returns () /\ Forall (fun file => valid_input_file file = true) input_files \/
   exists pre file post,
     input_files = pre ++ file :: post /\
     Forall (fun file => valid_input_file file = true) pre /\
     valid_input_file file = false /\
     r = Raises (TraitError file)).
Proof.
  induction input_files as [|file rest IH].
  { intros [= <- <-]. split; [done|]. left. split; [done|constructor]. }
  cbn [validate_input_files]. destruct (valid_input_file file) eqn:Hvalid.
  - intros Hrun. destruct (IH Hrun) as [-> [[-> Hall]|(pre & f & post & -> & Hpre & Hf & ->)]].
    + split; [done|]. left. split; [done|]. by constructor.
    + split; [done|]. right. exists (file :: pre), f, post.
      split; [done|]. split; [by constructor|]. done.
  - intros [= <- <-]. split; [done|]. right. exists [], file, rest.
    split; [done|]. split; [constructor|]. done.
Qed.

(** The constructor, after the validation of the input files. *)
Lemma __init___run (input_files : list string) (s : state) (r : outcome ())
    (s' : state) :
  __init__ input_files s = (r, s') ->
  (exists pre file post,
     input_files = pre ++ file :: post /\
     Forall (fun file => valid_input_file file = true) pre /\
     valid_input_file file = false /\
     r = Raises (TraitError file) /\ s' = s) \/
  (Forall (fun file => valid_input_file file = true) input_files /\
   match input_files with
   | [] => raise InputMissing
   | _ => bind (set_monitoring_sources ∅) (fun _ => process_files input_files)
   end s = (r, s')).
Proof.
  unfold __init__. unfold bind at 1.
  destruct (validate_input_files input_files s) as [v s1] eqn:Hvalidate.
  apply validate_input_files_run in Hvalidate
    as [-> [[-> Hall]|(pre & file & post & -> & Hpre & Hfile & ->)]].
  - intros Hrun. by right.
  - intros [= <- <-]. left. exists pre, file, post. done.
Qed.

(** X20 ([FITSMonitoringSource.__init__], [_process_single_file]):
    however the constructor ends, it leaves open no file that it
    opened, and it has recorded in the provenance, with the role
    [Monitoring] and in their order, the input files up to the one at
    which it stopped: all of them when it returns, none when it raises
    [InputMissing]. *)
Theorem input_files_are_closed_and_recorded (input_files : list string)
    (s : state) (r : outcome ()) (s' : state) :
  __init__ input_files s = (r, s') ->
  open_files s' = open_files s /\
  exists n,
    n <= length input_files /\
    provenance s'
      = provenance s ++ map (fun file => (file, "Monitoring")) (take n input_files) /\
    (r = Returns () -> n = length input_files) /\
    (r = Raises InputMissing -> n = 0).
Proof.
  intros Hinit.
  apply __init___run in Hinit
    as [(pre & invalid & post & _ & _ & _ & -> & ->)|[_ Hinit]].
  { split; [done|]. exists 0.
    split; [lia|]. split; [by rewrite app_nil_r|]. done. }
  revert Hinit. destruct input_files as [|file rest].
  { intros [= <- <-]. split; [done|]. exists 0.
    split; [done|]. split; [by rewrite app_nil_r|]. done. }
  unfold bind at 1, set_monitoring_sources at 1.
  intros Hrun. pose proof Hrun as Hrun'.
  apply process_files_run in Hrun as (Ho & n & Hn & Hp & Hall & Hraise).
  split; [exact Ho|]. exists n. split; [exact Hn|]. split; [exact Hp|].
  split; [exact Hall|].
  intros ->. exfalso. clear -Hrun'. revert Hrun'.
  generalize (file :: rest). intros files.
  match goal with |- process_files _ ?s0 = _ -> _ => generalize s0 end.
  induction files as [|f files IH]; intros s0; [done|].
  cbn [process_files]. unfold bind at 1.
  destruct (_process_single_file f s0) as [[[]|e] s1] eqn:Hfile.
  - apply IH.
  - intros [= -> <-]. apply _process_single_file_run in Hfile as (_ & _ & Hcases).
    destruct (fits_open f) as [e|hdul]; [by destruct Hcases|].
    destruct Hcases as [(? & _)|(pre & hdu & post & name & _ & _ & _ & Hread)]; [done|].
    destruct (Table_read hdu); by destruct Hread.
Qed.

Lemma process_files_raise (input_files : list string) (s : state) (e : exn AstropyError)
    (s' : state) :
  process_files input_files s = (Raises e, s') ->
  exists file a,
    file ∈ input_files /\ e = Raised a /\
    (fits_open file = inl a \/
     exists hdul pre hdu post source_name,
       fits_open file = inr hdul /\ hdul = pre ++ hdu :: post /\
       Forall (fun hdu => skipped hdu) pre /\
       usable hdu source_name /\ Table_read hdu = inl a).
Proof.
  revert s. induction input_files as [|file rest IH]; intros s; [done|].
  cbn [process_files]. unfold bind at 1.
  destruct (_process_single_file file s) as [[[]|e0] s1] eqn:Hfile.
  - intros Hrest. destruct (IH _ Hrest) as (file' & a & Hin & He & Hcause).
    exists file', a. split; [by apply list_elem_of_further|]. done.
  - intros [= -> <-]. apply _process_single_file_run in Hfile as (_ & _ & Hcases).
    destruct (fits_open file) as [a|hdul] eqn:Hopen.
    { destruct Hcases as [[= ->] _]. exists file, a.
      split; [apply list_elem_of_here|]. split; [done|]. by left. }
    destruct Hcases as [(? & _)|(pre & hdu & post & name & -> & Hpre & Huse & Hread)];
      [done|].
    destruct (Table_read hdu) as [a|table] eqn:Htable; [|by destruct Hread].
    destruct Hread as [[= ->] _]. exists file, a.
    split; [apply list_elem_of_here|]. split; [done|]. right.
    exists (pre ++ hdu :: post), pre, hdu, post, name. done.
Qed.

(** X21 ([FITSMonitoringSource.__init__]): what the constructor
    raises.  It raises [TraitError] for the first of the input files
    that does not exist or is a directory, and [InputMissing] when the
    list of input files is empty, and has done nothing then; with
    input files that all exist and are no directories, what it raises
    is what astropy raised for one of them, either on opening it or on
    reading the table of its first usable header data unit. *)
Theorem init_errors (input_files : list string) (s : state)
    (e : exn AstropyError) (s' : state) :
  __init__ input_files s = (Raises e, s') ->
  (exists pre file post,
     input_files = pre ++ file :: post /\
     Forall (fun file => path_exists file = true /\ path_is_dir file = false) pre /\
     (path_exists file = false \/ path_is_dir file = true) /\
     e = TraitError file /\ s' = s) \/
  (input_files = [] /\ e = InputMissing /\ s' = s) \/
  (Forall (fun file => path_exists file = true /\ path_is_dir file = false)
     input_files /\
   exists file a,
     file ∈ input_files /\ e = Raised a /\
     (fits_open file = inl a \/
      exists hdul pre hdu post source_name,
        fits_open file = inr hdul /\ hdul = pre ++ hdu :: post /\
        Forall (fun hdu => forall source_name, ~ usable hdu source_name) pre /\
        usable hdu source_name /\ Table_read hdu = inl a)).
Proof.
  assert (Hvalid : forall files,
    Forall (fun file => valid_input_file file = true) files ->
    Forall (fun file => path_exists file = true /\ path_is_dir file = false) files).
  { intros files Hfiles. eapply Forall_impl; [exact Hfiles|].
    intros file. unfold valid_input_file.
    destruct (path_exists file), (path_is_dir file); done. }
  intros Hinit.
  apply __init___run in Hinit
    as [(pre & invalid & post & -> & Hpre & Hinvalid & [= ->] & ->)|[Hall Hinit]].
  { left. exists pre, invalid, post. split; [done|]. split; [by apply Hvalid|].
    split; [|done]. unfold valid_input_file in Hinvalid.
    destruct (path_exists invalid), (path_is_dir invalid); try done; auto. }
  right. revert Hinit. destruct input_files as [|file rest].
  { intros [= <- <-]. by left. }
  unfold bind at 1, set_monitoring_sources at 1.
  intros Hrun. right. split; [by apply Hvalid|].
  by apply process_files_raise in Hrun.
Qed.

Lemma process_files_sources (input_files : list string) (s : state) (r : outcome ())
    (s' : state) (source_name : string) (table : Table) :
  process_files input_files s = (r, s') ->
  _monitoring_sources s' !! source_name = Some table ->
  _monitoring_sources s !! source_name = Some table \/
  exists file hdul pre hdu post read,
    file ∈ input_files /\ fits_open file = inr hdul /\
    hdul = pre ++ hdu :: post /\
    Forall (fun hdu => skipped hdu) pre /\
    usable hdu source_name /\
    Table_read hdu = inr read /\ table = stored_table hdu read.
Proof.
  revert s. induction input_files as [|file rest IH]; intros s.
  { intros [= <- <-] Hlookup. by left. }
  cbn [process_files]. unfold bind at 1.
  destruct (_process_single_file file s) as [r0 s1] eqn:Hfile.
  intros Hrest Hlookup.
  assert (_monitoring_sources s1 !! source_name = Some table ->
          _monitoring_sources s !! source_name = Some table \/
          exists file0 hdul pre hdu post read,
            file0 ∈ file :: rest /\ fits_open file0 = inr hdul /\
            hdul = pre ++ hdu :: post /\
            Forall (fun hdu => skipped hdu) pre /\
            usable hdu source_name /\
            Table_read hdu = inr read /\ table = stored_table hdu read) as Hone.
  { intros Hs1. apply _process_single_file_run in Hfile as (_ & _ & Hcases).
    destruct (fits_open file) as [a|hdul] eqn:Hopen.
    { destruct Hcases as [_ Hs]. left. by rewrite <- Hs. }
    destruct Hcases as [(_ & Hs & _)|(pre & hdu & post & name & -> & Hpre & Huse & Hread)].
    { left. by rewrite <- Hs. }
    destruct (Table_read hdu) as [a|read] eqn:Htable.
    { destruct Hread as [_ Hs]. left. by rewrite <- Hs. }
    destruct Hread as [_ Hs]. rewrite Hs in Hs1.
    destruct (decide (name = source_name)) as [->|Hne].
    - rewrite lookup_insert_eq in Hs1. injection Hs1 as <-.
      right. exists file, (pre ++ hdu :: post), pre, hdu, post, read.
      split; [apply list_elem_of_here|]. done.
    - rewrite lookup_insert_ne in Hs1 by done. by left. }
  destruct r0 as [[]|e0].
  - destruct (IH _ Hrest Hlookup) as [Hs1|(file0 & hdul & pre & hdu & post & read & Hin & Hrest')].
    + by apply Hone.
    + right. exists file0, hdul, pre, hdu, post, read.
      split; [by apply list_elem_of_further|]. exact Hrest'.
  - injection Hrest as <- <-. by apply Hone.
Qed.

(** X22 ([FITSMonitoringSource.__init__], [get_table]): after the
    constructor has returned, whatever was loaded before, every
    monitoring source that [get_table] returns a table for is a
    registered one, and the table is the one read from the first
    usable header data unit of one of the input files, a binary table
    that names this source and has all its columns; for a name that is
    not registered [get_table] raises [KeyError]. *)
Theorem loaded_sources_are_usable_tables (input_files : list string)
    (s s' : state) :
  __init__ input_files s = (Returns (), s') ->
  (forall source_name table s'',
     get_table source_name s' = (Returns table, s'') ->
     s'' = s' /\
     is_Some (dict_get source_name MONITORING_SOURCES) /\
     exists file hdul pre hdu post read,
       file ∈ input_files /\ fits_open file = inr hdul /\
       hdul = pre ++ hdu :: post /\
       Forall (fun hdu => forall source_name, ~ usable hdu source_name) pre /\
       usable hdu source_name /\
       Table_read hdu = inr read /\ table = stored_table hdu read) /\
  (forall source_name,
     dict_get source_name MONITORING_SOURCES = None ->
     get_table source_name s' = (Raises (KeyError source_name), s')).
Proof.
  intros Hinit.
  apply __init___run in Hinit as [(? & ? & ? & _ & _ & _ & [=] & _)|[_ Hinit]].
  revert Hinit. destruct input_files as [|file rest]; [done|].
  unfold bind at 1, set_monitoring_sources at 1.
  intros Hrun.
  assert (forall source_name table,
            _monitoring_sources s' !! source_name = Some table ->
            exists file0 hdul pre hdu post read,
              file0 ∈ file :: rest /\ fits_open file0 = inr hdul /\
              hdul = pre ++ hdu :: post /\
              Forall (fun hdu => skipped hdu) pre /\
              usable hdu source_name /\
              Table_read hdu = inr read /\ table = stored_table hdu read) as Hinv.
  { intros name table Hlookup.
    destruct (process_files_sources _ _ _ _ _ _ Hrun Hlookup) as [Hempty|Hfrom];
      [|exact Hfrom].
    cbn in Hempty. by rewrite lookup_empty in Hempty. }
  split.
  - intros name table s''. unfold get_table.
    destruct (_monitoring_sources s' !! name) as [table'|] eqn:Hlookup; [|done].
    intros [= <- <-]. split; [done|].
    destruct (Hinv _ _ Hlookup) as (file0 & hdul & pre & hdu & post & read & Hfrom).
    split.
    { destruct Hfrom as (_ & _ & _ & _ & (_ & _ & Hcols) & _).
      by eapply has_required_columns_registered. }
    by exists file0, hdul, pre, hdu, post, read.
  - intros name Hnone. unfold get_table.
    destruct (_monitoring_sources s' !! name) as [table|] eqn:Hlookup; [|done].
    destruct (Hinv _ _ Hlookup) as (? & ? & ? & hdu & ? & ? & _ & _ & _ & _ & Huse & _).
    destruct Huse as (_ & _ & Hcols).
    apply has_required_columns_registered in Hcols as [? Hsome]. congruence.
Qed.

Lemma collect_metadata_lookup (header : gmap string card) (keywords : list string)
    (metadata : gmap string card) (keyword : string) :
  collect_metadata header keywords metadata !! keyword
  = if decide (keyword ∈ keywords) then
      match header !! keyword with
      | Some value => Some value
      | None => metadata !! keyword
      end
    else metadata !! keyword.
Proof.
  revert metadata. induction keywords as [|k rest IH]; intros metadata.
  { cbn [collect_metadata]. case_decide as Hin; [by apply elem_of_nil in Hin|done]. }
  cbn [collect_metadata]. rewrite IH.
  destruct (decide (keyword = k)) as [->|Hne].
  - rewrite (decide_True (P := k ∈ k :: rest)) by apply list_elem_of_here.
    destruct (header !! k) as [value|] eqn:Hk.
    + rewrite lookup_insert_eq. by case_decide.
    + by case_decide.
  - assert (keyword ∈ k :: rest <-> keyword ∈ rest) as Hiff.
    { rewrite elem_of_cons. split; [intros [?|?]; [contradiction|assumption]|by right]. }
    assert ((match header !! k with
             | Some value => <[k:=value]> metadata
             | None => metadata
             end) !! keyword = metadata !! keyword) as ->.
    { destruct (header !! k); [by rewrite lookup_insert_ne|done]. }
    destruct (decide (keyword ∈ rest)) as [Hin|Hout].
    + by rewrite decide_True by (by apply Hiff).
    + by rewrite decide_False by (by rewrite Hiff).
Qed.

Lemma stored_table_meta (hdu : HDU) (table : Table) (keyword : string) :
  table_meta (stored_table hdu table) !! keyword
  = if decide (keyword ∈ ["RADESYS"; SOURCE; NAME; DESCRIPTION]) then
      match hdu_header hdu !! keyword with
      | Some value => Some value
      | None => table_meta table !! keyword
      end
    else table_meta table !! keyword.
Proof.
  unfold stored_table.
  pose proof (collect_metadata_lookup (hdu_header hdu)
                ["RADESYS"; SOURCE; NAME; DESCRIPTION] ∅ keyword) as Hmeta.
  rewrite lookup_empty in Hmeta.
  destruct (decide (collect_metadata (hdu_header hdu)
                      ["RADESYS"; SOURCE; NAME; DESCRIPTION] ∅ = ∅)) as [Hempty|Hsome].
  - rewrite Hempty, lookup_empty in Hmeta.
    case_decide; [|done]. by destruct (hdu_header hdu !! keyword).
  - cbn [meta_update table_meta].
    case_decide.
    + destruct (hdu_header hdu !! keyword) as [value|].
      * by apply lookup_union_Some_l.
      * by rewrite lookup_union_r.
    + by rewrite lookup_union_r.
Qed.

(** X23 ([_process_table], [get_table]): once [_process_table] has
    stored the table of a header data unit, [get_table] returns for
    its source the rows that astropy read, with a metadata in which
    each of the keywords RADESYS, MSOURCE, MNAME and MDESC that the
    header has carries the value of the header, and every other entry
    is the one of the table read; the tables of the other sources are
    the ones there were. *)
Theorem stored_table_carries_header_metadata (hdu : HDU) (source_name : string)
    (s s' : state) :
  _process_table hdu source_name s = (Returns (), s') ->
  exists read table,
    Table_read hdu = inr read /\
    get_table source_name s' = (Returns table, s') /\
    table_rows table = table_rows read /\
    (forall keyword value,
       keyword ∈ ["RADESYS"; "MSOURCE"; "MNAME"; "MDESC"] ->
       hdu_header hdu !! keyword = Some value ->
       table_meta table !! keyword = Some value) /\
    (forall keyword,
       keyword ∉ ["RADESYS"; "MSOURCE"; "MNAME"; "MDESC"] \/
       hdu_header hdu !! keyword = None ->
       table_meta table !! keyword = table_meta read !! keyword) /\
    (forall other,
       other <> source_name ->
       get_table other s' = match get_table other s with
                            | (r, _) => (r, s')
                            end).
Proof.
  unfold _process_table. destruct (Table_read hdu) as [a|read]; [done|].
  fold (stored_table hdu read). unfold set_monitoring_sources.
  intros [= <-].
  exists read, (stored_table hdu read). split; [done|].
  split. { unfold get_table. cbn. by rewrite lookup_insert_eq. }
  split. { unfold stored_table. by case_decide. }
  split.
  { intros keyword value Hin Hvalue. rewrite stored_table_meta.
    rewrite decide_True by exact Hin. by rewrite Hvalue. }
  split.
  { intros keyword Hcase. rewrite stored_table_meta.
    case_decide as Hin; [|done].
    destruct Hcase as [Hout|Hnone]; [done|]. by rewrite Hnone. }
  intros other Hne. unfold get_table. cbn.
  rewrite lookup_insert_ne by done.
  by destruct (_monitoring_sources s !! other).
Qed.

End FitsProperties.

(** ** The properties on the example files *)

Section FitsExamples.

Import fitsdataformat fitsmonitoringsource fits_examples.

Local Existing Instance example_astropy.
Local Existing Instance example_file_system.

Local Abbreviation get_table := (@get_table (list (list Z)) string).

Lemma first_usable_table_of_a_file_witness :
  exists hdul,
    fits_open "drive.fits" = inr hdul /\
    ((Forall (fun hdu => forall source_name, ~ usable hdu source_name) hdul /\
      _monitoring_sources
        (_process_single_file "drive.fits" example_state).2
        = _monitoring_sources example_state) \/
     (exists pre hdu post source_name table,
        hdul = pre ++ hdu :: post /\
        Forall (fun hdu => forall source_name, ~ usable hdu source_name) pre /\
        usable hdu source_name /\
        Table_read hdu = inr table /\
        _monitoring_sources
          (_process_single_file "drive.fits" example_state).2
          = <[source_name := stored_table hdu table]>
              (_monitoring_sources example_state))).
Proof.
  apply (first_usable_table_of_a_file (astropy := example_astropy)).
  vm_compute. reflexivity.
Defined.

Lemma input_files_are_closed_and_recorded_witness :
  let input_files := ["drive.fits"; "corrupt.fits"; "fram.fits"] in
  let s' := (__init__ input_files example_state).2 in
  open_files s' = open_files example_state /\
  exists n,
    n <= length input_files /\
    provenance s'
      = provenance example_state
        ++ map (fun file => (file, "Monitoring")) (take n input_files) /\
    (Raises (Raised "ValueError") = Returns () :> outcome () -> n = length input_files) /\
    (Raises (Raised "ValueError") = Raises InputMissing :> outcome () -> n = 0).
Proof.
  intros input_files s'.
  apply (input_files_are_closed_and_recorded (astropy := example_astropy)
           input_files example_state (Raises (Raised "ValueError")) s').
  vm_compute. reflexivity.
Defined.

Lemma init_errors_witness :
  let input_files := ["drive.fits"; "monitoring"; "missing.fits"] in
  let s' := (__init__ input_files example_state).2 in
  (exists pre file post,
     input_files = pre ++ file :: post /\
     Forall (fun file => path_exists file = true /\ path_is_dir file = false) pre /\
     (path_exists file = false \/ path_is_dir file = true) /\
     TraitError "monitoring" = TraitError file :> exn string /\ s' = example_state) \/
  (input_files = [] /\ TraitError "monitoring" = InputMissing :> exn string /\
   s' = example_state) \/
  (Forall (fun file => path_exists file = true /\ path_is_dir file = false)
     input_files /\
   exists file a,
     file ∈ input_files /\ TraitError "monitoring" = Raised a /\
     (fits_open file = inl a \/
      exists hdul pre hdu post source_name,
        fits_open file = inr hdul /\ hdul = pre ++ hdu :: post /\
        Forall (fun hdu => forall source_name, ~ usable hdu source_name) pre /\
        usable hdu source_name /\ Table_read hdu = inl a)).
Proof.
  intros input_files s'.
  apply (init_errors (astropy := example_astropy) input_files example_state
           (TraitError "monitoring") s').
  vm_compute. reflexivity.
Defined.

Lemma loaded_sources_are_usable_tables_witness :
  let input_files := ["drive.fits"; "empty.fits"; "fram.fits"] in
  let s' := (__init__ input_files example_state).2 in
  (forall source_name table s'',
     get_table source_name s' = (Returns table, s'') ->
     s'' = s' /\
     is_Some (dict_get source_name MONITORING_SOURCES) /\
     exists file hdul pre hdu post read,
       file ∈ input_files /\ fits_open file = inr hdul /\
       hdul = pre ++ hdu :: post /\
       Forall (fun hdu => forall source_name, ~ usable hdu source_name) pre /\
       usable hdu source_name /\
       Table_read hdu = inr read /\ table = stored_table hdu read) /\
  (forall source_name,
     dict_get source_name MONITORING_SOURCES = None ->
     get_table source_name s' = (Raises (KeyError source_name), s')).
Proof.
  intros input_files s'.
  apply (loaded_sources_are_usable_tables (astropy := example_astropy)
           input_files example_state s').
  vm_compute. reflexivity.
Defined.

Lemma stored_table_carries_header_metadata_witness :
  let s' := (_process_table example_fram_hdu "STPN-01" example_state).2 in
  exists read table,
    Table_read example_fram_hdu = inr read /\
    get_table "STPN-01" s' = (Returns table, s') /\
    table_rows table = table_rows read /\
    (forall keyword value,
       keyword ∈ ["RADESYS"; "MSOURCE"; "MNAME"; "MDESC"] ->
       hdu_header example_fram_hdu !! keyword = Some value ->
       table_meta table !! keyword = Some value) /\
    (forall keyword,
       keyword ∉ ["RADESYS"; "MSOURCE"; "MNAME"; "MDESC"] \/
       hdu_header example_fram_hdu !! keyword = None ->
       table_meta table !! keyword = table_meta read !! keyword) /\
    (forall other,
       other <> "STPN-01" ->
       get_table other s' = match get_table other example_state with
                            | (r, _) => (r, s')
                            end).
Proof.
  intros s'.
  apply (stored_table_carries_header_metadata (astropy := example_astropy)
           example_fram_hdu "STPN-01" example_state s').
  vm_compute. reflexivity.
Defined.

End FitsExamples.
